(** * docs/scrape_help.py: a shallow embedding and its checked properties

    The script scrapes the help text of [conda] and of its subcommands and
    turns it into manual pages, HTML and reStructuredText fragments.  It is
    sequential glue around external programs, so the embedding is a state and
    exception monad over an explicit world: every subprocess the script
    starts is answered by an oracle of the environment, and everything the
    script does to the outside (processes started, lines printed, files
    written) is appended to a log.

    Python values are modelled as the script has them: a [str] is a sequence
    of Unicode code points, [bytes] is a sequence of bytes, and the string
    methods the script calls ([splitlines], [strip], [split], [replace],
    [join], [decode]) are written out with CPython's behaviour. *)

From Stdlib Require Import List NArith ZArith Bool Lia Arith Permutation.
From Stdlib Require Strings.String Strings.Ascii.
From Stdlib Require Import Strings.Byte.
Import ListNotations.
Import String.StringSyntax.

Delimit Scope string_scope with string.

Set Implicit Arguments.

(** ** Python text and bytes *)

(** A Python [str]: a sequence of code points. *)
Definition char := N.
Definition str := list char.
Definition bytes := list byte.

(** A literal of the source, as a [str]. *)
Definition lit (s : String.string) : str :=
  List.map Ascii.N_of_ascii (String.list_ascii_of_string s).

Arguments lit s%_string.

(** [a == b] on strings and on lists of strings. *)
Fixpoint str_eqb (a b : str) : bool :=
  match a, b with
  | [], [] => true
  | x :: a', y :: b' => (x =? y)%N && str_eqb a' b'
  | _, _ => false
  end.

Fixpoint argv_eqb (a b : list str) : bool :=
  match a, b with
  | [], [] => true
  | x :: a', y :: b' => str_eqb x y && argv_eqb a' b'
  | _, _ => false
  end.

Definition is_empty (s : str) : bool :=
  match s with [] => true | _ :: _ => false end.

(** [Py_UNICODE_ISSPACE]: what [str.strip], [str.split()] and the regular
    expression class [\s] take for white space. *)
Definition isspace (c : char) : bool :=
  ((9 <=? c) && (c <=? 13) || (28 <=? c) && (c <=? 32) ||
   (c =? 0x85) || (c =? 0xA0) || (c =? 0x1680) ||
   (0x2000 <=? c) && (c <=? 0x200A) ||
   (c =? 0x2028) || (c =? 0x2029) || (c =? 0x202F) || (c =? 0x205F) ||
   (c =? 0x3000))%N.

(** [Py_UNICODE_ISLINEBREAK]: the line boundaries of [str.splitlines]. *)
Definition islinebreak (c : char) : bool :=
  ((10 <=? c) && (c <=? 13) || (28 <=? c) && (c <=? 30) ||
   (c =? 0x85) || (c =? 0x2028) || (c =? 0x2029))%N.

Definition CR : char := 13%N.
Definition LF : char := 10%N.
Definition SPACE : char := 32%N.
Definition COMMA : char := 44%N.
Definition LBRACE : char := 123%N.
Definition RBRACE : char := 125%N.
Definition SLASH : char := 47%N.

(** [str.splitlines()]: [cur] is the line being read.  A carriage return
    followed by a line feed is one boundary; a text that ends in a boundary
    has no empty last line. *)
Fixpoint splitlines_from (cur s : str) : list str :=
  match s with
  | [] => match cur with [] => [] | _ :: _ => [cur] end
  | c :: rest =>
      if islinebreak c then
        cur :: (if (c =? CR)%N
                then match rest with
                     | d :: rest' =>
                         if (d =? LF)%N then splitlines_from [] rest'
                         else splitlines_from [] rest
                     | [] => splitlines_from [] rest
                     end
                else splitlines_from [] rest)
      else splitlines_from (cur ++ [c]) rest
  end.

Definition splitlines (s : str) : list str := splitlines_from [] s.

(** [str.strip()]. *)
Fixpoint lstrip (s : str) : str :=
  match s with
  | [] => []
  | c :: rest => if isspace c then lstrip rest else s
  end.

Definition rstrip (s : str) : str := rev (lstrip (rev s)).
Definition strip (s : str) : str := rstrip (lstrip s).

(** [str.split()] without separator: the maximal runs of characters that are
    not white space. *)
Fixpoint split_ws_from (cur s : str) : list str :=
  match s with
  | [] => match cur with [] => [] | _ :: _ => [cur] end
  | c :: rest =>
      if isspace c then
        match cur with
        | [] => split_ws_from [] rest
        | _ :: _ => cur :: split_ws_from [] rest
        end
      else split_ws_from (cur ++ [c]) rest
  end.

Definition split_ws (s : str) : list str := split_ws_from [] s.

(** [s.split(sep)] for a separator of one character, as in [split(",")]. *)
Fixpoint split_char_from (sep : char) (cur s : str) : list str :=
  match s with
  | [] => [cur]
  | c :: rest =>
      if (c =? sep)%N then cur :: split_char_from sep [] rest
      else split_char_from sep (cur ++ [c]) rest
  end.

Definition split_char (sep : char) (s : str) : list str :=
  split_char_from sep [] s.

(** [sep.join(parts)]. *)
Fixpoint join (sep : str) (parts : list str) : str :=
  match parts with
  | [] => []
  | [p] => p
  | p :: ps => p ++ sep ++ join sep ps
  end.

(** [s.startswith(p)]. *)
Fixpoint startswith (p s : str) : bool :=
  match p, s with
  | [], _ => true
  | _ :: _, [] => false
  | a :: p', b :: s' => (a =? b)%N && startswith p' s'
  end.

(** [old in s]. *)
Fixpoint contains (old s : str) : bool :=
  startswith old s ||
  match s with
  | [] => false
  | _ :: rest => contains old rest
  end.

(** [s.replace(old, new)] for a non-empty [old]: scan from the left; at an
    occurrence of [old] emit [new] and jump over the occurrence ([skip]
    counts the characters of it still to jump over). *)
Fixpoint replace_from (old new : str) (skip : nat) (s : str) : str :=
  match s with
  | [] => []
  | c :: rest =>
      match skip with
      | S k => replace_from old new k rest
      | O =>
          if startswith old s
          then new ++ replace_from old new (length old - 1) rest
          else c :: replace_from old new 0 rest
      end
  end.

(** [s.replace(old, new)].  An empty [old] matches before every character
    and at the end. *)
Definition replace (s old new : str) : str :=
  match old with
  | [] => new ++ flat_map (fun c => c :: new) s
  | _ :: _ => replace_from old new 0 s
  end.

(** [bytes.decode("utf-8")], strict: [None] stands for [UnicodeDecodeError]
    (a stray continuation byte, a truncated or overlong sequence, a
    surrogate, a code point above U+10FFFF). *)
Definition is_cont (b : N) : bool := ((0x80 <=? b) && (b <=? 0xBF))%N.

Definition cont_bits (b : N) : N := N.land b 0x3F.

Fixpoint decode_utf8 (bs : bytes) : option str :=
  match bs with
  | [] => Some []
  | b0 :: r0 =>
      let n0 := Byte.to_N b0 in
      if (n0 <? 0x80)%N then option_map (cons n0) (decode_utf8 r0)
      else if (n0 <? 0xC2)%N then None
      else if (n0 <? 0xE0)%N then
        match r0 with
        | b1 :: r1 =>
            let n1 := Byte.to_N b1 in
            if is_cont n1
            then option_map
                   (cons (N.shiftl (N.land n0 0x1F) 6 + cont_bits n1)%N)
                   (decode_utf8 r1)
            else None
        | _ => None
        end
      else if (n0 <? 0xF0)%N then
        match r0 with
        | b1 :: r1 =>
            match r1 with
            | b2 :: r2 =>
                let n1 := Byte.to_N b1 in
                let n2 := Byte.to_N b2 in
                let cp := (N.shiftl (N.land n0 0x0F) 12
                           + N.shiftl (cont_bits n1) 6 + cont_bits n2)%N in
                if is_cont n1 && is_cont n2 && (0x800 <=? cp)%N
                   && negb ((0xD800 <=? cp) && (cp <=? 0xDFFF))%N
                then option_map (cons cp) (decode_utf8 r2)
                else None
            | _ => None
            end
        | _ => None
        end
      else if (n0 <? 0xF5)%N then
        match r0 with
        | b1 :: r1 =>
            match r1 with
            | b2 :: r2 =>
                match r2 with
                | b3 :: r3 =>
                    let n1 := Byte.to_N b1 in
                    let n2 := Byte.to_N b2 in
                    let n3 := Byte.to_N b3 in
                    let cp := (N.shiftl (N.land n0 0x07) 18
                               + N.shiftl (cont_bits n1) 12
                               + N.shiftl (cont_bits n2) 6 + cont_bits n3)%N in
                    if is_cont n1 && is_cont n2 && is_cont n3
                       && (0x10000 <=? cp)%N && (cp <=? 0x10FFFF)%N
                    then option_map (cons cp) (decode_utf8 r3)
                    else None
                | _ => None
                end
            | _ => None
            end
        | _ => None
        end
      else None
  end.

(** The bytes of an ASCII literal, for writing concrete process output. *)
Definition blit (s : String.string) : bytes :=
  List.map Ascii.byte_of_ascii (String.list_ascii_of_string s).

Arguments blit s%_string.

(** Text-mode reading translates [\r\n] and [\r] to [\n]. *)
Fixpoint universal_newlines (s : str) : str :=
  match s with
  | [] => []
  | c :: rest =>
      if (c =? CR)%N then
        LF :: match rest with
              | d :: rest' =>
                  if (d =? LF)%N then universal_newlines rest'
                  else universal_newlines rest
              | [] => []
              end
      else c :: universal_newlines rest
  end.

(** [posixpath.join(a, b)]. *)
Definition endswith_slash (a : str) : bool :=
  match rev a with
  | c :: _ => (c =? SLASH)%N
  | [] => false
  end.

Definition path_join (a b : str) : str :=
  if startswith [SLASH] b then b
  else if is_empty a || endswith_slash a then a ++ b
  else a ++ [SLASH] ++ b.

(** ** The regular expression of [external_commands]

    [subcommands_re.match(line)], returning group 1.  The pattern is: white
    space (any number, [\s]), an opening brace, a greedy group of any
    characters but line feeds, a closing brace, white space again.  The
    leading white space has to be all of it, since the next character must be
    the brace; the group, being greedy, ends at the last closing brace before
    the first line feed; what follows that brace is not looked at, [match]
    being anchored at the start only. *)
Fixpoint before_last (c : char) (s : str) : option str :=
  match s with
  | [] => None
  | d :: rest =>
      match before_last c rest with
      | Some p => Some (d :: p)
      | None => if (d =? c)%N then Some [] else None
      end
  end.

Fixpoint until_char (c : char) (s : str) : str :=
  match s with
  | [] => []
  | d :: rest => if (d =? c)%N then [] else d :: until_char c rest
  end.

Definition subcommands_re_match (line : str) : option str :=
  match lstrip line with
  | c :: body =>
      if (c =? LBRACE)%N then before_last RBRACE (until_char LF body) else None
  | [] => None
  end.

(** ** The world

    What the script observes of the outside and does to it. *)

(** The exceptions the script can meet.  [OSError] is what [Popen] raises
    when the program cannot be started. *)
Inductive exn : Type :=
| OSError | CalledProcessError | UnicodeDecodeError | JSONDecodeError
| IndexError | KeyError | TypeError | ValueError | FileNotFoundError.

(** How a call ends: a value, an exception, or [sys.exit(msg)]. *)
Inductive result (A : Type) : Type :=
| Ok (a : A)
| Raise (x : exn)
| Exit (msg : str).

Arguments Ok {A} a.
Arguments Raise {A} x.
Arguments Exit {A} msg.

(** Where the standard error of a child process goes: a pipe of its own
    ([stderr=PIPE]), the pipe of its standard output ([stderr=STDOUT]), or
    the terminal of the script ([check_output] and plain [Popen]). *)
Inductive stderr_mode : Type := ErrPipe | ErrMerged | ErrInherit.

(** What becomes of a child process: it cannot be started, or it runs and
    ends with its output and exit code. *)
Inductive outcome : Type :=
| CannotStart
| Exited (out err : bytes) (code : Z).

Inductive stream : Type := Stdout | Stderr.

(** The lines the script prints.  The two diagnostics of [run_command] are
    kept structured: their rendering ([repr], [shlex.quote]) plays no part in
    what follows. *)
Inductive message : Type :=
| MsgText (s : str)
| MsgFailed (argv : list str) (code : Z)
| MsgStderr (argv : list str) (err : str).

Inductive content : Type :=
| Text (s : str)
| Binary (b : bytes).

Inductive event : Type :=
| EvSpawn (argv : list str) (mode : stderr_mode) (o : outcome)
| EvPrint (to : stream) (m : message)
| EvWrite (path : str) (c : content)
| EvMkdir (path : str).

(** The value of [json.loads]. *)
#[local] Unset Elimination Schemes.
Inductive json : Type :=
| JNull
| JBool (b : bool)
| JNum (lexeme : str)
| JStr (s : str)
| JArr (items : list json)
| JObj (members : list (str * json)).
#[local] Set Elimination Schemes.

(** The environment of a run.  [respond] answers a process started after the
    given history; [json_loads] is the JSON parser ([None] for
    [JSONDecodeError]); [here] is [dirname(__file__)], [pathsep] is
    [os.pathsep] and [abspath] is [os.path.abspath] in the working directory
    of the run; [schedule] is the order in which a thread pool gets through
    its tasks. *)
Record env : Type := {
  respond : list event -> list str -> stderr_mode -> outcome;
  json_loads : str -> option json;
  here : str;
  pathsep : str;
  abspath : str -> str;
  schedule : list str -> list str
}.

(** The state of a run: the history (oldest first), the list that is the
    default argument of [conda_help], and the files and directories. *)
Record state : Type := {
  log : list event;
  cache : list str;
  files : list (str * content);
  dirs : list str
}.

Definition add_event (ev : event) (s : state) : state :=
  {| log := log s ++ [ev]; cache := cache s; files := files s; dirs := dirs s |}.

Definition set_cache (c : list str) (s : state) : state :=
  {| log := log s; cache := c; files := files s; dirs := dirs s |}.

Definition add_file (path : str) (c : content) (s : state) : state :=
  {| log := log s; cache := cache s; files := (path, c) :: files s; dirs := dirs s |}.

Definition add_dir (path : str) (s : state) : state :=
  {| log := log s; cache := cache s; files := files s; dirs := path :: dirs s |}.

(** ** The monad of the script *)

Definition M (A : Type) : Type := state -> result A * state.

Definition ret {A : Type} (a : A) : M A := fun s => (Ok a, s).

Definition bind {A B : Type} (m : M A) (k : A -> M B) : M B :=
  fun s =>
    match m s with
    | (Ok a, s') => k a s'
    | (Raise x, s') => (Raise x, s')
    | (Exit msg, s') => (Exit msg, s')
    end.

Definition raise {A : Type} (x : exn) : M A := fun s => (Raise x, s).

Definition sys_exit {A : Type} (msg : str) : M A := fun s => (Exit msg, s).

Definition lift {A : Type} (r : result A) : M A := fun s => (r, s).

Notation "x <- m ;; k" := (bind m (fun x => k))
  (at level 61, m at next level, right associativity).
Notation "m ;; k" := (bind m (fun _ => k))
  (at level 61, right associativity).

Definition emit (ev : event) : M unit := fun s => (Ok tt, add_event ev s).

Definition print (to : stream) (m : message) : M unit := emit (EvPrint to m).

Definition say (s : str) : M unit := print Stdout (MsgText s).

(** [for x in xs: acc = body(x, acc)], stopping at the first exception. *)
Fixpoint for_each {A B : Type} (body : A -> B -> M B) (xs : list A) (acc : B) : M B :=
  match xs with
  | [] => ret acc
  | x :: rest => acc' <- body x acc ;; for_each body rest acc'
  end.

(** A Python [dict] keeps its keys in the order of their first insertion;
    assigning to a key that is there replaces the value in place. *)
Fixpoint dict_set {V : Type} (k : str) (v : V) (d : list (str * V)) : list (str * V) :=
  match d with
  | [] => [(k, v)]
  | (k', v') :: rest =>
      if str_eqb k' k then (k', v) :: rest else (k', v') :: dict_set k v rest
  end.

Fixpoint dict_get {V : Type} (k : str) (d : list (str * V)) : option V :=
  match d with
  | [] => None
  | (k', v') :: rest => if str_eqb k' k then Some v' else dict_get k rest
  end.

(** [OrderedDict(pairs)]. *)
Definition ordered_dict {V : Type} (pairs : list (str * V)) : list (str * V) :=
  fold_left (fun d kv => dict_set (fst kv) (snd kv) d) pairs [].

(** ** The script *)

Definition RST_HEADER (command : str) : str :=
  [LF] ++ lit ".. _" ++ command ++ lit "_ref:" ++ [LF] ++
  [LF] ++ lit "conda " ++ command ++ [LF] ++
  lit "=======================" ++ [LF] ++
  [LF] ++ lit ".. raw:: html" ++ [LF] ++ [LF].

(** The loop shared by [conda_commands] and [external_commands] (lines 73-83
    and 92-102): [start] and [commands] are the two variables of the loop.
    [line[4]] and [line.split()[0]] raise [IndexError] out of range. *)
Fixpoint scan_commands (header : str) (lines : list str) (start : bool)
    (commands : list str) : result (list str) :=
  match lines with
  | [] => Ok commands
  | line :: rest =>
      if str_eqb (strip line) header then scan_commands header rest true commands
      else if start then
        if is_empty line then Ok commands
        else match nth_error line 4 with
             | None => Raise IndexError
             | Some c =>
                 if (c =? SPACE)%N then scan_commands header rest true commands
                 else match split_ws line with
                      | [] => Raise IndexError
                      | tok :: _ => scan_commands header rest true (commands ++ [tok])
                      end
             end
      else scan_commands header rest false commands
  end.

(** The inner loop of [external_commands] (lines 120-129): what one command
    adds to [commands].  Only the line after the header is looked at. *)
Fixpoint scan_subcommands (command : str) (lines : list str) (start : bool) : list str :=
  match lines with
  | [] => []
  | line :: rest =>
      if str_eqb (strip line) (lit "positional arguments:")
      then scan_subcommands command rest true
      else if start then
        match subcommands_re_match line with
        | Some g => List.map (fun i => command ++ lit " " ++ i) (split_char COMMA g)
        | None => []
        end
      else scan_subcommands command rest false
  end.

(** [for text in replacements: manpage = manpage.replace(text, replacements[text])]. *)
Definition apply_replacements (replacements : list (str * str)) (manpage : str) : str :=
  fold_left (fun m kv => replace m (fst kv) (snd kv)) replacements manpage.

(** [command.replace(" ", "-")]. *)
Definition command_file (command : str) : str := replace command (lit " ") (lit "-").

Definition build_commands : list str :=
  [ lit "build"; lit "convert"; lit "develop"; lit "index"; lit "inspect";
    lit "inspect channels"; lit "inspect linkages"; lit "inspect objects";
    lit "metapackage"; lit "render"; lit "skeleton"; lit "skeleton cpan";
    lit "skeleton cran"; lit "skeleton luarocks"; lit "skeleton pypi" ].

Definition core_commands : list str := [].

Definition version_argv : list str := [lit "conda"; lit "--version"].

Definition help_argv : list str := [lit "conda"; lit "--help"].

Definition info_argv : list str := [lit "conda"; lit "info"; lit "--json"].

Definition help2man_argv (command conda_version : str) : list str :=
  [ lit "help2man"; lit "--name"; lit "conda " ++ command; lit "--section"; lit "1";
    lit "--source"; lit "Anaconda, Inc."; lit "--version-string"; conda_version;
    lit "--no-info"; lit "conda " ++ command ].

(** [["conda"] + command.split() + ["--help"]]. *)
Definition command_help_argv (command : str) : list str :=
  [lit "conda"] ++ split_ws command ++ [lit "--help"].

Definition man2html_argv (cf : str) : list str :=
  [ lit "man2html"; lit "-bare"; lit "title"; lit "conda-" ++ cf;
    lit "-topm"; lit "0"; lit "-botm"; lit "0" ].

Section Script.

Variable e : env.

Definition manpath : str := path_join (path_join (here e) (lit "build")) (lit "man").
Definition rstpath : str := path_join (path_join (here e) (lit "source")) (lit "commands").

Definition man_file (command : str) : str :=
  path_join manpath (lit "conda-" ++ command_file command ++ lit ".1").
Definition html_file (command : str) : str :=
  path_join manpath (lit "conda-" ++ command_file command ++ lit ".html").
Definition rst_file (rp command : str) : str :=
  path_join rp (lit "conda-" ++ command_file command ++ lit ".rst").

(** *** Primitives *)

(** Start a child process and wait for it: the environment answers. *)
Definition spawn (argv : list str) (mode : stderr_mode) : M (bytes * bytes * Z) :=
  fun s =>
    let o := respond e (log s) argv mode in
    let s' := add_event (EvSpawn argv mode o) s in
    match o with
    | CannotStart => (Raise OSError, s')
    | Exited out err code => (Ok (out, err, code), s')
    end.

Definition decode (b : bytes) : M str :=
  match decode_utf8 b with
  | Some t => ret t
  | None => raise UnicodeDecodeError
  end.

(** [subprocess.check_output(argv)]. *)
Definition check_output (argv : list str) : M bytes :=
  p <- spawn argv ErrInherit ;;
  let '(out, _, returncode) := p in
  if (returncode =? 0)%Z then ret out else raise CalledProcessError.

(** [os.path.isdir(path)] and [os.makedirs(path)].  A directory is known
    by its path as a string: two paths that name one directory, as
    [commands/.] and [commands], are two directories here.  [main] calls
    [write_rst] without [sep], so that the paths of a run are the two of
    lines 14-19. *)
Definition isdir (path : str) : M bool :=
  fun s => (Ok (existsb (str_eqb path) (dirs s)), s).

Definition makedirs (path : str) : M unit :=
  fun s => (Ok tt, add_dir path (add_event (EvMkdir path) s)).

(** [with open(path, "w") as f: f.write(...)] and the same with ["wb"].  The
    directories the script writes to are made before it writes (lines 14-19
    and 219-220); opening for writing is taken to succeed. *)
Definition write_file (path : str) (c : content) : M unit :=
  fun s => (Ok tt, add_file path c (add_event (EvWrite path c) s)).

(** [with open(path) as f: f.read()], in text mode with UTF-8. *)
Definition read_text (path : str) : M str :=
  fun s =>
    match find (fun pc => str_eqb (fst pc) path) (files s) with
    | None => (Raise FileNotFoundError, s)
    | Some (_, Text t) => (Ok (universal_newlines t), s)
    | Some (_, Binary b) =>
        match decode_utf8 b with
        | Some t => (Ok (universal_newlines t), s)
        | None => (Raise UnicodeDecodeError, s)
        end
    end.


(** *** Lines 32-50: the script calls it with the command line and, once,
    with [include_stderr=True]; no other keyword reaches [Popen]. *)
Definition run_command (argv : list str) (include_stderr : bool) : M str :=
  let stderr_pipe := if include_stderr then ErrMerged else ErrPipe in
  p <- spawn argv stderr_pipe ;;
  let '(out, err, returncode) := p in
  (* [communicate] gives [None] for a merged stderr, made [b""] *)
  let err := if include_stderr then [] else err in
  out <- decode out ;;
  err <- decode err ;;
  (if negb (returncode =? 0)%Z then print Stderr (MsgFailed argv returncode)
   else if negb (is_empty err) then print Stdout (MsgStderr argv err)
   else ret tt) ;;
  ret out.

(** *** Lines 53-54 *)
Definition str_check_output (argv : list str) : M str :=
  b <- check_output argv ;; decode b.

(** *** Lines 57-61: [cache] is the list shared by all calls. *)
Definition cache_first : M str :=
  fun s =>
    match cache s with
    | h :: _ => (Ok h, s)
    | [] => (Raise IndexError, s)
    end.

Definition conda_help : M str :=
  fun s =>
    match cache s with
    | _ :: _ => cache_first s
    | [] =>
        (out <- str_check_output help_argv ;;
         (fun s' => (Ok tt, set_cache (cache s' ++ [out]) s')) ;;
         cache_first) s
    end.

(** *** Lines 64-65 *)
Definition conda_command_help (command : str) : M str :=
  str_check_output (command_help_argv command).

(** *** Lines 68-84 *)
Definition conda_commands : M (list str) :=
  say (lit "Getting list of core commands") ;;
  help <- conda_help ;;
  lift (scan_commands (lit "command") (splitlines help) false []).

(** *** A thread pool

    [ThreadPoolExecutor(n)] refuses [n = 0].  [list(executor.map(f, xs))]
    runs [f] on every element; here the tasks run to their end one at a
    time, in the order the environment chooses, and the first exception
    ends the run. *)
Definition thread_pool (max_workers : nat) : M unit :=
  match max_workers with
  | O => raise ValueError
  | S _ => ret tt
  end.

Definition executor_map {B : Type} (f : str -> B -> M B) (xs : list str) (acc : B) : M B :=
  for_each f (schedule e xs) acc.

(** *** Lines 87-130 *)
Definition get_help (command : str) (command_help : list (str * str)) : M (list (str * str)) :=
  h <- conda_command_help command ;;
  let command_help := dict_set command h command_help in
  say (lit "Checked for subcommand help for " ++ command) ;;
  ret command_help.

Definition external_commands : M (list str) :=
  say (lit "Getting list of external commands") ;;
  help <- conda_help ;;
  commands <- lift (scan_commands (lit "other commands:") (splitlines help) false []) ;;
  say (lit "Getting list of external subcommands") ;;
  thread_pool (length commands) ;;
  command_help <- executor_map get_help commands [] ;;
  ret (fold_left
         (fun commands ch =>
            commands ++ scan_subcommands (fst ch) (splitlines (snd ch)) false)
         command_help commands).

(** *** Lines 133-147

    [info[key]]: [TypeError] unless [info] is an object, [KeyError] when the
    key is missing. *)
Definition getitem (info : json) (key : str) : M json :=
  match info with
  | JObj members =>
      match dict_get key members with
      | Some v => ret v
      | None => raise KeyError
      end
  | _ => raise TypeError
  end.

Fixpoint all_str (items : list json) : option (list str) :=
  match items with
  | [] => Some []
  | JStr s :: rest => option_map (cons s) (all_str rest)
  | _ :: _ => None
  end.

(** [sep.join(x)] for a value of [json.loads]: a list of strings, or the
    characters of a string, or the keys of an object. *)
Definition join_iterable (sep : str) (x : json) : M str :=
  match x with
  | JArr items =>
      match all_str items with
      | Some l => ret (join sep l)
      | None => raise TypeError
      end
  | JStr s => ret (join sep (List.map (fun c => [c]) s))
  | JObj members => ret (join sep (List.map fst members))
  | _ => raise TypeError
  end.

(** A key of the table has to be a string: a list or an object is refused
    by [OrderedDict] (unhashable), anything else by [str.replace] in
    [generate_man], both with [TypeError] and with nothing done in between;
    the check is made here once. *)
Definition as_key (k : json) : M str :=
  match k with
  | JStr s => ret s
  | _ => raise TypeError
  end.

Definition man_replacements : M (list (str * str)) :=
  out <- str_check_output info_argv ;;
  info <- match json_loads e out with
          | Some j => ret j
          | None => raise JSONDecodeError
          end ;;
  default_prefix <- getitem info (lit "default_prefix") ;;
  envs_dirs <- getitem info (lit "envs_dirs") ;;
  envs <- join_iterable (pathsep e) envs_dirs ;;
  user_rc_path <- getitem info (lit "user_rc_path") ;;
  sys_rc_path <- getitem info (lit "sys_rc_path") ;;
  root_prefix <- getitem info (lit "root_prefix") ;;
  default_prefix <- as_key default_prefix ;;
  user_rc_path <- as_key user_rc_path ;;
  sys_rc_path <- as_key sys_rc_path ;;
  root_prefix <- as_key root_prefix ;;
  ret (ordered_dict
         [ (default_prefix, lit "default prefix");
           (envs, lit "envs dirs");
           (user_rc_path, lit "\fI\,user .condarc path\/\fP");
           (sys_rc_path, lit "\fI\,system .condarc path\/\fP");
           (root_prefix, lit "root prefix") ]).

(** *** Lines 150-182

    The loop of lines 155-171: [retries] only goes down, so it is the
    argument of the recursion. *)
Fixpoint man_loop (command conda_version : str) (retries : nat) (manpage : str) : M str :=
  match retries with
  | O => ret manpage
  | S retries' =>
      if is_empty manpage then
        manpage' <- run_command (help2man_argv command conda_version) false ;;
        man_loop command conda_version retries' manpage'
      else ret manpage
  end.

Definition exit_message (command : str) : str :=
  lit "Error: Could not get help for conda " ++ command.

Definition generate_man (command : str) : M unit :=
  conda_version <- run_command version_argv true ;;
  manpage <- man_loop command conda_version 5 [] ;;
  (if is_empty manpage then sys_exit (exit_message command) else ret tt) ;;
  replacements <- man_replacements ;;
  let manpage := apply_replacements replacements manpage in
  write_file (man_file command) (Text manpage) ;;
  say (lit "Generated manpage for conda " ++ command).

(** *** Lines 185-208: [man] is started and not waited for; its output is
    the input of [man2html]. *)
Definition generate_html (command : str) : M unit :=
  let cf := command_file command in
  spawn [lit "man"; abspath e (man_file command)] ErrInherit ;;
  htmlpage <- check_output (man2html_argv cf) ;;
  write_file (html_file command) (Binary htmlpage) ;;
  say (lit "Generated html for conda " ++ command).

(** *** Lines 211-227 *)
Definition write_rst (command : str) (sep : option str) : M unit :=
  html <- read_text (html_file command) ;;
  let rp := match sep with
            | Some d => if is_empty d then rstpath else path_join rstpath d
            | None => rstpath
            end in
  d <- isdir rp ;;
  (if d then ret tt else makedirs rp) ;;
  write_file (rst_file rp command)
    (Text (RST_HEADER command ++
           flat_map (fun line => lit "   " ++ line ++ [LF]) (splitlines html))) ;;
  say (lit "Generated rst for conda " ++ command).

(** *** Lines 230-264: [argv] is [sys.argv[1:]]. *)
Definition gen_command (command : str) (_ : unit) : M unit :=
  generate_man command ;;
  generate_html command.

Definition resolve (argv : list str) : list str :=
  match argv with
  | [] => core_commands ++ build_commands
  | _ :: _ => argv
  end.

Definition main (argv : list str) : M unit :=
  let commands := resolve argv in
  thread_pool 10 ;;
  executor_map gen_command commands tt ;;
  for_each (fun command _ => write_rst command None)
    (filter (fun c => existsb (str_eqb c) commands) build_commands) tt.

End Script.

(** ** Reading the history *)

Definition head_is (name : str) (argv : list str) : bool :=
  match argv with
  | p :: _ => str_eqb p name
  | [] => false
  end.

(** A start of the help-to-manpage converter. *)
Definition is_converter (ev : event) : bool :=
  match ev with
  | EvSpawn argv _ _ => head_is (lit "help2man") argv
  | _ => false
  end.

(** A query of [conda info --json]. *)
Definition is_info_query (ev : event) : bool :=
  match ev with
  | EvSpawn argv _ _ => argv_eqb argv info_argv
  | _ => false
  end.

(** A query of [conda --help]. *)
Definition is_help_query (ev : event) : bool :=
  match ev with
  | EvSpawn argv _ _ => argv_eqb argv help_argv
  | _ => false
  end.

Definition is_spawn (ev : event) : bool :=
  match ev with
  | EvSpawn _ _ _ => true
  | _ => false
  end.

Definition converter_calls (l : list event) : nat := length (filter is_converter l).
Definition info_queries (l : list event) : nat := length (filter is_info_query l).
Definition help_queries (l : list event) : nat := length (filter is_help_query l).

(** The paths written, in order. *)
Definition writes (l : list event) : list str :=
  flat_map (fun ev => match ev with EvWrite p _ => [p] | _ => [] end) l.

(** The process ran and its standard output decodes to the empty string:
    what [run_command] returns is falsy. *)
Definition yields_empty (ev : event) : bool :=
  match ev with
  | EvSpawn _ _ (Exited out _ _) =>
      match decode_utf8 out with
      | Some [] => true
      | _ => false
      end
  | _ => false
  end.

(** The thread pool gets through every task once. *)
Definition fair (e : env) : Prop :=
  forall xs, Permutation (schedule e xs) xs.

(** ** Concrete worlds

    A small installation to run the script on: [conda] with three core
    commands and two external ones, a converter that can be made to give
    nothing for a number of attempts, and a version query whose exit code
    can be chosen. *)

Definition QUOTE : char := 34%N.

Definition quoted (s : String.string) : str := [QUOTE] ++ lit s ++ [QUOTE].

Arguments quoted s%_string.

Definition text_lines (ls : list str) : str := flat_map (fun l => l ++ [LF]) ls.

(** The bytes of a text of ASCII characters. *)
Definition ascii_bytes (s : str) : bytes :=
  flat_map (fun c => match Byte.of_N c with Some b => [b] | None => [] end) s.

Definition demo_help : str :=
  text_lines
    [ lit "usage: conda [-h] [-V] command ...";
      [];
      lit "positional arguments:";
      lit "  command";
      lit "    clean        Remove unused packages and caches.";
      lit "    config       Modify configuration values in .condarc.";
      lit "                 This is modeled after the git config command.";
      lit "    install      Installs a list of packages.";
      [];
      lit "optional arguments:";
      lit "  -h, --help     Show this help message and exit.";
      [];
      lit "other commands:";
      lit "    build";
      lit "    skeleton";
      [];
      lit "    ignored" ].

Definition demo_skeleton_help : str :=
  text_lines
    [ lit "usage: conda-skeleton [-h] {cpan,cran,pypi} ...";
      [];
      lit "positional arguments:";
      lit "  {cpan,cran,pypi}";
      lit "    cpan             Create recipe skeleton for packages hosted on CPAN." ].

Definition demo_build_help : str :=
  text_lines
    [ lit "usage: conda-build [-h] RECIPE_PATH";
      [];
      lit "positional arguments:";
      lit "  RECIPE_PATH           Path to recipe directory." ].

Definition demo_info_text : str :=
  lit "{" ++ quoted "default_prefix" ++ lit ": " ++ quoted "/opt/conda" ++ lit ", "
  ++ quoted "envs_dirs" ++ lit ": [" ++ quoted "/opt/conda/envs" ++ lit ", "
  ++ quoted "/home/docs/.conda/envs" ++ lit "], "
  ++ quoted "user_rc_path" ++ lit ": " ++ quoted "/home/docs/.condarc" ++ lit ", "
  ++ quoted "sys_rc_path" ++ lit ": " ++ quoted "/opt/conda/.condarc" ++ lit ", "
  ++ quoted "root_prefix" ++ lit ": " ++ quoted "/opt/conda" ++ lit "}".

Definition demo_info : json :=
  JObj [ (lit "default_prefix", JStr (lit "/opt/conda"));
         (lit "envs_dirs", JArr [JStr (lit "/opt/conda/envs"); JStr (lit "/home/docs/.conda/envs")]);
         (lit "user_rc_path", JStr (lit "/home/docs/.condarc"));
         (lit "sys_rc_path", JStr (lit "/opt/conda/.condarc"));
         (lit "root_prefix", JStr (lit "/opt/conda")) ].

Definition demo_manpage : bytes :=
  blit ".TH CONDA 1 /opt/conda/envs:/home/docs/.conda/envs in /opt/conda".

(** The converter gives nothing on its first [empty_attempts] starts and
    [manpage] afterwards; [conda --version] ends with [version_code]. *)
Definition demo_respond (version_code : Z) (empty_attempts : nat) (manpage : bytes)
    (history : list event) (argv : list str) (mode : stderr_mode) : outcome :=
  if head_is (lit "help2man") argv then
    if converter_calls history <? empty_attempts then Exited [] [] 0
    else Exited manpage [] 0
  else if argv_eqb argv version_argv then Exited (blit "conda 4.3.0") [] version_code
  else if argv_eqb argv info_argv then Exited (ascii_bytes demo_info_text) [] 0
  else if argv_eqb argv help_argv then Exited (ascii_bytes demo_help) [] 0
  else if argv_eqb argv [lit "conda"; lit "skeleton"; lit "--help"]
       then Exited (ascii_bytes demo_skeleton_help) [] 0
  else if argv_eqb argv [lit "conda"; lit "build"; lit "--help"]
       then Exited (ascii_bytes demo_build_help) [] 0
  else if head_is (lit "man") argv then Exited [] [] 0
  else if head_is (lit "man2html") argv then Exited (blit "<PRE>conda</PRE>") [] 0
  else CannotStart.

Definition demo_env (version_code : Z) (empty_attempts : nat) (manpage : bytes) : env :=
  {| respond := demo_respond version_code empty_attempts manpage;
     json_loads := fun t => if str_eqb t demo_info_text then Some demo_info else None;
     here := lit "/docs";
     pathsep := lit ":";
     abspath := fun p => p;
     schedule := fun xs => xs |}.

(** A world whose every process prints one byte that is not UTF-8. *)
Definition garbled_env : env :=
  {| respond := fun _ _ _ => Exited [xff] [] 0;
     json_loads := fun _ => None;
     here := lit "/docs";
     pathsep := lit ":";
     abspath := fun p => p;
     schedule := fun xs => xs |}.

Definition init : state := {| log := []; cache := []; files := []; dirs := [] |}.

(** A help text whose two command sections each hold a line of fewer than
    five characters. *)
Definition cramped_help : str :=
  text_lines
    [ lit "positional arguments:";
      lit "  command";
      lit "    clean        Remove unused packages and caches.";
      lit "run";
      [];
      lit "other commands:";
      lit "    build";
      lit "ci";
      [] ].

Definition cramped_env : env :=
  {| respond := fun _ _ _ => Exited (ascii_bytes cramped_help) [] 0;
     json_loads := fun _ => None;
     here := lit "/docs";
     pathsep := lit ":";
     abspath := fun p => p;
     schedule := fun xs => xs |}.

(** A world whose every process succeeds with a warning on its standard
    error. *)
Definition noisy_env : env :=
  {| respond := fun _ _ _ => Exited (blit "conda 4.3.0") (blit "deprecated") 0;
     json_loads := fun _ => None;
     here := lit "/docs";
     pathsep := lit ":";
     abspath := fun p => p;
     schedule := fun xs => xs |}.

(** ** The attempts of the converter *)

(** In a run of the retry loop, an attempt is followed by another only when
    it gave nothing. *)
Fixpoint well_stopped (attempts : list event) : Prop :=
  match attempts with
  | [] => True
  | ev :: rest => (rest = [] \/ yields_empty ev = true) /\ well_stopped rest
  end.

(** ** The shapes of help texts *)

(** The state in which [conda_commands] and [external_commands] ask for the
    help text: their first line has been printed. *)
Definition announced (what : String.string) (s : state) : state :=
  add_event (EvPrint Stdout (MsgText (lit what))) s.

Arguments announced what%_string s.

(** The lines hold a section under [header] with a line of fewer than five
    characters in it: [sec] are the lines of the section before that line. *)
Definition short_line_in_section (header : str) (lines : list str) : Prop :=
  exists pre hline sec short rest,
    lines = pre ++ hline :: sec ++ short :: rest /\
    (forall l, In l pre -> strip l <> header) /\
    strip hline = header /\
    (forall l, In l sec -> l <> []) /\
    short <> [] /\ length short < 5.

(** ** Notions used by the properties *)

(** A line of the section as the scan expects it: not empty, not the header
    again, five characters at least, and with a word on it when column 4 is
    not a space. *)
Definition well_laid (header : str) (l : str) : Prop :=
  l <> [] /\ strip l <> header /\ 5 <= length l /\
  (nth 4 l SPACE <> SPACE -> split_ws l <> []).

Definition names_command (l : str) : bool := negb (nth 4 l SPACE =? SPACE)%N.

Definition first_word (l : str) : str := hd [] (split_ws l).

(** A printed line. *)
Definition quiet (ev : event) : Prop :=
  match ev with
  | EvPrint _ _ => True
  | _ => False
  end.

(** A computation that leaves the state alone. *)
Definition stateless {A : Type} (m : M A) : Prop := forall s, snd (m s) = s.

(** What the loop adds to the history: starts of the converter and printed
    lines. *)
Definition loop_event (command conda_version : str) (ev : event) : Prop :=
  (exists o, ev = EvSpawn (help2man_argv command conda_version) ErrPipe o) \/ quiet ev.

(** What [generate_man] adds to the history after the loop: nothing when
    it stops there, the query of the runtime information when the table
    cannot be built, and that query, the manual page and a printed line when
    it succeeds. *)
Definition man_tail (e : env) (command : str) (succeeded : bool) (tail : list event) : Prop :=
  if succeeded then
    exists o page,
      tail = [ EvSpawn info_argv ErrInherit o; EvWrite (man_file e command) page;
               EvPrint Stdout (MsgText (lit "Generated manpage for conda " ++ command)) ]
  else tail = [] \/ exists o, tail = [EvSpawn info_argv ErrInherit o].

Definition succeeded {A : Type} (r : result A) : bool :=
  match r with
  | Ok _ => true
  | _ => false
  end.

(** [n] calls of [conda_help] in a row, with what they return. *)
Definition help_calls (e : env) (n : nat) : M (list str) :=
  for_each (fun (_ : unit) acc => h <- conda_help e ;; ret (acc ++ [h])) (repeat tt n) [].

(** No occurrence of [old] starts inside [p] when [p] is followed by [old]:
    the occurrence after [p] is the leftmost one. *)
Definition clean (old p : str) : Prop :=
  forall k, k < length p -> startswith old (skipn k (p ++ old)) = false.

(** The pieces between the occurrences of [old] that [replace] finds from
    the left: each piece but the last is followed by the leftmost occurrence
    after it, and the last one holds no occurrence. *)
Fixpoint leftmost_pieces (old : str) (pieces : list str) : Prop :=
  match pieces with
  | [] => False
  | [p] => contains old p = false
  | p :: rest => clean old p /\ leftmost_pieces old rest
  end.

(** A line without line boundary, as [splitlines] gives them. *)
Definition unbroken (l : str) : Prop := Forall (fun c => islinebreak c = false) l.

(** White space only. *)
Definition spaces (w : str) : Prop := Forall (fun c => isspace c = true) w.

(** A line of the form of the pattern: white space, the items between
    braces and separated by commas, white space. *)
Definition brace_line (w1 : str) (items : list str) (w2 : str) : str :=
  w1 ++ [LBRACE] ++ join [COMMA] items ++ [RBRACE] ++ w2.

(** Every query of the help of [c] succeeds. *)
Definition helps (e : env) (c : str) : Prop :=
  forall history,
    exists out err,
      respond e history (command_help_argv c) ErrInherit = Exited out err 0 /\
      decode_utf8 out <> None.

(** Every query of the help of [c] gives [help]. *)
Definition helps_with (e : env) (c help : str) : Prop :=
  forall history,
    exists out err,
      respond e history (command_help_argv c) ErrInherit = Exited out err 0 /\
      decode_utf8 out = Some help.

(** A computation that leaves the cache of [conda_help] as it is. *)
Definition keeps_cache {A : Type} (m : M A) : Prop :=
  forall s, cache (snd (m s)) = cache s.

(** A word: what [str.split()] returns the list of. *)
Definition word (t : str) : Prop :=
  t <> [] /\ Forall (fun c => isspace c = false) t.

(** ** Notions used by the further properties *)

(** The directories made, in order. *)
Definition mkdirs (l : list event) : list str :=
  flat_map (fun ev => match ev with EvMkdir p => [p] | _ => [] end) l.

(** The lines [write_rst] writes after the header (lines 223-226). *)
Definition rst_body (html : str) : str :=
  flat_map (fun line => lit "   " ++ line ++ [LF]) (splitlines html).


(** A world in which every process succeeds and [json.loads] gives [info]. *)
Definition info_env (info : option json) : env :=
  {| respond := fun _ _ _ => Exited (blit "{}") [] 0;
     json_loads := fun _ => info;
     here := lit "/docs";
     pathsep := lit ":";
     abspath := fun p => p;
     schedule := fun xs => xs |}.

(** The runtime information of a conda that does not know the two
    [.condarc] paths (line 142). *)
Definition old_info : json :=
  JObj [ (lit "default_prefix", JStr (lit "/opt/conda"));
         (lit "envs_dirs", JArr [JStr (lit "/opt/conda/envs")]);
         (lit "root_prefix", JStr (lit "/opt/conda")) ].

(** [generate_man] ends in one of its stages before the manual page is
    opened (lines 151-178): the version query raises, or the loop raises or
    ends with nothing, or the table cannot be built. *)
Definition stops_before_page (e : env) (command : str) (s : state) : Prop :=
  match run_command e version_argv true s with
  | (Ok conda_version, s0) =>
      match man_loop e command conda_version 5 [] s0 with
      | (Ok manpage, s1) =>
          is_empty manpage = true \/ succeeded (fst (man_replacements e s1)) = false
      | _ => True
      end
  | _ => True
  end.

(** The converter, whenever and with whatever version string it is run for
    [command], prints nothing. *)
Definition never_converts (e : env) (command : str) : Prop :=
  forall history conda_version out err code,
    respond e history (help2man_argv command conda_version) ErrPipe = Exited out err code ->
    out = [].

(** The usual world, but for the converter, which prints nothing for
    [command] and the page for every other command. *)
Definition no_page_env (command : str) : env :=
  {| respond := fun history argv mode =>
       if head_is (lit "help2man") argv
          && str_eqb (nth 2 argv []) (lit "conda " ++ command)
       then Exited [] [] 0
       else demo_respond 0 0 demo_manpage history argv mode;
     json_loads := fun t => if str_eqb t demo_info_text then Some demo_info else None;
     here := lit "/docs";
     pathsep := lit ":";
     abspath := fun p => p;
     schedule := fun xs => xs |}.

(** [command.replace(" ", "-")], character by character. *)
Definition hyphen (c : char) : char := if (c =? SPACE)%N then 45%N else c.

(** ** The string methods on examples *)

Example splitlines_ex :
  splitlines (lit "ab" ++ [LF] ++ [CR; LF] ++ lit "c" ++ [CR] ++ lit "d" ++ [LF])
  = [lit "ab"; []; lit "c"; lit "d"].
Proof. reflexivity. Qed.

Example strip_ex : strip (lit "  command  ") = lit "command".
Proof. reflexivity. Qed.

Example split_ws_ex : split_ws (lit "  inspect   linkages ") = [lit "inspect"; lit "linkages"].
Proof. reflexivity. Qed.

Example split_char_ex : split_char COMMA (lit "a,,b") = [lit "a"; []; lit "b"].
Proof. reflexivity. Qed.

Example replace_ex1 : replace (lit "aaa") (lit "aa") (lit "b") = lit "ba".
Proof. reflexivity. Qed.

Example replace_ex2 : replace (lit "ab") [] (lit "-") = lit "-a-b-".
Proof. reflexivity. Qed.

Example decode_ex1 : decode_utf8 (blit "conda 4.3") = Some (lit "conda 4.3").
Proof. reflexivity. Qed.

Example decode_ex2 : decode_utf8 [xff] = None.
Proof. reflexivity. Qed.

Example decode_ex3 : decode_utf8 [xe2; x80; xa8] = Some [0x2028%N].
Proof. reflexivity. Qed.

Example demo_conda_commands :
  fst (conda_commands (demo_env 0 0 demo_manpage) init)
  = Ok [lit "clean"; lit "config"; lit "install"].
Proof. vm_compute. reflexivity. Qed.

Example demo_external_commands :
  fst (external_commands (demo_env 0 0 demo_manpage) init)
  = Ok [lit "build"; lit "skeleton"; lit "skeleton cpan"; lit "skeleton cran";
        lit "skeleton pypi"].
Proof. vm_compute. reflexivity. Qed.

Example demo_main :
  let r := main (demo_env 0 0 demo_manpage) [lit "build"; lit "frobnicate"] init in
  fst r = Ok tt /\
  writes (log (snd r))
  = [ lit "/docs/build/man/conda-build.1"; lit "/docs/build/man/conda-build.html";
      lit "/docs/build/man/conda-frobnicate.1";
      lit "/docs/build/man/conda-frobnicate.html";
      lit "/docs/source/commands/conda-build.rst" ].
Proof. vm_compute. split; reflexivity. Qed.

(** ** Equality of strings *)

Lemma str_eqb_eq (a b : str) : str_eqb a b = true <-> a = b.
Proof.
  revert b; induction a as [|x a IH]; intros [|y b]; simpl; split; intro H;
    try reflexivity; try discriminate.
  - apply andb_true_iff in H as [Hx Hab].
    apply N.eqb_eq in Hx. apply IH in Hab. now subst.
  - injection H as -> ->. apply andb_true_iff; split.
    + apply N.eqb_refl.
    + now apply IH.
Qed.

Lemma str_eqb_refl (a : str) : str_eqb a a = true.
Proof. now apply str_eqb_eq. Qed.

Lemma str_eqb_neq (a b : str) : str_eqb a b = false <-> a <> b.
Proof.
  split.
  - intros H E. apply str_eqb_eq in E. congruence.
  - intro H. destruct (str_eqb a b) eqn:E; [|reflexivity].
    apply str_eqb_eq in E. contradiction.
Qed.

Lemma argv_eqb_eq (a b : list str) : argv_eqb a b = true <-> a = b.
Proof.
  revert b; induction a as [|x a IH]; intros [|y b]; simpl; split; intro H;
    try reflexivity; try discriminate.
  - apply andb_true_iff in H as [Hx Hab].
    apply str_eqb_eq in Hx. apply IH in Hab. now subst.
  - injection H as -> ->. apply andb_true_iff; split.
    + apply str_eqb_refl.
    + now apply IH.
Qed.

(** ** Lengths under [strip] *)

Lemma lstrip_length (s : str) : length (lstrip s) <= length s.
Proof.
  induction s as [|c s IH]; simpl; [lia|].
  destruct (isspace c); simpl; lia.
Qed.

Lemma strip_length (s : str) : length (strip s) <= length s.
Proof.
  unfold strip, rstrip. rewrite length_rev.
  etransitivity; [apply lstrip_length|].
  rewrite length_rev. apply lstrip_length.
Qed.

(** ** The section scan *)

Section Scan.

Variable header : str.

Lemma scan_commands_cons (line : str) (rest : list str) (start : bool) (commands : list str) :
  scan_commands header (line :: rest) start commands
  = if str_eqb (strip line) header then scan_commands header rest true commands
    else if start then
      if is_empty line then Ok commands
      else match nth_error line 4 with
           | None => Raise IndexError
           | Some c =>
               if (c =? SPACE)%N then scan_commands header rest true commands
               else match split_ws line with
                    | [] => Raise IndexError
                    | tok :: _ => scan_commands header rest true (commands ++ [tok])
                    end
           end
    else scan_commands header rest false commands.
Proof. reflexivity. Qed.

Lemma scan_before_header (pre rest : list str) (commands : list str) :
  (forall l, In l pre -> strip l <> header) ->
  scan_commands header (pre ++ rest) false commands
  = scan_commands header rest false commands.
Proof.
  induction pre as [|l pre IH]; intro H; cbn [app]; [reflexivity|].
  rewrite scan_commands_cons.
  assert (E : str_eqb (strip l) header = false)
    by (apply str_eqb_neq, H; now left).
  rewrite E. apply IH. intros l' Hl'. apply H. now right.
Qed.

Lemma scan_at_header (hline : str) (rest : list str) (start : bool) (commands : list str) :
  strip hline = header ->
  scan_commands header (hline :: rest) start commands
  = scan_commands header rest true commands.
Proof.
  intro H. rewrite scan_commands_cons, H, str_eqb_refl. reflexivity.
Qed.

Lemma scan_section (sec rest : list str) (commands : list str) :
  (forall l, In l sec -> well_laid header l) ->
  scan_commands header (sec ++ rest) true commands
  = scan_commands header rest true
      (commands ++ List.map first_word (filter names_command sec)).
Proof.
  revert commands. induction sec as [|l sec IH]; intros commands H; cbn [app filter].
  - cbn [List.map]. now rewrite app_nil_r.
  - destruct (H l (or_introl eq_refl)) as (Hne & Hhd & Hlen & Htok).
    assert (H' : forall l', In l' sec -> well_laid header l')
      by (intros l' Hl'; apply H; now right).
    rewrite scan_commands_cons.
    assert (E : str_eqb (strip l) header = false) by now apply str_eqb_neq.
    rewrite E.
    assert (Ee : is_empty l = false) by (destruct l; [contradiction|reflexivity]).
    rewrite Ee.
    destruct (nth_error l 4) as [c|] eqn:E4.
    2:{ apply nth_error_None in E4. lia. }
    assert (En : nth 4 l SPACE = c) by now apply nth_error_nth.
    unfold names_command at 1. rewrite En.
    destruct (c =? SPACE)%N eqn:Ec; cbn [negb].
    + now apply IH.
    + assert (Hc : c <> SPACE) by now apply N.eqb_neq.
      rewrite En in Htok. specialize (Htok Hc).
      cbn [List.map]. unfold first_word at 1.
      destruct (split_ws l) as [|tok toks]; [contradiction|].
      cbn [hd]. rewrite IH by assumption.
      rewrite <- app_assoc. reflexivity.
Qed.

(** A line shorter than the column is fatal wherever it stands in the
    section: every line before it either goes through or fails in the same
    way. *)
Lemma scan_short_line (sec rest : list str) (short : str) (commands : list str) :
  5 <= length header ->
  (forall l, In l sec -> l <> []) ->
  short <> [] -> length short < 5 ->
  scan_commands header (sec ++ short :: rest) true commands = Raise IndexError.
Proof.
  intros Hh Hsec Hne Hlen. revert commands.
  induction sec as [|l sec IH]; intro commands; cbn [app];
    rewrite scan_commands_cons.
  - destruct (str_eqb (strip short) header) eqn:E.
    + apply str_eqb_eq in E. pose proof (strip_length short) as H.
      rewrite E in H. lia.
    + assert (Ee : is_empty short = false)
        by (destruct short; [contradiction|reflexivity]).
      rewrite Ee.
      destruct (nth_error short 4) eqn:E4; [|reflexivity].
      assert (H : nth_error short 4 <> None) by congruence.
      apply nth_error_Some in H. lia.
  - assert (Hsec' : forall l', In l' sec -> l' <> [])
      by (intros l' Hl'; apply Hsec; now right).
    specialize (IH Hsec').
    destruct (str_eqb (strip l) header); [now apply IH|].
    assert (Ee : is_empty l = false).
    { destruct l; [|reflexivity]. exfalso. now apply (Hsec []); [left|]. }
    rewrite Ee.
    destruct (nth_error l 4) as [c|]; [|reflexivity].
    destruct (c =? SPACE)%N; [now apply IH|].
    destruct (split_ws l); [reflexivity|now apply IH].
Qed.

End Scan.

(** ** The monad *)

Lemma bind_ok_inv {A B : Type} (m : M A) (k : A -> M B) (s s' : state) (b : B) :
  bind m k s = (Ok b, s') ->
  exists a s1, m s = (Ok a, s1) /\ k a s1 = (Ok b, s').
Proof.
  unfold bind. destruct (m s) as [[a|x|msg] s1]; intro H; try discriminate.
  now exists a, s1.
Qed.

Lemma bind_ok {A B : Type} (m : M A) (k : A -> M B) (s s1 : state) (a : A) :
  m s = (Ok a, s1) -> bind m k s = k a s1.
Proof. intro H. unfold bind. now rewrite H. Qed.

Lemma bind_raise {A B : Type} (m : M A) (k : A -> M B) (s s1 : state) (x : exn) :
  m s = (Raise x, s1) -> bind m k s = (Raise x, s1).
Proof. intro H. unfold bind. now rewrite H. Qed.

Lemma bind_exit {A B : Type} (m : M A) (k : A -> M B) (s s1 : state) (msg : str) :
  m s = (Exit msg, s1) -> bind m k s = (Exit msg, s1).
Proof. intro H. unfold bind. now rewrite H. Qed.

(** ** C2, C10: the command sections of the help text *)

Lemma conda_commands_unfold (e : env) (s : state) :
  conda_commands e s
  = match conda_help e (announced "Getting list of core commands" s) with
    | (Ok help, s1) => (scan_commands (lit "command") (splitlines help) false [], s1)
    | (Raise x, s1) => (Raise x, s1)
    | (Exit msg, s1) => (Exit msg, s1)
    end.
Proof. reflexivity. Qed.

Lemma external_commands_scan_fails (e : env) (s s1 : state) (help : str) (x : exn) :
  conda_help e (announced "Getting list of external commands" s) = (Ok help, s1) ->
  scan_commands (lit "other commands:") (splitlines help) false [] = Raise x ->
  external_commands e s = (Raise x, s1).
Proof.
  intros Hh Hs. unfold external_commands.
  unfold bind at 1. unfold say, print, emit. fold (announced "Getting list of external commands" s).
  erewrite bind_ok by exact Hh. unfold bind, lift. now rewrite Hs.
Qed.

Lemma scan_short_line_anywhere (header : str) (lines : list str) :
  5 <= length header ->
  short_line_in_section header lines ->
  scan_commands header lines false [] = Raise IndexError.
Proof.
  intros Hh (pre & hline & sec & short & rest & -> & Hpre & Hhd & Hsec & Hne & Hlen).
  rewrite scan_before_header by assumption.
  rewrite scan_at_header by assumption.
  now apply scan_short_line.
Qed.

(** C2.  On a help text laid out in columns (some lines, the header line that
    strips to [command], the lines of the section, then the end of the text
    or an empty line), [conda_commands] returns the first words of the
    section lines whose column 4 is not a space, in order, and nothing for
    the other lines. *)
Theorem conda_commands_reads_section (e : env) (s s1 : state) (help : str)
    (pre sec tail : list str) (hline : str) :
  conda_help e (announced "Getting list of core commands" s) = (Ok help, s1) ->
  splitlines help = pre ++ hline :: sec ++ tail ->
  (forall l, In l pre -> strip l <> lit "command") ->
  strip hline = lit "command" ->
  (forall l, In l sec -> well_laid (lit "command") l) ->
  tail = [] \/ (exists rest, tail = [] :: rest) ->
  conda_commands e s = (Ok (List.map first_word (filter names_command sec)), s1).
Proof.
  intros Hh Hl Hpre Hhd Hsec Htail.
  rewrite conda_commands_unfold, Hh, Hl. f_equal.
  rewrite scan_before_header by assumption.
  rewrite scan_at_header by assumption.
  rewrite scan_section by assumption.
  destruct Htail as [-> | [rest ->]]; reflexivity.
Qed.

Lemma conda_commands_reads_section_witness :
  conda_commands (demo_env 0 0 demo_manpage) init
  = (Ok [lit "clean"; lit "config"; lit "install"],
     snd (conda_help (demo_env 0 0 demo_manpage)
            (announced "Getting list of core commands" init))).
Proof.
  apply (@conda_commands_reads_section (demo_env 0 0 demo_manpage) init _ demo_help
           [ lit "usage: conda [-h] [-V] command ..."; []; lit "positional arguments:" ]
           [ lit "    clean        Remove unused packages and caches.";
             lit "    config       Modify configuration values in .condarc.";
             lit "                 This is modeled after the git config command.";
             lit "    install      Installs a list of packages." ]
           [ []; lit "optional arguments:";
             lit "  -h, --help     Show this help message and exit."; [];
             lit "other commands:"; lit "    build"; lit "    skeleton"; [];
             lit "    ignored" ]
           (lit "  command")).
  - vm_compute. reflexivity.
  - vm_compute. reflexivity.
  - intros l [<-|[<-|[<-|[]]]]; vm_compute; discriminate.
  - vm_compute. reflexivity.
  - intros l [<-|[<-|[<-|[<-|[]]]]]; (split; [discriminate|]);
      (split; [vm_compute; discriminate|]);
      (split; [vm_compute; repeat constructor|]); intros _; vm_compute; discriminate.
  - right. eexists. reflexivity.
Defined.

(** C10.  The scans of [conda_commands] and [external_commands] index every
    line of the section at column 4: with a line of fewer than five
    characters in the section, not empty, both end in [IndexError] instead of
    passing over the line; so a scan that returns has met only lines of five
    characters or more between its header and the empty line. *)
Theorem section_scan_needs_five_columns (e : env) (s s1 : state) (help : str) :
  (conda_help e (announced "Getting list of core commands" s) = (Ok help, s1) ->
   short_line_in_section (lit "command") (splitlines help) ->
   conda_commands e s = (Raise IndexError, s1)) /\
  (conda_help e (announced "Getting list of external commands" s) = (Ok help, s1) ->
   short_line_in_section (lit "other commands:") (splitlines help) ->
   external_commands e s = (Raise IndexError, s1)) /\
  (forall header pre hline sec tail commands,
     header = lit "command" \/ header = lit "other commands:" ->
     (forall l, In l pre -> strip l <> header) ->
     strip hline = header ->
     (forall l, In l sec -> l <> []) ->
     scan_commands header (pre ++ hline :: sec ++ tail) false [] = Ok commands ->
     forall l, In l sec -> 5 <= length l).
Proof.
  split; [|split].
  - intros Hh Hshort. rewrite conda_commands_unfold, Hh. f_equal.
    apply scan_short_line_anywhere; [vm_compute; repeat constructor|assumption].
  - intros Hh Hshort. apply (external_commands_scan_fails _ _ Hh).
    apply scan_short_line_anywhere; [vm_compute; repeat constructor|assumption].
  - intros header pre hline sec tail commands Hheader Hpre Hhd Hsec Hok l Hl.
    destruct (le_lt_dec 5 (length l)) as [|Hlt]; [assumption|exfalso].
    apply in_split in Hl as (sec1 & sec2 & ->).
    assert (Hh : 5 <= length header)
      by (destruct Hheader as [-> | ->]; vm_compute; repeat constructor).
    rewrite (@scan_short_line_anywhere header) in Hok; [discriminate|assumption|].
    exists pre, hline, sec1, l, (sec2 ++ tail).
    rewrite <- app_assoc. cbn [app]. repeat split; try assumption.
    + intros l' Hl'. apply Hsec. apply in_or_app. now left.
    + apply Hsec. apply in_or_app. right. now left.
Qed.

Lemma section_scan_needs_five_columns_witness :
  conda_commands cramped_env init
  = (Raise IndexError,
     snd (conda_help cramped_env (announced "Getting list of core commands" init))) /\
  external_commands cramped_env init
  = (Raise IndexError,
     snd (conda_help cramped_env (announced "Getting list of external commands" init))).
Proof.
  split.
  - apply (proj1 (section_scan_needs_five_columns cramped_env init _ cramped_help)).
    + vm_compute. reflexivity.
    + exists [lit "positional arguments:"], (lit "  command"),
        [lit "    clean        Remove unused packages and caches."], (lit "run"),
        [[]; lit "other commands:"; lit "    build"; lit "ci"; []].
      split; [vm_compute; reflexivity|].
      split; [intros l [<-|[]]; vm_compute; discriminate|].
      split; [vm_compute; reflexivity|].
      split; [intros l [<-|[]]; discriminate|].
      split; [discriminate|vm_compute; repeat constructor].
  - apply (proj1 (proj2 (section_scan_needs_five_columns cramped_env init _ cramped_help))).
    + vm_compute. reflexivity.
    + exists [lit "positional arguments:"; lit "  command";
              lit "    clean        Remove unused packages and caches."; lit "run"; []],
        (lit "other commands:"), [lit "    build"], (lit "ci"), [[]].
      split; [vm_compute; reflexivity|].
      split; [intros l [<-|[<-|[<-|[<-|[<-|[]]]]]]; vm_compute; discriminate|].
      split; [vm_compute; reflexivity|].
      split; [intros l [<-|[]]; discriminate|].
      split; [discriminate|vm_compute; repeat constructor].
Defined.

(** ** Running a process *)

Lemma run_command_unfold (e : env) (argv : list str) (include_stderr : bool) (s : state) :
  let mode := if include_stderr then ErrMerged else ErrPipe in
  let o := respond e (log s) argv mode in
  let s1 := add_event (EvSpawn argv mode o) s in
  run_command e argv include_stderr s
  = match o with
    | CannotStart => (Raise OSError, s1)
    | Exited out err code =>
        match decode_utf8 out with
        | None => (Raise UnicodeDecodeError, s1)
        | Some tout =>
            match decode_utf8 (if include_stderr then [] else err) with
            | None => (Raise UnicodeDecodeError, s1)
            | Some terr =>
                (Ok tout,
                 if negb (code =? 0)%Z
                 then add_event (EvPrint Stderr (MsgFailed argv code)) s1
                 else if negb (is_empty terr)
                      then add_event (EvPrint Stdout (MsgStderr argv terr)) s1
                      else s1)
            end
        end
    end.
Proof.
  intros mode o s1. subst mode o s1.
  unfold run_command, bind, spawn, decode.
  destruct include_stderr;
    (destruct (respond e (log s) argv _) as [|out err code]; [reflexivity|]);
    (destruct (decode_utf8 out) as [tout|]; [|reflexivity]);
    unfold ret at 1.
  - cbn [decode_utf8]. unfold ret at 1.
    destruct (negb (code =? 0)%Z); reflexivity.
  - destruct (decode_utf8 err) as [terr|]; [|reflexivity].
    unfold ret at 1.
    destruct (negb (code =? 0)%Z); [reflexivity|].
    destruct (negb (is_empty terr)); reflexivity.
Qed.

(** What a call of [run_command] adds to the history: the process, then at
    most one printed line; nothing else of the state changes. *)
Lemma run_command_log (e : env) (argv : list str) (include_stderr : bool) (s : state) :
  let mode := if include_stderr then ErrMerged else ErrPipe in
  let s' := snd (run_command e argv include_stderr s) in
  exists printed,
    log s' = log s ++ EvSpawn argv mode (respond e (log s) argv mode) :: printed /\
    Forall quiet printed /\
    cache s' = cache s /\ files s' = files s /\ dirs s' = dirs s.
Proof.
  intros mode s'. subst s'. rewrite run_command_unfold. fold mode.
  destruct (respond e (log s) argv mode) as [|out err code];
    [exists []; cbn; auto|].
  destruct (decode_utf8 out) as [tout|]; [|exists []; cbn; auto].
  destruct (decode_utf8 (if include_stderr then [] else err)) as [terr|];
    [|exists []; cbn; auto].
  cbn [snd].
  destruct (negb (code =? 0)%Z).
  - eexists [_]. cbn. rewrite <- app_assoc. repeat split.
    constructor; [exact I|constructor].
  - destruct (negb (is_empty terr)).
    + eexists [_]. cbn. rewrite <- app_assoc. repeat split.
      constructor; [exact I|constructor].
    + exists []. cbn. auto.
Qed.

Lemma run_command_ok (e : env) (argv : list str) (include_stderr : bool)
    (s s' : state) (t : str) :
  run_command e argv include_stderr s = (Ok t, s') ->
  exists out err code,
    respond e (log s) argv (if include_stderr then ErrMerged else ErrPipe)
    = Exited out err code /\ decode_utf8 out = Some t.
Proof.
  rewrite run_command_unfold.
  destruct (respond e (log s) argv _) as [|out err code]; [discriminate|].
  destruct (decode_utf8 out) as [tout|] eqn:Hout; [|discriminate].
  destruct (decode_utf8 (if include_stderr then [] else err)); [|discriminate].
  intro H. injection H as -> _. now exists out, err, code.
Qed.

(** C5 (amended).  When the program starts and what it wrote decodes as
    UTF-8, [run_command] returns the decoded standard output without raising;
    a non-zero exit code puts a diagnostic on the error stream; with exit code
    zero, a standard error that was not merged and is not empty is reported
    in one printed line, and nothing is printed otherwise. *)
Theorem run_command_reports (e : env) (argv : list str) (include_stderr : bool)
    (s : state) (out err : bytes) (code : Z) (tout terr : str) :
  let mode := if include_stderr then ErrMerged else ErrPipe in
  let started := EvSpawn argv mode (Exited out err code) in
  respond e (log s) argv mode = Exited out err code ->
  decode_utf8 out = Some tout ->
  decode_utf8 (if include_stderr then [] else err) = Some terr ->
  exists s',
    run_command e argv include_stderr s = (Ok tout, s') /\
    (code <> 0%Z ->
     log s' = log s ++ [started; EvPrint Stderr (MsgFailed argv code)]) /\
    (code = 0%Z -> terr <> [] ->
     exists to, log s' = log s ++ [started; EvPrint to (MsgStderr argv terr)]) /\
    (code = 0%Z -> terr = [] -> log s' = log s ++ [started]).
Proof.
  intros mode started Hr Hout Herr.
  rewrite run_command_unfold. fold mode. rewrite Hr, Hout, Herr. fold started.
  eexists. split; [reflexivity|].
  destruct (Z.eqb_spec code 0) as [->|Hcode]; cbn [negb].
  - split; [congruence|]. split.
    + intros _ Hne. exists Stdout.
      destruct terr; [contradiction|]. cbn. now rewrite <- app_assoc.
    + intros _ ->. reflexivity.
  - split; [|split; congruence].
    intros _. cbn. now rewrite <- app_assoc.
Qed.

Lemma run_command_reports_witness :
  exists s',
    run_command (demo_env 1 0 demo_manpage) version_argv true init
    = (Ok (lit "conda 4.3.0"), s') /\
    log s' = [ EvSpawn version_argv ErrMerged (Exited (blit "conda 4.3.0") [] 1);
               EvPrint Stderr (MsgFailed version_argv 1) ].
Proof.
  destruct (@run_command_reports (demo_env 1 0 demo_manpage) version_argv true init
              (blit "conda 4.3.0") [] 1%Z (lit "conda 4.3.0") [])
    as (s' & Hrun & Hfail & _); try (vm_compute; reflexivity).
  exists s'. split; [exact Hrun|]. apply Hfail. discriminate.
Defined.

(** C5 as stated fails twice: a process whose output is not UTF-8 makes
    [run_command] raise, and the report of a non-empty standard error after
    exit code zero goes to the standard output. *)
Lemma run_command_raises_and_warns_on_stdout :
  fst (run_command garbled_env version_argv false init) = Raise UnicodeDecodeError /\
  run_command noisy_env version_argv false init
  = (Ok (lit "conda 4.3.0"),
     {| log := [ EvSpawn version_argv ErrPipe
                   (Exited (blit "conda 4.3.0") (blit "deprecated") 0);
                 EvPrint Stdout (MsgStderr version_argv (lit "deprecated")) ];
        cache := []; files := []; dirs := [] |}).
Proof. vm_compute. split; reflexivity. Qed.

(** ** Computations that leave the state alone *)

Lemma stateless_ret {A : Type} (a : A) : stateless (ret a).
Proof. now intro s. Qed.

Lemma stateless_raise {A : Type} (x : exn) : stateless (@raise A x).
Proof. now intro s. Qed.

Lemma stateless_bind {A B : Type} (m : M A) (k : A -> M B) :
  stateless m -> (forall a, stateless (k a)) -> stateless (bind m k).
Proof.
  intros Hm Hk s. unfold bind. specialize (Hm s).
  destruct (m s) as [[a|x|msg] s1]; cbn [snd] in *; subst; try reflexivity.
  apply Hk.
Qed.

Lemma bind_stateless {A B : Type} (m : M A) (k : A -> M B) (s : state) :
  (forall a, stateless (k a)) -> snd (bind m k s) = snd (m s).
Proof.
  intro Hk. unfold bind.
  destruct (m s) as [[a|x|msg] s1]; cbn [snd]; try reflexivity.
  apply Hk.
Qed.

Lemma stateless_getitem (info : json) (key : str) : stateless (getitem info key).
Proof.
  unfold getitem. destruct info; try apply stateless_raise.
  destruct (dict_get key members); [apply stateless_ret|apply stateless_raise].
Qed.

Lemma stateless_as_key (k : json) : stateless (as_key k).
Proof. destruct k; try apply stateless_raise. apply stateless_ret. Qed.

Lemma stateless_join_iterable (sep : str) (x : json) : stateless (join_iterable sep x).
Proof.
  destruct x; cbn; try apply stateless_raise; try apply stateless_ret.
  destruct (all_str items); [apply stateless_ret|apply stateless_raise].
Qed.

Create HintDb stateless.

#[local] Hint Resolve stateless_ret stateless_raise stateless_getitem
  stateless_as_key stateless_join_iterable : stateless.

(** ** Querying [conda] *)

Lemma check_output_unfold (e : env) (argv : list str) (s : state) :
  let o := respond e (log s) argv ErrInherit in
  let s1 := add_event (EvSpawn argv ErrInherit o) s in
  check_output e argv s
  = match o with
    | CannotStart => (Raise OSError, s1)
    | Exited out _ code =>
        if (code =? 0)%Z then (Ok out, s1) else (Raise CalledProcessError, s1)
    end.
Proof.
  cbv zeta. unfold check_output, bind, spawn.
  destruct (respond e (log s) argv ErrInherit) as [|out err code]; [reflexivity|].
  destruct (code =? 0)%Z; reflexivity.
Qed.

Lemma str_check_output_unfold (e : env) (argv : list str) (s : state) :
  let o := respond e (log s) argv ErrInherit in
  let s1 := add_event (EvSpawn argv ErrInherit o) s in
  str_check_output e argv s
  = match o with
    | CannotStart => (Raise OSError, s1)
    | Exited out _ code =>
        if (code =? 0)%Z then
          match decode_utf8 out with
          | Some t => (Ok t, s1)
          | None => (Raise UnicodeDecodeError, s1)
          end
        else (Raise CalledProcessError, s1)
    end.
Proof.
  cbv zeta. unfold str_check_output, bind. rewrite check_output_unfold.
  destruct (respond e (log s) argv ErrInherit) as [|out err code]; [reflexivity|].
  destruct (code =? 0)%Z; [|reflexivity].
  unfold decode. destruct (decode_utf8 out); reflexivity.
Qed.

Lemma str_check_output_state (e : env) (argv : list str) (s : state) :
  snd (str_check_output e argv s)
  = add_event (EvSpawn argv ErrInherit (respond e (log s) argv ErrInherit)) s.
Proof.
  rewrite str_check_output_unfold.
  destruct (respond e (log s) argv ErrInherit) as [|out err code]; [reflexivity|].
  destruct (code =? 0)%Z; [|reflexivity].
  destruct (decode_utf8 out); reflexivity.
Qed.

(** The table of replacements costs one query of [conda info --json],
    whatever becomes of it. *)
Lemma man_replacements_state (e : env) (s : state) :
  snd (man_replacements e s)
  = add_event (EvSpawn info_argv ErrInherit (respond e (log s) info_argv ErrInherit)) s.
Proof.
  unfold man_replacements. rewrite bind_stateless.
  - apply str_check_output_state.
  - intro out.
    repeat (apply stateless_bind; [|intro]); auto with stateless.
    destruct (json_loads e out); auto with stateless.
Qed.

(** ** Events that are not processes *)

Lemma quiet_not_converter (l : list event) :
  Forall quiet l -> filter is_converter l = [].
Proof.
  induction 1 as [|ev l Hev _ IH]; [reflexivity|].
  destruct ev; try contradiction. exact IH.
Qed.

Lemma quiet_not_info_query (l : list event) :
  Forall quiet l -> filter is_info_query l = [].
Proof.
  induction 1 as [|ev l Hev _ IH]; [reflexivity|].
  destruct ev; try contradiction. exact IH.
Qed.

Lemma quiet_no_writes (l : list event) :
  Forall quiet l -> writes l = [].
Proof.
  induction 1 as [|ev l Hev _ IH]; [reflexivity|].
  destruct ev; try contradiction. exact IH.
Qed.

(** ** The retry loop of [generate_man] *)

Ltac now_trivially :=
  repeat split; auto; try lia; try (intros; congruence); try (intros; discriminate).

Section Generate.

Variable e : env.
Variable command : str.

Lemma loop_event_filter (conda_version : str) (l : list event) :
  Forall (loop_event command conda_version) l ->
  filter is_info_query l = [] /\ writes l = [] /\
  filter is_spawn l = filter is_converter l.
Proof.
  induction 1 as [|ev l Hev _ (IH1 & IH2 & IH3)]; [now repeat split|].
  destruct Hev as [[o ->]|Hq].
  - cbn [filter writes flat_map is_info_query is_spawn is_converter].
    change (argv_eqb (help2man_argv command conda_version) info_argv) with false.
    change (head_is (lit "help2man") (help2man_argv command conda_version)) with true.
    cbn [app]. fold (writes l). rewrite IH3. now repeat split.
  - destruct ev; try contradiction. exact (conj IH1 (conj IH2 IH3)).
Qed.

Lemma man_loop_log (conda_version : str) (retries : nat) :
  forall (manpage : str) (s : state),
    let s' := snd (man_loop e command conda_version retries manpage s) in
    exists new,
      log s' = log s ++ new /\
      length (filter is_converter new) <= retries /\
      well_stopped (filter is_converter new) /\
      (manpage <> [] -> new = []) /\
      (manpage = [] -> retries <> 0 ->
       exists rest,
         new = EvSpawn (help2man_argv command conda_version) ErrPipe
                 (respond e (log s) (help2man_argv command conda_version) ErrPipe)
               :: rest) /\
      Forall (loop_event command conda_version) new /\
      cache s' = cache s /\ files s' = files s /\ dirs s' = dirs s.
Proof.
  induction retries as [|n IH]; intros manpage s; cbn zeta.
  - exists []. cbn. rewrite app_nil_r. now_trivially.
  - cbn [man_loop]. destruct manpage as [|c manpage]; cbn [is_empty].
    2:{ exists []. cbn. rewrite app_nil_r. now_trivially. }
    set (argv := help2man_argv command conda_version).
    destruct (run_command_log e argv false s) as (printed & Hlog & Hq & Hc & Hf & Hd).
    cbn zeta in Hlog, Hc, Hf, Hd. fold argv.
    set (ev := EvSpawn argv ErrPipe (respond e (log s) argv ErrPipe)) in *.
    assert (Hconv : filter is_converter (ev :: printed) = [ev]).
    { cbn [filter]. change (is_converter ev) with true.
      now rewrite quiet_not_converter. }
    assert (Hloop : Forall (loop_event command conda_version) (ev :: printed)).
    { constructor; [left; now eexists|].
      eapply Forall_impl; [|exact Hq]. intros a Ha. now right. }
    unfold bind.
    destruct (run_command e argv false s) as [[manpage'|x|msg] s1] eqn:Hrun;
      cbn [snd] in Hlog, Hc, Hf, Hd.
    + destruct (IH manpage' s1) as (new & Hlog' & Hlen & Hws & Hne & _ & Hall & Hc' & Hf' & Hd').
      cbn zeta in Hlog', Hc', Hf', Hd'.
      exists ((ev :: printed) ++ new).
      split. { rewrite Hlog', Hlog, <- app_assoc. reflexivity. }
      rewrite filter_app, Hconv. cbn [app length well_stopped].
      split. { lia. }
      split.
      { split; [|exact Hws]. destruct manpage' as [|c' m'].
        - right. apply run_command_ok in Hrun as (out & err & code & Hr & Hdec).
          cbn in Hr. subst ev. rewrite Hr. cbn. now rewrite Hdec.
        - left. rewrite Hne by discriminate. reflexivity. }
      split. { intro H. now contradiction H. }
      split. { intros _ _. now eexists. }
      split. { change (Forall (loop_event command conda_version) ((ev :: printed) ++ new)).
               apply Forall_app. split; [exact Hloop|exact Hall]. }
      repeat split; congruence.
    + exists (ev :: printed). rewrite Hconv. cbn [length well_stopped snd].
      split; [assumption|]. split; [lia|]. split; [now split; [left|]|].
      split; [intro H; now contradiction H|]. split; [intros _ _; now eexists|].
      split; [assumption|]. now repeat split.
    + exists (ev :: printed). rewrite Hconv. cbn [length well_stopped snd].
      split; [assumption|]. split; [lia|]. split; [now split; [left|]|].
      split; [intro H; now contradiction H|]. split; [intros _ _; now eexists|].
      split; [assumption|]. now repeat split.
Qed.

(** A converter that gives nothing at every attempt of the run for this
    command is started [retries] times, and the loop ends with nothing.  The
    attempts of the run are those made after the version query, in the state
    [s0] it left or a later one. *)
Lemma man_loop_all_empty (conda_version : str) (s0 : state) :
  (forall s1, (exists more, log s1 = log s0 ++ more) ->
              exists s2,
                run_command e (help2man_argv command conda_version) false s1 = (Ok [], s2)) ->
  forall retries s,
    (exists more, log s = log s0 ++ more) ->
    exists s',
      man_loop e command conda_version retries [] s = (Ok [], s') /\
      converter_calls (log s') = converter_calls (log s) + retries.
Proof.
  intros Hempty. induction retries as [|n IH]; intros s Hext.
  - exists s. split; [reflexivity|]. lia.
  - cbn [man_loop is_empty].
    set (argv := help2man_argv command conda_version).
    destruct (Hempty s Hext) as (s1 & Hrun). fold argv in Hrun.
    destruct (run_command_log e argv false s) as (printed & Hlog & Hq & _).
    cbn zeta in Hlog. rewrite Hrun in Hlog. cbn [snd] in Hlog.
    assert (Hext1 : exists more, log s1 = log s0 ++ more).
    { destruct Hext as (more & Hmore). rewrite Hlog, Hmore, <- app_assoc. eauto. }
    destruct (IH s1 Hext1) as (s' & Hloop & Hcount).
    exists s'. split.
    + erewrite bind_ok by exact Hrun. exact Hloop.
    + rewrite Hcount. unfold converter_calls. rewrite Hlog, filter_app, length_app.
      cbn [filter]. change (is_converter (EvSpawn argv ErrPipe _)) with true.
      cbv iota. rewrite (quiet_not_converter Hq). cbn [length]. lia.
Qed.

(** The stages of [generate_man]. *)
Lemma generate_man_stages (s : state) :
  match run_command e version_argv true s with
  | (Ok conda_version, s0) =>
      match man_loop e command conda_version 5 [] s0 with
      | (Ok manpage, s1) =>
          if is_empty manpage
          then generate_man e command s = (Exit (exit_message command), s1)
          else
            match man_replacements e s1 with
            | (Ok replacements, s2) =>
                let page := Text (apply_replacements replacements manpage) in
                generate_man e command s
                = (Ok tt,
                   add_event
                     (EvPrint Stdout (MsgText (lit "Generated manpage for conda " ++ command)))
                     (add_file (man_file e command) page
                        (add_event (EvWrite (man_file e command) page) s2)))
            | (Raise x, s2) => generate_man e command s = (Raise x, s2)
            | (Exit msg, s2) => generate_man e command s = (Exit msg, s2)
            end
      | (Raise x, s1) => generate_man e command s = (Raise x, s1)
      | (Exit msg, s1) => generate_man e command s = (Exit msg, s1)
      end
  | (Raise x, s0) => generate_man e command s = (Raise x, s0)
  | (Exit msg, s0) => generate_man e command s = (Exit msg, s0)
  end.
Proof.
  destruct (run_command e version_argv true s) as [[v|x|msg] s0] eqn:Hv; unfold generate_man.
  2:{ now erewrite bind_raise by exact Hv. }
  2:{ now erewrite bind_exit by exact Hv. }
  destruct (man_loop e command v 5 [] s0) as [[manpage|x|msg] s1] eqn:Hl.
  2:{ erewrite bind_ok by exact Hv. now erewrite bind_raise by exact Hl. }
  2:{ erewrite bind_ok by exact Hv. now erewrite bind_exit by exact Hl. }
  erewrite bind_ok by exact Hv. erewrite bind_ok by exact Hl.
  destruct (is_empty manpage); [reflexivity|].
  erewrite bind_ok by reflexivity.
  destruct (man_replacements e s1) as [[repl|x|msg] s2] eqn:Hr.
  - now erewrite bind_ok by exact Hr.
  - now erewrite bind_raise by exact Hr.
  - now erewrite bind_exit by exact Hr.
Qed.

Lemma generate_man_trace (s : state) :
  let s' := snd (generate_man e command s) in
  let ok := succeeded (fst (generate_man e command s)) in
  let sv := snd (run_command e version_argv true s) in
  exists printed,
    log sv = log s ++ EvSpawn version_argv ErrMerged
                        (respond e (log s) version_argv ErrMerged) :: printed /\
    Forall quiet printed /\
    exists rest,
      log s' = log sv ++ rest /\
      cache s' = cache s /\ dirs s' = dirs s /\
      match run_command e version_argv true s with
      | (Ok conda_version, s0) =>
          exists loop tail,
            rest = loop ++ tail /\
            length (filter is_converter loop) <= 5 /\
            well_stopped (filter is_converter loop) /\
            (exists more,
               loop = EvSpawn (help2man_argv command conda_version) ErrPipe
                        (respond e (log s0) (help2man_argv command conda_version) ErrPipe)
                      :: more) /\
            Forall (loop_event command conda_version) loop /\
            man_tail e command ok tail /\
            (if ok then exists page, files s' = (man_file e command, page) :: files s
             else files s' = files s)
      | _ => rest = [] /\ ok = false /\ files s' = files s
      end.
Proof.
  cbn zeta. pose proof (generate_man_stages s) as Hst.
  destruct (run_command_log e version_argv true s) as (printed & Hlog & Hq & Hc & Hf & Hd).
  cbn zeta in Hlog, Hc, Hf, Hd.
  exists printed. split; [exact Hlog|]. split; [exact Hq|]. clear Hlog.
  destruct (run_command e version_argv true s) as [[v|x|msg] s0] eqn:Hv;
    cbn [snd] in Hc, Hf, Hd |- *.
  2:{ rewrite Hst. exists []. cbn [fst snd succeeded]. rewrite app_nil_r. now repeat split. }
  2:{ rewrite Hst. exists []. cbn [fst snd succeeded]. rewrite app_nil_r. now repeat split. }
  destruct (@man_loop_log v 5 [] s0)
    as (loop & Hlog1 & Hlen & Hws & _ & Hfirst & Hall & Hc1 & Hf1 & Hd1).
  cbn zeta in Hlog1, Hc1, Hf1, Hd1.
  destruct (Hfirst eq_refl) as (more & Hmore); [discriminate|].
  assert (Hshape : forall (r : result unit) s1 tail,
             succeeded r = false ->
             log s1 = log s0 ++ loop ++ tail -> cache s1 = cache s0 ->
             files s1 = files s0 -> dirs s1 = dirs s0 ->
             man_tail e command false tail ->
             exists rest,
               log (snd (r, s1)) = log s0 ++ rest /\
               cache (snd (r, s1)) = cache s /\ dirs (snd (r, s1)) = dirs s /\
               exists loop' tail',
                 rest = loop' ++ tail' /\
                 length (filter is_converter loop') <= 5 /\
                 well_stopped (filter is_converter loop') /\
                 (exists more',
                    loop' = EvSpawn (help2man_argv command v) ErrPipe
                              (respond e (log s0) (help2man_argv command v) ErrPipe)
                            :: more') /\
                 Forall (loop_event command v) loop' /\
                 man_tail e command (succeeded (fst (r, s1))) tail' /\
                 (if succeeded (fst (r, s1))
                  then exists page, files (snd (r, s1)) = (man_file e command, page) :: files s
                  else files (snd (r, s1)) = files s)).
  { intros r s1 tail Hr Hl1 Hc2 Hf2 Hd2 Htail. cbn [fst snd]. rewrite Hr.
    exists (loop ++ tail).
    split; [exact Hl1|]. split; [congruence|]. split; [congruence|].
    exists loop, tail. split; [reflexivity|]. split; [assumption|].
    split; [assumption|]. split; [now exists more|]. split; [assumption|].
    split; [assumption|congruence]. }
  destruct (man_loop e command v 5 [] s0) as [[manpage|x|msg] s1] eqn:Hl;
    cbn [snd] in Hlog1, Hc1, Hf1, Hd1.
  2:{ rewrite Hst. apply Hshape with (tail := []); try assumption; try reflexivity.
      - now rewrite app_nil_r.
      - now left. }
  2:{ rewrite Hst. apply Hshape with (tail := []); try assumption; try reflexivity.
      - now rewrite app_nil_r.
      - now left. }
  destruct (is_empty manpage).
  { rewrite Hst. apply Hshape with (tail := []); try assumption; try reflexivity.
    - now rewrite app_nil_r.
    - now left. }
  pose proof (man_replacements_state e s1) as Hrs.
  set (q := EvSpawn info_argv ErrInherit (respond e (log s1) info_argv ErrInherit)) in *.
  destruct (man_replacements e s1) as [[repl|x|msg] s2] eqn:Hr; cbn [snd] in Hrs; subst s2.
  2:{ rewrite Hst. apply Hshape with (tail := [q]); try assumption; try reflexivity.
      - cbn [log add_event]. now rewrite Hlog1, <- app_assoc.
      - right. now eexists. }
  2:{ rewrite Hst. apply Hshape with (tail := [q]); try assumption; try reflexivity.
      - cbn [log add_event]. now rewrite Hlog1, <- app_assoc.
      - right. now eexists. }
  cbn zeta in Hst. rewrite Hst. cbn [fst snd succeeded].
  eexists (loop ++ [q; _; _]).
  split; [cbn [log add_event add_file]; rewrite Hlog1, <- !app_assoc; reflexivity|].
  split; [cbn; congruence|]. split; [cbn; congruence|].
  exists loop. eexists. split; [reflexivity|]. split; [assumption|].
  split; [assumption|]. split; [now exists more|]. split; [assumption|].
  split; [now eexists _, _|].
  eexists. cbn [files add_event add_file]. now rewrite Hf1, Hf.
Qed.

End Generate.

Lemma well_stopped_split (l before after : list event) (ev : event) :
  well_stopped l -> l = before ++ ev :: after -> yields_empty ev = false ->
  after = [].
Proof.
  revert l. induction before as [|b before IH]; intros l Hws -> Hy; cbn in Hws.
  - destruct Hws as [[->|Hyes] _]; [reflexivity|congruence].
  - destruct Hws as [_ Hws]. eapply IH; [exact Hws|reflexivity|exact Hy].
Qed.

Lemma man_tail_converter (e : env) (command : str) (ok : bool) (tail : list event) :
  man_tail e command ok tail -> filter is_converter tail = [].
Proof.
  destruct ok; cbn [man_tail].
  - intros (o & page & ->). reflexivity.
  - intros [->|(o & ->)]; reflexivity.
Qed.

Lemma version_query_not_converter (o : outcome) (printed : list event) :
  Forall quiet printed ->
  filter is_converter (EvSpawn version_argv ErrMerged o :: printed) = [].
Proof.
  intro Hq. cbn [filter].
  change (is_converter (EvSpawn version_argv ErrMerged o)) with false.
  now apply quiet_not_converter.
Qed.

(** What [generate_man] adds to the history holds at most five starts of the
    converter, each but the last one having given nothing. *)
Lemma generate_man_attempts (e : env) (command : str) (s : state) :
  exists new,
    log (snd (generate_man e command s)) = log s ++ new /\
    length (filter is_converter new) <= 5 /\
    well_stopped (filter is_converter new).
Proof.
  destruct (generate_man_trace e command s)
    as (printed & Hv & Hq & rest & Hlog & _ & _ & Hrest).
  cbn zeta in Hv, Hlog. rewrite Hv, <- app_assoc in Hlog.
  eexists. split; [exact Hlog|].
  rewrite filter_app, (version_query_not_converter _ Hq). cbn [app].
  destruct (run_command e version_argv true s) as [[v|x|msg] s0].
  - destruct Hrest as (loop & tail & -> & Hlen & Hws & _ & _ & Htail & _).
    rewrite filter_app, (@man_tail_converter e command _ tail Htail), app_nil_r.
    now split.
  - destruct Hrest as (-> & _). cbn. split; [lia|exact I].
  - destruct Hrest as (-> & _). cbn. split; [lia|exact I].
Qed.

(** C1.  When the version query returns and the converter gives nothing at
    every attempt it makes for this command in this run, [generate_man]
    starts the converter exactly five times and then ends the process with a
    message that names the command; and in every run the converter is started
    at most five times and never again after an attempt that did not give
    nothing. *)
Theorem generate_man_retries (e : env) (command : str) (s : state) :
  (forall conda_version s0,
     run_command e version_argv true s = (Ok conda_version, s0) ->
     (forall s1,
        (exists more, log s1 = log s0 ++ more) ->
        exists s2,
          run_command e (help2man_argv command conda_version) false s1 = (Ok [], s2)) ->
     exists s',
       generate_man e command s
       = (Exit (lit "Error: Could not get help for conda " ++ command), s') /\
       converter_calls (log s') = converter_calls (log s) + 5) /\
  (exists new,
     log (snd (generate_man e command s)) = log s ++ new /\
     converter_calls new <= 5 /\
     forall before ev after,
       filter is_converter new = before ++ ev :: after ->
       yields_empty ev = false -> after = []).
Proof.
  split.
  - intros v s0 Hv Hempty.
    destruct (@man_loop_all_empty e command v s0 Hempty 5 s0) as (s' & Hl & Hcount).
    { exists []. now rewrite app_nil_r. }
    pose proof (generate_man_stages e command s) as Hst.
    rewrite Hv, Hl in Hst. cbn [is_empty] in Hst.
    exists s'. split; [exact Hst|]. rewrite Hcount. f_equal.
    destruct (run_command_log e version_argv true s) as (printed & Hlog & Hq & _).
    cbn zeta in Hlog. rewrite Hv in Hlog. cbn [snd] in Hlog.
    unfold converter_calls.
    now rewrite Hlog, filter_app, (version_query_not_converter _ Hq), app_nil_r.
  - destruct (generate_man_attempts e command s) as (new & Hlog & Hlen & Hws).
    exists new. split; [exact Hlog|]. split; [exact Hlen|].
    intros before ev after Hsplit Hy. eapply well_stopped_split; eassumption.
Qed.

Lemma generate_man_retries_witness :
  exists s',
    generate_man (no_page_env (lit "frobnicate")) (lit "frobnicate") init
    = (Exit (lit "Error: Could not get help for conda frobnicate"), s') /\
    converter_calls (log s') = 5.
Proof.
  apply (proj1 (generate_man_retries (no_page_env (lit "frobnicate")) (lit "frobnicate") init)
           (lit "conda 4.3.0")
           (snd (run_command (no_page_env (lit "frobnicate")) version_argv true init))).
  - vm_compute. reflexivity.
  - intros s1 _. rewrite run_command_unfold. cbv zeta.
    cbn [respond no_page_env].
    change (head_is (lit "help2man")
              (help2man_argv (lit "frobnicate") (lit "conda 4.3.0"))) with true.
    change (nth 2 (help2man_argv (lit "frobnicate") (lit "conda 4.3.0")) [])
      with (lit "conda " ++ lit "frobnicate").
    rewrite str_eqb_refl. cbn. eexists. reflexivity.
Defined.

(** In that world the converter gives nothing for [frobnicate] only: the
    page of [build] is made at the first attempt. *)
Example only_this_command_gives_nothing :
  let r := generate_man (no_page_env (lit "frobnicate")) (lit "build") init in
  fst r = Ok tt /\ converter_calls (log (snd r)) = 1.
Proof. vm_compute. split; reflexivity. Qed.

(** The attempts of a run in which the converter gives nothing twice and a
    page at the third attempt. *)
Example generate_man_third_attempt :
  let r := generate_man (demo_env 0 2 demo_manpage) (lit "build") init in
  fst r = Ok tt /\ converter_calls (log (snd r)) = 3.
Proof. vm_compute. split; reflexivity. Qed.

(** C6 (amended).  A version query that ends with a non-zero exit code does
    not stop [generate_man]: the failure is reported on the error stream and
    the converter is started next, with what the query printed as version
    string. *)
Theorem version_failure_is_not_fatal (e : env) (command : str) (s : state)
    (out err : bytes) (code : Z) (conda_version : str) :
  respond e (log s) version_argv ErrMerged = Exited out err code ->
  code <> 0%Z ->
  decode_utf8 out = Some conda_version ->
  exists o rest,
    log (snd (generate_man e command s))
    = log s ++ [ EvSpawn version_argv ErrMerged (Exited out err code);
                 EvPrint Stderr (MsgFailed version_argv code);
                 EvSpawn (help2man_argv command conda_version) ErrPipe o ] ++ rest.
Proof.
  intros Hr Hcode Hdec.
  destruct (@run_command_reports e version_argv true s out err code conda_version [])
    as (s0 & Hrun & Hfail & _); try assumption; try reflexivity.
  specialize (Hfail Hcode).
  destruct (generate_man_trace e command s)
    as (printed & _ & _ & rest & Hlog & _ & _ & Hrest).
  cbn zeta in Hlog. rewrite Hrun in Hlog, Hrest. cbn [snd] in Hlog.
  destruct Hrest as (loop & tail & -> & _ & _ & (more & ->) & _).
  eexists _, (more ++ tail). rewrite Hlog, Hfail, <- !app_assoc. reflexivity.
Qed.

Lemma version_failure_is_not_fatal_witness :
  exists o rest,
    log (snd (generate_man (demo_env 1 0 demo_manpage) (lit "build") init))
    = [ EvSpawn version_argv ErrMerged (Exited (blit "conda 4.3.0") [] 1);
        EvPrint Stderr (MsgFailed version_argv 1);
        EvSpawn (help2man_argv (lit "build") (lit "conda 4.3.0")) ErrPipe o ] ++ rest.
Proof.
  apply (@version_failure_is_not_fatal (demo_env 1 0 demo_manpage) (lit "build") init
           (blit "conda 4.3.0") [] 1%Z (lit "conda 4.3.0")).
  - vm_compute. reflexivity.
  - discriminate.
  - vm_compute. reflexivity.
Defined.

(** C6 as stated fails: with a version query that ends with exit code 1,
    [generate_man] does not end the process; it starts the converter and
    writes the manual page. *)
Lemma version_failure_goes_on :
  respond (demo_env 1 0 demo_manpage) [] version_argv ErrMerged
  = Exited (blit "conda 4.3.0") [] 1 /\
  fst (generate_man (demo_env 1 0 demo_manpage) (lit "build") init) = Ok tt /\
  converter_calls (log (snd (generate_man (demo_env 1 0 demo_manpage) (lit "build") init)))
  = 1 /\
  writes (log (snd (generate_man (demo_env 1 0 demo_manpage) (lit "build") init)))
  = [lit "/docs/build/man/conda-build.1"].
Proof. vm_compute. repeat split; reflexivity. Qed.

(** ** The generation tasks and the fragments *)

Section Tasks.

Variable e : env.

Lemma info_queries_app (l1 l2 : list event) :
  info_queries (l1 ++ l2) = info_queries l1 + info_queries l2.
Proof. unfold info_queries. now rewrite filter_app, length_app. Qed.

Lemma writes_app (l1 l2 : list event) : writes (l1 ++ l2) = writes l1 ++ writes l2.
Proof. apply flat_map_app. Qed.

Lemma version_query_plain (o : outcome) (printed : list event) :
  Forall quiet printed ->
  info_queries (EvSpawn version_argv ErrMerged o :: printed) = 0 /\
  writes (EvSpawn version_argv ErrMerged o :: printed) = [].
Proof.
  intro Hq. split.
  - unfold info_queries. cbn [filter].
    change (is_info_query (EvSpawn version_argv ErrMerged o)) with false.
    cbv iota. now rewrite (quiet_not_info_query Hq).
  - change (writes (EvSpawn version_argv ErrMerged o :: printed)) with (writes printed).
    now apply quiet_no_writes.
Qed.

Lemma man_tail_success (command : str) (tail : list event) :
  man_tail e command true tail ->
  info_queries tail = 1 /\ writes tail = [man_file e command].
Proof. intros (o & page & ->). now split. Qed.

(** A call of [generate_man] that returns has asked for the runtime
    information once and written the manual page, and nothing else. *)
Lemma generate_man_ok (command : str) (s s' : state) :
  generate_man e command s = (Ok tt, s') ->
  exists new,
    log s' = log s ++ new /\
    info_queries new = 1 /\
    writes new = [man_file e command].
Proof.
  intro Hrun.
  destruct (generate_man_trace e command s)
    as (printed & Hv & Hq & rest & Hlog & _ & _ & Hrest).
  cbn zeta in Hv, Hlog, Hrest. rewrite Hrun in Hlog, Hrest.
  cbn [fst snd succeeded] in Hlog, Hrest.
  rewrite Hv, <- app_assoc in Hlog.
  eexists. split; [exact Hlog|].
  destruct (run_command e version_argv true s) as [[v|x|msg] s0].
  2,3: now destruct Hrest as (_ & Hno & _).
  destruct Hrest as (loop & tail & -> & _ & _ & _ & Hall & Htail & _).
  destruct (loop_event_filter Hall) as (Hli & Hlw & _).
  destruct (man_tail_success Htail) as (Hti & Htw).
  destruct (version_query_plain (respond e (log s) version_argv ErrMerged) Hq)
    as (Hvi & Hvw).
  rewrite !info_queries_app, !writes_app, Hvi, Hvw, Hti, Htw, Hlw.
  unfold info_queries at 1. rewrite Hli. now split.
Qed.

Lemma spawn_ok (argv : list str) (mode : stderr_mode) (s s' : state)
    (p : bytes * bytes * Z) :
  spawn e argv mode s = (Ok p, s') ->
  s' = add_event (EvSpawn argv mode (respond e (log s) argv mode)) s.
Proof.
  unfold spawn. destruct (respond e (log s) argv mode); intro H; now inversion H.
Qed.

Lemma check_output_ok (argv : list str) (s s' : state) (out : bytes) :
  check_output e argv s = (Ok out, s') ->
  s' = add_event (EvSpawn argv ErrInherit (respond e (log s) argv ErrInherit)) s.
Proof.
  rewrite check_output_unfold.
  destruct (respond e (log s) argv ErrInherit) as [|o er code]; [discriminate|].
  destruct (code =? 0)%Z; intro H; now inversion H.
Qed.

(** A call of [generate_html] that returns has started [man] and [man2html]
    and written the HTML file. *)
Lemma generate_html_ok (command : str) (s s' : state) :
  generate_html e command s = (Ok tt, s') ->
  exists new,
    log s' = log s ++ new /\
    info_queries new = 0 /\
    writes new = [html_file e command].
Proof.
  unfold generate_html. intro H.
  apply bind_ok_inv in H as (p & s1 & Hman & H). apply spawn_ok in Hman.
  apply bind_ok_inv in H as (html & s2 & Hconv & H). apply check_output_ok in Hconv.
  apply bind_ok_inv in H as ([] & s3 & Hw & H).
  unfold write_file in Hw. injection Hw as <-.
  unfold say, print, emit in H. injection H as <-.
  subst s2 s1. eexists [_; _; _; _]. cbn [log add_event add_file].
  rewrite <- !app_assoc. cbn [app]. now repeat split.
Qed.

(** A call of [write_rst] without [sep] that returns has started no process
    and written one file, in the directory of the fragments itself. *)
Lemma write_rst_ok (command : str) (s s' : state) :
  write_rst e command None s = (Ok tt, s') ->
  exists new,
    log s' = log s ++ new /\
    filter is_spawn new = [] /\
    writes new = [rst_file (rstpath e) command].
Proof.
  unfold write_rst. intro H.
  apply bind_ok_inv in H as (html & s1 & Hread & H).
  assert (s1 = s) as ->.
  { unfold read_text in Hread.
    destruct (find _ (files s)) as [[p [t|b]]|]; try discriminate.
    - now inversion Hread.
    - destruct (decode_utf8 b); [now inversion Hread|discriminate]. }
  apply bind_ok_inv in H as (d & s2 & Hd & H).
  unfold isdir in Hd. injection Hd as <- <-.
  apply bind_ok_inv in H as ([] & s3 & Hmk & H).
  apply bind_ok_inv in H as ([] & s4 & Hw & H).
  unfold write_file in Hw. injection Hw as <-.
  unfold say, print, emit in H. injection H as <-.
  destruct (existsb (str_eqb (rstpath e)) (dirs s)).
  - injection Hmk as <-. eexists [_; _]. cbn [log add_event add_file].
    rewrite <- !app_assoc. cbn [app]. now repeat split.
  - unfold makedirs in Hmk. injection Hmk as <-. eexists [_; _; _].
    cbn [log add_event add_file add_dir].
    rewrite <- !app_assoc. cbn [app]. now repeat split.
Qed.

Lemma gen_commands_ok (tasks : list str) :
  forall s s',
    for_each (gen_command e) tasks tt s = (Ok tt, s') ->
    exists new,
      log s' = log s ++ new /\
      info_queries new = length tasks /\
      (forall p, In p (writes new) ->
                 exists command, p = man_file e command \/ p = html_file e command).
Proof.
  induction tasks as [|command tasks IH]; intros s s' H.
  - cbn in H. injection H as <-. exists []. rewrite app_nil_r. now repeat split.
  - cbn [for_each] in H.
    apply bind_ok_inv in H as ([] & s2 & Hgen & H).
    unfold gen_command in Hgen.
    apply bind_ok_inv in Hgen as ([] & s1 & Hman & Hhtml).
    apply generate_man_ok in Hman as (n1 & Hl1 & Hi1 & Hw1).
    apply generate_html_ok in Hhtml as (n2 & Hl2 & Hi2 & Hw2).
    apply IH in H as (n3 & Hl3 & Hi3 & Hw3).
    exists (n1 ++ n2 ++ n3). split; [|split].
    + rewrite Hl3, Hl2, Hl1, <- !app_assoc. reflexivity.
    + unfold info_queries in *. rewrite !filter_app, !length_app, Hi1, Hi2, Hi3.
      reflexivity.
    + intros p Hp. unfold writes in *. rewrite !flat_map_app, Hw1, Hw2 in Hp.
      cbn [app] in Hp. destruct Hp as [<-|[<-|Hp]].
      * exists command. now left.
      * exists command. now right.
      * now apply Hw3.
Qed.

Lemma write_fragments_ok (commands : list str) :
  forall s s',
    for_each (fun command _ => write_rst e command None) commands tt s = (Ok tt, s') ->
    exists new,
      log s' = log s ++ new /\
      filter is_spawn new = [] /\
      writes new = List.map (rst_file (rstpath e)) commands.
Proof.
  induction commands as [|command commands IH]; intros s s' H.
  - cbn in H. injection H as <-. exists []. rewrite app_nil_r. now repeat split.
  - cbn [for_each] in H.
    apply bind_ok_inv in H as ([] & s1 & Hrst & H).
    apply write_rst_ok in Hrst as (n1 & Hl1 & Hs1 & Hw1).
    apply IH in H as (n2 & Hl2 & Hs2 & Hw2).
    exists (n1 ++ n2). split; [|split].
    + rewrite Hl2, Hl1, <- app_assoc. reflexivity.
    + now rewrite filter_app, Hs1, Hs2.
    + unfold writes in *. now rewrite flat_map_app, Hw1, Hw2.
Qed.

(** The two phases of [main]. *)
Lemma main_ok (argv : list str) (s s' : state) :
  main e argv s = (Ok tt, s') ->
  exists s1,
    for_each (gen_command e) (schedule e (resolve argv)) tt s = (Ok tt, s1) /\
    for_each (fun command _ => write_rst e command None)
      (filter (fun c => existsb (str_eqb c) (resolve argv)) build_commands) tt s1
    = (Ok tt, s').
Proof.
  unfold main, executor_map. intro H.
  apply bind_ok_inv in H as ([] & s0 & Hpool & H). injection Hpool as <-.
  apply bind_ok_inv in H as ([] & s1 & Hgen & H).
  exists s1. split; [exact Hgen|exact H].
Qed.

End Tasks.

Lemma demo_env_fair (version_code : Z) (empty_attempts : nat) (manpage : bytes) :
  fair (demo_env version_code empty_attempts manpage).
Proof. intro xs. apply Permutation_refl. Qed.

(** C7 (amended).  The table of replacements is built once for every manual
    page: a call of [generate_man] that returns has asked [conda info --json]
    exactly once, and a run of [main] that returns has asked as many times as
    there are commands. *)
Theorem replacement_table_is_built_per_page (e : env) :
  (forall command s s',
     generate_man e command s = (Ok tt, s') ->
     info_queries (log s') = info_queries (log s) + 1) /\
  (fair e ->
   forall argv s s',
     main e argv s = (Ok tt, s') ->
     info_queries (log s') = info_queries (log s) + length (resolve argv)).
Proof.
  split.
  - intros command s s' H.
    apply generate_man_ok in H as (new & -> & Hi & _).
    now rewrite info_queries_app, Hi.
  - intros Hfair argv s s' H.
    apply main_ok in H as (s1 & Hgen & Hrst).
    apply gen_commands_ok in Hgen as (gen & Hl1 & Hi & _).
    apply write_fragments_ok in Hrst as (frag & Hl2 & Hs & _).
    rewrite Hl2, Hl1, !info_queries_app, Hi.
    rewrite (Permutation_length (Hfair (resolve argv))).
    assert (Hf : info_queries frag = 0).
    { unfold info_queries. clear -Hs.
      induction frag as [|ev frag IH]; [reflexivity|].
      destruct ev; cbn in Hs |- *; try discriminate; now apply IH. }
    rewrite Hf. lia.
Qed.

Lemma replacement_table_is_built_per_page_witness :
  info_queries
    (log (snd (main (demo_env 0 0 demo_manpage) [lit "build"; lit "render"] init)))
  = info_queries (log init) + length (resolve [lit "build"; lit "render"]).
Proof.
  apply (proj2 (replacement_table_is_built_per_page (demo_env 0 0 demo_manpage))
           (demo_env_fair 0 0 demo_manpage) [lit "build"; lit "render"] init).
  vm_compute. reflexivity.
Defined.

(** C7 as stated fails: a run over two commands asks for the runtime
    information twice. *)
Lemma two_pages_two_queries :
  fst (main (demo_env 0 0 demo_manpage) [lit "build"; lit "render"] init) = Ok tt /\
  info_queries
    (log (snd (main (demo_env 0 0 demo_manpage) [lit "build"; lit "render"] init)))
  = 2.
Proof. vm_compute. split; reflexivity. Qed.

(** C4 (amended).  In a run of [main] that returns, everything the generation
    tasks do comes first and writes manual pages and HTML files only; then,
    with no process started any more, one fragment is written for every
    command of the build list that is among the resolved commands, in the
    order of the build list, each directly in the directory of the fragments
    ([write_rst] is called without [sep]). *)
Theorem fragments_follow_generation (e : env) (argv : list str) (s s' : state) :
  main e argv s = (Ok tt, s') ->
  let chosen := filter (fun c => existsb (str_eqb c) (resolve argv)) build_commands in
  (forall c, In c chosen <-> In c (resolve argv) /\ In c build_commands) /\
  exists gen frag,
    log s' = log s ++ gen ++ frag /\
    (forall p, In p (writes gen) ->
               exists command, p = man_file e command \/ p = html_file e command) /\
    filter is_spawn frag = [] /\
    writes frag = List.map (rst_file (rstpath e)) chosen.
Proof.
  intros H chosen. split.
  - intro c. unfold chosen. rewrite filter_In, existsb_exists. split.
    + intros (Hb & c' & Hc' & Heq). apply str_eqb_eq in Heq. subst c'. now split.
    + intros (Hr & Hb). split; [exact Hb|]. exists c. split; [exact Hr|].
      apply str_eqb_refl.
  - apply main_ok in H as (s1 & Hgen & Hrst).
    apply gen_commands_ok in Hgen as (gen & Hl1 & _ & Hw).
    apply write_fragments_ok in Hrst as (frag & Hl2 & Hs & Hf).
    exists gen, frag. rewrite Hl2, Hl1, <- app_assoc. now repeat split.
Qed.

Lemma fragments_follow_generation_witness :
  exists gen frag,
    log (snd (main (demo_env 0 0 demo_manpage) [lit "frobnicate"; lit "build"] init))
    = log init ++ gen ++ frag /\
    filter is_spawn frag = [] /\
    writes frag = [lit "/docs/source/commands/conda-build.rst"].
Proof.
  destruct (@fragments_follow_generation (demo_env 0 0 demo_manpage)
              [lit "frobnicate"; lit "build"] init
              (snd (main (demo_env 0 0 demo_manpage) [lit "frobnicate"; lit "build"] init)))
    as (_ & gen & frag & Hlog & _ & Hs & Hw).
  - vm_compute. reflexivity.
  - exists gen, frag. split; [exact Hlog|]. split; [exact Hs|]. exact Hw.
Defined.

(** C4 as stated fails: the fragment of [build] is written in the directory
    of the fragments itself, under no category directory whatever its name. *)
Lemma fragment_is_not_nested :
  let r := main (demo_env 0 0 demo_manpage) [lit "build"] init in
  fst r = Ok tt /\
  writes (log (snd r))
  = [ lit "/docs/build/man/conda-build.1"; lit "/docs/build/man/conda-build.html";
      lit "/docs/source/commands/conda-build.rst" ] /\
  forall category,
    category <> [] -> ~ In SLASH category ->
    ~ In (rst_file (path_join (rstpath (demo_env 0 0 demo_manpage)) category) (lit "build"))
         (writes (log (snd r))).
Proof.
  cbn zeta. split; [vm_compute; reflexivity|]. split; [vm_compute; reflexivity|].
  intros category Hne Hslash Hin.
  assert (Hshort : forall p,
             In p (writes (log (snd (main (demo_env 0 0 demo_manpage) [lit "build"] init)))) ->
             length p <= 37).
  { intros p Hp. vm_compute in Hp.
    destruct Hp as [<-|[<-|[<-|[]]]]; vm_compute; repeat constructor. }
  apply Hshort in Hin. clear Hshort.
  destruct category as [|c category]; [contradiction|].
  assert (Hc : (SLASH =? c)%N = false).
  { apply N.eqb_neq. intro E. apply Hslash. now left. }
  unfold rst_file in Hin.
  change (rstpath (demo_env 0 0 demo_manpage)) with (lit "/docs/source/commands") in Hin.
  change (command_file (lit "build")) with (lit "build") in Hin.
  unfold path_join at 2 in Hin. cbn [startswith] in Hin. rewrite Hc in Hin.
  cbn [andb] in Hin.
  change (is_empty (lit "/docs/source/commands")
          || endswith_slash (lit "/docs/source/commands")) with false in Hin.
  cbv iota in Hin.
  unfold path_join in Hin.
  change (startswith [SLASH] (lit "conda-" ++ lit "build" ++ lit ".rst")) with false in Hin.
  cbv iota in Hin.
  destruct (is_empty _ || endswith_slash _) in Hin;
    rewrite !length_app in Hin; cbn [length] in Hin;
    change (length (lit "/docs/source/commands")) with 21 in Hin;
    change (length (lit "conda-")) with 6 in Hin;
    change (length (lit "build")) with 5 in Hin;
    change (length (lit ".rst")) with 4 in Hin; lia.
Qed.

(** ** What leaves the cache alone *)

Create HintDb keeps.

Lemma keeps_ret {A : Type} (a : A) : keeps_cache (ret a).
Proof. now intro s. Qed.

Lemma keeps_raise {A : Type} (x : exn) : keeps_cache (@raise A x).
Proof. now intro s. Qed.

Lemma keeps_sys_exit {A : Type} (msg : str) : keeps_cache (@sys_exit A msg).
Proof. now intro s. Qed.

Lemma keeps_lift {A : Type} (r : result A) : keeps_cache (lift r).
Proof. now intro s. Qed.

Lemma keeps_say (t : str) : keeps_cache (say t).
Proof. now intro s. Qed.

Lemma keeps_print (to : stream) (m : message) : keeps_cache (print to m).
Proof. now intro s. Qed.

Lemma keeps_bind {A B : Type} (m : M A) (k : A -> M B) :
  keeps_cache m -> (forall a, keeps_cache (k a)) -> keeps_cache (bind m k).
Proof.
  intros Hm Hk s. unfold bind. specialize (Hm s).
  destruct (m s) as [[a|x|msg] s1]; cbn [snd] in *; try assumption.
  now rewrite Hk.
Qed.

Lemma keeps_for_each {A B : Type} (body : A -> B -> M B) (xs : list A) :
  (forall x acc, keeps_cache (body x acc)) ->
  forall acc, keeps_cache (for_each body xs acc).
Proof.
  intro Hbody. induction xs as [|x xs IH]; intro acc; cbn [for_each].
  - apply keeps_ret.
  - apply keeps_bind; [apply Hbody|exact IH].
Qed.

#[local] Hint Resolve keeps_ret keeps_raise keeps_sys_exit keeps_lift keeps_say
  keeps_print : keeps.

Ltac keeps_cache_steps :=
  repeat first
    [ solve [auto with keeps]
    | apply keeps_bind; [|intro]
    | apply keeps_for_each; intros
    | match goal with
      | |- keeps_cache (if ?b then _ else _) => destruct b
      | |- keeps_cache (match ?x with _ => _ end) => destruct x
      end ];
  auto with keeps.

Section Frame.

Variable e : env.

Lemma keeps_spawn (argv : list str) (mode : stderr_mode) : keeps_cache (spawn e argv mode).
Proof. intro s. unfold spawn. now destruct (respond e (log s) argv mode). Qed.

Lemma keeps_decode (b : bytes) : keeps_cache (decode b).
Proof. unfold decode. keeps_cache_steps. Qed.

Lemma keeps_write_file (path : str) (c : content) : keeps_cache (write_file path c).
Proof. now intro s. Qed.

Lemma keeps_read_text (path : str) : keeps_cache (read_text path).
Proof.
  intro s. unfold read_text.
  destruct (find _ (files s)) as [[p [t|b]]|]; try reflexivity.
  now destruct (decode_utf8 b).
Qed.

Lemma keeps_isdir (path : str) : keeps_cache (isdir path).
Proof. now intro s. Qed.

Lemma keeps_makedirs (path : str) : keeps_cache (makedirs path).
Proof. now intro s. Qed.

Lemma keeps_thread_pool (n : nat) : keeps_cache (thread_pool n).
Proof. unfold thread_pool. keeps_cache_steps. Qed.

#[local] Hint Resolve keeps_spawn keeps_decode keeps_write_file keeps_read_text
  keeps_isdir keeps_makedirs keeps_thread_pool : keeps.

Lemma keeps_check_output (argv : list str) : keeps_cache (check_output e argv).
Proof. unfold check_output. keeps_cache_steps. Qed.

#[local] Hint Resolve keeps_check_output : keeps.

Lemma keeps_str_check_output (argv : list str) : keeps_cache (str_check_output e argv).
Proof. unfold str_check_output. keeps_cache_steps. Qed.

Lemma keeps_run_command (argv : list str) (include_stderr : bool) :
  keeps_cache (run_command e argv include_stderr).
Proof. unfold run_command. keeps_cache_steps. Qed.

#[local] Hint Resolve keeps_str_check_output keeps_run_command : keeps.

Lemma keeps_get_help (command : str) (command_help : list (str * str)) :
  keeps_cache (get_help e command command_help).
Proof. unfold get_help, conda_command_help. keeps_cache_steps. Qed.

Lemma keeps_man_replacements : keeps_cache (man_replacements e).
Proof.
  unfold man_replacements, getitem, join_iterable, as_key. keeps_cache_steps.
Qed.

Lemma keeps_man_loop (command conda_version : str) (retries : nat) :
  forall manpage, keeps_cache (man_loop e command conda_version retries manpage).
Proof.
  induction retries as [|n IH]; intro manpage; cbn [man_loop]; keeps_cache_steps.
Qed.

#[local] Hint Resolve keeps_get_help keeps_man_replacements keeps_man_loop : keeps.

Lemma keeps_generate_man (command : str) : keeps_cache (generate_man e command).
Proof. unfold generate_man. keeps_cache_steps. Qed.

Lemma keeps_generate_html (command : str) : keeps_cache (generate_html e command).
Proof. unfold generate_html. keeps_cache_steps. Qed.

Lemma keeps_write_rst (command : str) (sep : option str) :
  keeps_cache (write_rst e command sep).
Proof. unfold write_rst. keeps_cache_steps. Qed.

#[local] Hint Resolve keeps_generate_man keeps_generate_html keeps_write_rst : keeps.

Lemma keeps_main (argv : list str) : keeps_cache (main e argv).
Proof. unfold main, executor_map, gen_command. keeps_cache_steps. Qed.

End Frame.

#[local] Hint Resolve keeps_thread_pool keeps_get_help keeps_generate_man
  keeps_generate_html keeps_write_rst : keeps.

(** ** Words *)

Lemma split_ws_from_words (s : str) :
  forall cur,
    Forall (fun c => isspace c = false) cur ->
    Forall word (split_ws_from cur s).
Proof.
  induction s as [|c s IH]; intros cur Hcur; cbn [split_ws_from].
  - destruct cur as [|d cur]; constructor; [|constructor]. now split.
  - destruct (isspace c) eqn:Hc.
    + destruct cur as [|d cur]; [now apply IH|].
      constructor; [now split|]. now apply IH.
    + apply IH. apply Forall_app. split; [exact Hcur|]. now constructor.
Qed.

Lemma split_ws_words (s : str) : Forall word (split_ws s).
Proof. apply split_ws_from_words. constructor. Qed.

Lemma split_ws_from_word (t : str) :
  Forall (fun c => isspace c = false) t ->
  forall cur, cur ++ t <> [] -> split_ws_from cur t = [cur ++ t].
Proof.
  induction 1 as [|c t Hc _ IH]; intros cur Hne; cbn [split_ws_from].
  - rewrite app_nil_r in *. destruct cur; [contradiction|reflexivity].
  - rewrite Hc, IH; rewrite <- app_assoc; [reflexivity|].
    cbn [app]. now destruct cur.
Qed.

Lemma split_ws_word (t : str) : word t -> split_ws t = [t].
Proof. intros [Hne Ht]. now apply (split_ws_from_word Ht []). Qed.

(** A line with a character that is not white space holds a word: so the
    last condition of [well_laid] holds of itself when column 4 is not white
    space at all. *)
Lemma split_ws_from_not_empty (s : str) :
  forall cur,
    cur <> [] \/ (exists c, In c s /\ isspace c = false) ->
    split_ws_from cur s <> [].
Proof.
  induction s as [|c s IH]; intros cur H; cbn [split_ws_from].
  - destruct H as [H|(c & [] & _)]. destruct cur; [contradiction|discriminate].
  - destruct (isspace c) eqn:Hc.
    + destruct cur as [|d cur]; [|discriminate].
      apply IH. right. destruct H as [H|(c' & [->|Hin] & Hc')];
        [contradiction|congruence|now exists c'].
    + apply IH. left. now destruct cur.
Qed.

Lemma column_4_names_a_word (header l : str) :
  l <> [] -> strip l <> header -> 5 <= length l ->
  isspace (nth 4 l SPACE) = false \/ nth 4 l SPACE = SPACE ->
  well_laid header l.
Proof.
  intros Hne Hh Hlen Hcol. repeat split; try assumption.
  intros Hns. destruct Hcol as [Hcol|Hcol]; [|contradiction].
  apply split_ws_from_not_empty. right. exists (nth 4 l SPACE).
  split; [apply nth_In; lia|exact Hcol].
Qed.

(** The commands of a section are words. *)
Lemma scan_commands_words (header : str) (lines : list str) :
  forall start commands found,
    Forall word commands ->
    scan_commands header lines start commands = Ok found ->
    Forall word found.
Proof.
  induction lines as [|line lines IH]; intros start commands found Hw H.
  - cbn in H. now injection H as <-.
  - rewrite scan_commands_cons in H.
    destruct (str_eqb (strip line) header); [now apply (IH _ _ _ Hw H)|].
    destruct start; [|now apply (IH _ _ _ Hw H)].
    destruct (is_empty line); [now injection H as <-|].
    destruct (nth_error line 4) as [c|]; [|discriminate].
    destruct (c =? SPACE)%N; [now apply (IH _ _ _ Hw H)|].
    pose proof (split_ws_words line) as Hline.
    destruct (split_ws line) as [|tok toks]; [discriminate|].
    apply (IH _ _ _) in H; [exact H|].
    apply Forall_app. split; [exact Hw|]. constructor; [|constructor].
    now inversion Hline.
Qed.

(** The help of a command is never the help of [conda] itself. *)
Lemma command_help_is_not_top_help (c : str) :
  word c -> argv_eqb (command_help_argv c) help_argv = false.
Proof.
  intro Hc. unfold command_help_argv. rewrite (split_ws_word Hc).
  cbn. apply andb_false_r.
Qed.

(** ** C9: the help text is asked for once *)

Section Memo.

Variable e : env.

Lemma conda_help_cached (s : state) (h : str) (rest : list str) :
  cache s = h :: rest -> conda_help e s = (Ok h, s).
Proof. intro H. unfold conda_help, cache_first. now rewrite H. Qed.

Lemma conda_help_first (s : state) :
  cache s = [] ->
  let s1 := add_event (EvSpawn help_argv ErrInherit (respond e (log s) help_argv ErrInherit)) s in
  match conda_help e s with
  | (Ok h, s') => s' = set_cache [h] s1
  | (_, s') => s' = s1
  end.
Proof.
  intro H. cbn zeta. unfold conda_help. rewrite H. unfold bind at 1.
  pose proof (str_check_output_state e help_argv s) as Hs.
  destruct (str_check_output e help_argv s) as [[out|x|msg] s1]; cbn [snd] in Hs;
    subst s1; try reflexivity.
  unfold bind, cache_first. cbn. now rewrite H.
Qed.

Lemma help_calls_cached (h : str) (n : nat) :
  forall (acc : list str) (s : state),
    cache s = [h] ->
    for_each (fun (_ : unit) acc => h <- conda_help e ;; ret (acc ++ [h])) (repeat tt n) acc s
    = (Ok (acc ++ repeat h n), s).
Proof.
  induction n as [|n IH]; intros acc s H; cbn [repeat for_each].
  - now rewrite app_nil_r.
  - erewrite bind_ok.
    2:{ erewrite bind_ok by (eapply conda_help_cached; exact H). reflexivity. }
    rewrite IH by assumption. now rewrite <- app_assoc.
Qed.

Lemma help_calls_run (n : nat) (s : state) :
  cache s = [] ->
  help_calls e (S n) s
  = match conda_help e s with
    | (Ok h, s1) => (Ok (h :: repeat h n), s1)
    | (Raise x, s1) => (Raise x, s1)
    | (Exit msg, s1) => (Exit msg, s1)
    end.
Proof.
  intro Hc. unfold help_calls. cbn [repeat for_each].
  pose proof (conda_help_first s Hc) as Hf. cbn zeta in Hf.
  destruct (conda_help e s) as [[h|x|msg] s1] eqn:E.
  - erewrite bind_ok; [|erewrite bind_ok by exact E; reflexivity].
    rewrite help_calls_cached with (h := h); [reflexivity|now subst s1].
  - erewrite bind_raise; [reflexivity|]. now erewrite bind_raise by exact E.
  - erewrite bind_exit; [reflexivity|]. now erewrite bind_exit by exact E.
Qed.

Lemma quiet_not_help_query (l : list event) :
  Forall quiet l -> filter is_help_query l = [].
Proof.
  induction 1 as [|ev l Hev _ IH]; [reflexivity|].
  destruct ev; try contradiction. exact IH.
Qed.

Lemma help_queries_app (l1 l2 : list event) :
  help_queries (l1 ++ l2) = help_queries l1 + help_queries l2.
Proof. unfold help_queries. now rewrite filter_app, length_app. Qed.

Lemma help_queries_announced (what : str) (s : state) :
  help_queries (log (add_event (EvPrint Stdout (MsgText what)) s)) = help_queries (log s).
Proof. cbn [log add_event]. rewrite help_queries_app. cbn. lia. Qed.

Lemma get_help_log (command : str) (command_help : list (str * str)) (s : state) :
  exists printed,
    log (snd (get_help e command command_help s))
    = log s ++ EvSpawn (command_help_argv command) ErrInherit
                 (respond e (log s) (command_help_argv command) ErrInherit)
               :: printed /\
    Forall quiet printed.
Proof.
  unfold get_help, conda_command_help. unfold bind at 1.
  pose proof (str_check_output_state e (command_help_argv command) s) as Hs.
  destruct (str_check_output e (command_help_argv command) s) as [[h|x|msg] s1];
    cbn [snd] in Hs; subst s1.
  - eexists [_]. cbn [bind say print emit ret snd log add_event].
    rewrite <- app_assoc. split; [reflexivity|]. constructor; [exact I|constructor].
  - exists []. now split.
  - exists []. now split.
Qed.

(** Asking for the help of the commands found is not asking for the help of
    [conda]. *)
Lemma get_help_all_no_top_help (tasks : list str) :
  Forall word tasks ->
  forall command_help s,
    help_queries (log (snd (for_each (get_help e) tasks command_help s)))
    = help_queries (log s).
Proof.
  induction 1 as [|c tasks Hc _ IH]; intros command_help s; [reflexivity|].
  cbn [for_each]. unfold bind at 1.
  destruct (get_help_log c command_help s) as (printed & Hlog & Hq).
  assert (Hone : help_queries (log (snd (get_help e c command_help s)))
                 = help_queries (log s)).
  { rewrite Hlog, help_queries_app. unfold help_queries at 2. cbn [filter is_help_query].
    rewrite (command_help_is_not_top_help Hc), (quiet_not_help_query Hq). cbn. lia. }
  destruct (get_help e c command_help s) as [[d|x|msg] s1]; cbn [snd] in Hone |- *;
    try exact Hone.
  now rewrite IH.
Qed.

(** With the help text in the cache, [external_commands] does not ask for
    it and leaves the cache as it is. *)
Lemma external_commands_cached (s : state) (h : str) (rest : list str) :
  cache s = h :: rest ->
  cache (snd (external_commands e s)) = cache s /\
  (fair e ->
   help_queries (log (snd (external_commands e s))) = help_queries (log s)).
Proof.
  intro Hc.
  assert (Hh : conda_help e (announced "Getting list of external commands" s)
               = (Ok h, announced "Getting list of external commands" s))
    by (apply conda_help_cached with (rest := rest); exact Hc).
  unfold external_commands.
  erewrite bind_ok by reflexivity. erewrite bind_ok by exact Hh.
  split.
  - match goal with
    | |- cache (snd (?m _)) = _ =>
        assert (K : keeps_cache m) by (unfold executor_map; keeps_cache_steps)
    end.
    now rewrite K.
  - intro Hfair.
    destruct (scan_commands (lit "other commands:") (splitlines h) false [])
      as [commands|x|msg] eqn:Hs.
    + pose proof (scan_commands_words _ _ _ (Forall_nil word) Hs) as Hw.
      erewrite bind_ok by reflexivity.
      erewrite bind_ok by reflexivity.
      destruct commands as [|c commands].
      * erewrite bind_raise by reflexivity. cbn [snd].
        unfold announced. now rewrite !help_queries_announced.
      * erewrite bind_ok by reflexivity.
        unfold executor_map. rewrite bind_stateless by (intro; apply stateless_ret).
        rewrite get_help_all_no_top_help.
        -- unfold announced. now rewrite !help_queries_announced.
        -- rewrite Forall_forall in *. intros t Ht. apply Hw.
           eapply Permutation_in; [apply Hfair|exact Ht].
    + erewrite bind_raise by reflexivity.
      cbn [snd]. unfold announced. now rewrite help_queries_announced.
    + erewrite bind_exit by reflexivity.
      cbn [snd]. unfold announced. now rewrite help_queries_announced.
Qed.

End Memo.

(** What holds from any state whose cache is the help text [h]: a call of
    [conda_help] returns [h] and changes nothing; [conda_commands] scans [h]
    after printing its line; [external_commands] does not ask for the help
    text again (the pool getting through every task once); and neither it nor
    [main] touches the cache. *)
Lemma cached_help_is_shared (e : env) (h : str) (s2 : state) :
  cache s2 = [h] ->
  conda_help e s2 = (Ok h, s2) /\
  conda_commands e s2
  = (scan_commands (lit "command") (splitlines h) false [],
     announced "Getting list of core commands" s2) /\
  (fair e ->
   help_queries (log (snd (external_commands e s2))) = help_queries (log s2)) /\
  cache (snd (external_commands e s2)) = cache s2 /\
  forall argv, cache (snd (main e argv s2)) = cache s2.
Proof.
  intro Hc. split; [now apply conda_help_cached with (rest := [])|].
  split.
  { rewrite conda_commands_unfold.
    now rewrite (@conda_help_cached e (announced "Getting list of core commands" s2) h []). }
  destruct (@external_commands_cached e s2 h [] Hc) as (Hcache & Hq).
  split; [exact Hq|]. split; [exact Hcache|].
  intro argv. apply keeps_main.
Qed.

(** C9.  Starting with an empty cache, any number of calls of [conda_help]
    in a row asks [conda --help] once, in the first call; the calls all return
    the same string, which is then the cache; and from any state with that
    cache a call returns the string and changes nothing, [conda_commands]
    scans that string, [external_commands] asks for no help text again, and
    the cache stays. *)
Theorem conda_help_is_memoized (e : env) (s : state) (n : nat) :
  cache s = [] ->
  let r := help_calls e n s in
  log (snd r)
  = log s ++ (if Nat.eqb n 0 then []
              else [EvSpawn help_argv ErrInherit (respond e (log s) help_argv ErrInherit)]) /\
  help_queries (log (snd r)) <= help_queries (log s) + 1 /\
  forall hs,
    fst r = Ok hs ->
    exists h,
      hs = repeat h n /\
      (n <> 0 ->
       cache (snd r) = [h] /\
       forall s2,
         cache s2 = cache (snd r) ->
         conda_help e s2 = (Ok h, s2) /\
         conda_commands e s2
         = (scan_commands (lit "command") (splitlines h) false [],
            announced "Getting list of core commands" s2) /\
         (fair e ->
          help_queries (log (snd (external_commands e s2))) = help_queries (log s2)) /\
         cache (snd (external_commands e s2)) = cache s2 /\
         forall argv, cache (snd (main e argv s2)) = cache s2).
Proof.
  intros Hc r.
  assert (Hlog :
    log (snd r)
    = log s ++ (if Nat.eqb n 0 then []
                else [EvSpawn help_argv ErrInherit (respond e (log s) help_argv ErrInherit)])).
  { subst r. destruct n as [|n]; cbn [Nat.eqb].
    - cbn. now rewrite app_nil_r.
    - rewrite help_calls_run by assumption.
      pose proof (conda_help_first e s Hc) as Hf. cbn zeta in Hf.
      destruct (conda_help e s) as [[h|x|msg] s1]; subst s1; reflexivity. }
  split; [exact Hlog|]. split.
  { rewrite Hlog. unfold help_queries. rewrite filter_app, length_app.
    destruct (Nat.eqb n 0); cbn; lia. }
  subst r. destruct n as [|n].
  - intros hs H. injection H as <-. exists []. split; [reflexivity|congruence].
  - rewrite help_calls_run by assumption.
    pose proof (conda_help_first e s Hc) as Hf. cbn zeta in Hf.
    destruct (conda_help e s) as [[h|x|msg] s1]; subst s1; try discriminate.
    cbn [fst snd]. intros hs H. injection H as <-. exists h.
    split; [reflexivity|]. intros _. split; [reflexivity|].
    intros s2 H2. now apply cached_help_is_shared.
Qed.

Lemma conda_help_is_memoized_witness :
  let r := help_calls (demo_env 0 0 demo_manpage) 3 init in
  log (snd r) = [EvSpawn help_argv ErrInherit (Exited (ascii_bytes demo_help) [] 0)] /\
  fst r = Ok [demo_help; demo_help; demo_help].
Proof.
  destruct (@conda_help_is_memoized (demo_env 0 0 demo_manpage) init 3 eq_refl)
    as (Hlog & _ & _).
  split; [exact Hlog|]. vm_compute. reflexivity.
Defined.

(** The two discoveries in a row ask for the help text of [conda] once. *)
Example demo_discovery_asks_once :
  let s1 := snd (conda_commands (demo_env 0 0 demo_manpage) init) in
  help_queries (log s1) = 1 /\
  help_queries (log (snd (external_commands (demo_env 0 0 demo_manpage) s1))) = 1.
Proof. vm_compute. split; reflexivity. Qed.

(** ** C8: [str.replace] and the table of replacements *)

Section Replace.

Variables old new : str.

Lemma startswith_app (rest : str) : startswith old (old ++ rest) = true.
Proof.
  induction old as [|c o IH]; [reflexivity|].
  cbn. now rewrite N.eqb_refl.
Qed.

Lemma startswith_split (s : str) :
  startswith old s = true -> exists rest, s = old ++ rest.
Proof.
  revert s. induction old as [|c o IH]; intros s H.
  - now exists s.
  - destruct s as [|d s]; [discriminate|]. cbn in H.
    apply andb_true_iff in H as [Hc Hs]. apply N.eqb_eq in Hc. subst d.
    destruct (IH s Hs) as (rest & ->). now exists rest.
Qed.

Lemma startswith_prefix (a b : str) :
  length old <= length a -> startswith old (a ++ b) = startswith old a.
Proof.
  revert a. induction old as [|c o IH]; intros a H; [reflexivity|].
  destruct a as [|d a]; [cbn in H; lia|]. cbn in H |- *.
  now rewrite IH by lia.
Qed.

Lemma replace_from_skip (a b : str) :
  replace_from old new (length a) (a ++ b) = replace_from old new 0 b.
Proof.
  induction a as [|c a IH]; [|exact IH].
  cbn [length app]. now destruct b.
Qed.

Lemma replace_from_absent (s : str) :
  contains old s = false -> replace_from old new 0 s = s.
Proof.
  induction s as [|c s IH]; intro H; [reflexivity|].
  cbn [contains] in H. apply orb_false_iff in H as [Hhere Hlater].
  cbn [replace_from]. rewrite Hhere. now rewrite IH.
Qed.

Lemma replace_from_clean (p rest : str) :
  old <> [] -> clean old p ->
  replace_from old new 0 (p ++ old ++ rest)
  = p ++ new ++ replace_from old new 0 rest.
Proof.
  intros Hne. induction p as [|c p IH]; intro Hclean.
  - cbn [app]. destruct old as [|o old'] eqn:Eold; [contradiction|].
    rewrite <- Eold.
    assert (Hs : startswith old (old ++ rest) = true) by apply startswith_app.
    rewrite Eold in Hs |- *. cbn [app] in Hs |- *. cbn [replace_from].
    rewrite Hs. f_equal.
    replace (length (o :: old') - 1) with (length old') by (cbn [length]; lia).
    rewrite <- Eold. apply replace_from_skip.
  - cbn [app replace_from].
    assert (Hhere : startswith old (c :: p ++ old ++ rest) = false).
    { specialize (Hclean 0 (Nat.lt_0_succ _)). cbn [skipn app] in Hclean.
      rewrite <- Hclean.
      change (c :: p ++ old ++ rest) with ((c :: p) ++ old ++ rest).
      rewrite app_assoc. apply startswith_prefix.
      cbn [length]. rewrite length_app. lia. }
    rewrite Hhere. f_equal. apply IH.
    intros k Hk. apply (Hclean (S k)). cbn [length]. lia.
Qed.

Lemma first_occurrence (s : str) :
  old <> [] -> contains old s = true ->
  exists p rest, s = p ++ old ++ rest /\ clean old p.
Proof.
  intro Hne. induction s as [|c s IH]; intro H.
  - destruct old; [contradiction|discriminate].
  - cbn [contains] in H.
    destruct (startswith old (c :: s)) eqn:Hhere.
    + apply startswith_split in Hhere as (rest & ->).
      exists [], rest. split; [reflexivity|]. intros k Hk. cbn in Hk. lia.
    + cbn [orb] in H. destruct (IH H) as (p & rest & -> & Hclean).
      exists (c :: p), rest. split; [reflexivity|].
      intros [|k] Hk.
      * cbn [skipn]. rewrite <- Hhere.
        change (c :: p ++ old ++ rest) with ((c :: p) ++ old ++ rest).
        rewrite app_assoc. symmetry. apply startswith_prefix.
        cbn [length]. rewrite length_app. lia.
      * cbn [skipn app]. apply Hclean. cbn [length] in Hk. lia.
Qed.

Lemma leftmost_pieces_cons (p : str) (pieces : list str) :
  clean old p -> leftmost_pieces old pieces -> leftmost_pieces old (p :: pieces).
Proof. intros Hp Hps. destruct pieces; [contradiction|]. now split. Qed.

Lemma join_cons (sep p : str) (pieces : list str) :
  pieces <> [] -> join sep (p :: pieces) = p ++ sep ++ join sep pieces.
Proof. intro H. destruct pieces; [contradiction|reflexivity]. Qed.

Lemma replace_from_pieces :
  old <> [] ->
  forall n s, length s <= n ->
    exists pieces,
      leftmost_pieces old pieces /\ s = join old pieces /\
      replace_from old new 0 s = join new pieces.
Proof.
  intros Hne. induction n as [|n IH]; intros s Hlen.
  - destruct s; [|cbn in Hlen; lia]. exists [[]].
    split; [|now split]. cbn. destruct old; [contradiction|reflexivity].
  - destruct (contains old s) eqn:Hc.
    + destruct (first_occurrence s Hne Hc) as (p & rest & -> & Hclean).
      destruct (IH rest) as (pieces & Hps & Hjoin & Hrep).
      { rewrite !length_app in Hlen. destruct old; [contradiction|].
        cbn [length] in Hlen. lia. }
      assert (Hnil : pieces <> []) by (intros ->; exact Hps).
      exists (p :: pieces). split; [now apply leftmost_pieces_cons|].
      rewrite !join_cons by assumption. split; [now rewrite <- Hjoin|].
      rewrite replace_from_clean by assumption. now rewrite Hrep.
    + exists [s]. split; [exact Hc|]. split; [reflexivity|].
      now apply replace_from_absent.
Qed.

End Replace.

Lemma join_singletons (v text : str) :
  join v (List.map (fun c => [c]) text ++ [[]]) = flat_map (fun c => c :: v) text.
Proof.
  induction text as [|c text IH]; [reflexivity|].
  cbn [List.map app flat_map]. rewrite join_cons, IH.
  - reflexivity.
  - destruct text; discriminate.
Qed.

Lemma replace_absent (text k v : str) :
  contains k text = false -> replace text k v = text.
Proof.
  intro H. destruct k as [|c k]; [now destruct text|].
  now apply replace_from_absent.
Qed.

Lemma apply_replacements_absent (table : list (str * str)) (text : str) :
  (forall k v, In (k, v) table -> contains k text = false) ->
  apply_replacements table text = text.
Proof.
  unfold apply_replacements. induction table as [|[k v] table IH]; intro H;
    [reflexivity|].
  cbn [fold_left fst snd]. rewrite replace_absent by (apply (H k v); now left).
  apply IH. intros k' v' Hin. apply (H k' v'). now right.
Qed.

(** What a call of [generate_man] that returns has written: the page of the
    converter with the table applied. *)
Lemma generate_man_writes_replaced (e : env) (command : str) (s s' : state) :
  generate_man e command s = (Ok tt, s') ->
  exists conda_version s0 manpage s1 table s2,
    run_command e version_argv true s = (Ok conda_version, s0) /\
    man_loop e command conda_version 5 [] s0 = (Ok manpage, s1) /\
    man_replacements e s1 = (Ok table, s2) /\
    files s' = (man_file e command, Text (apply_replacements table manpage)) :: files s2.
Proof.
  intro H. pose proof (generate_man_stages e command s) as Hst.
  destruct (run_command e version_argv true s) as [[v|x|msg] s0]; try congruence.
  destruct (man_loop e command v 5 [] s0) as [[manpage|x|msg] s1] eqn:Hl; try congruence.
  destruct (is_empty manpage); [congruence|].
  destruct (man_replacements e s1) as [[table|x|msg] s2] eqn:Hr; try congruence.
  cbn zeta in Hst. rewrite Hst in H. injection H as <-.
  now exists v, s0, manpage, s1, table, s2.
Qed.

(** C8 (amended).  The table is applied by plain substitution, key after
    key in the order of the table: the empty table changes nothing; a key
    that does not
    occur in the text as it stands leaves it unchanged; a key that occurs has
    every occurrence replaced, the occurrences being found from the left
    without overlap (the text is the pieces joined by the key, the result the
    same pieces joined by the value), and the empty key occurs around every
    character; what [generate_man] writes is the page of the converter with
    the table applied. *)
Theorem replacements_are_text_substitution :
  (forall text, apply_replacements [] text = text) /\
  (forall k v table text,
     apply_replacements ((k, v) :: table) text
     = apply_replacements table (replace text k v)) /\
  (forall k v text, contains k text = false -> replace text k v = text) /\
  (forall table text,
     (forall k v, In (k, v) table -> contains k text = false) ->
     apply_replacements table text = text) /\
  (forall k v text,
     k <> [] ->
     exists pieces,
       leftmost_pieces k pieces /\ text = join k pieces /\
       replace text k v = join v pieces) /\
  (forall v text,
     let pieces := [] :: List.map (fun c => [c]) text ++ [[]] in
     text = join [] pieces /\ replace text [] v = join v pieces) /\
  (forall e command s s',
     generate_man e command s = (Ok tt, s') ->
     exists table manpage,
       In (man_file e command, Text (apply_replacements table manpage)) (files s')).
Proof.
  split; [reflexivity|]. split; [reflexivity|].
  split; [intros k v text; apply replace_absent|].
  split; [apply apply_replacements_absent|].
  split; [|split].
  - intros k v text Hne.
    destruct (@replace_from_pieces k v Hne (length text) text (le_n _))
      as (pieces & Hps & Hjoin & Hrep).
    exists pieces. split; [exact Hps|]. split; [exact Hjoin|].
    destruct k; [contradiction|exact Hrep].
  - intros v text pieces. subst pieces.
    rewrite !join_cons by (destruct text; discriminate).
    rewrite !join_singletons. cbn [app replace]. split; [|reflexivity].
    induction text as [|c text IH]; [reflexivity|]. cbn [flat_map app]. now f_equal.
  - intros e command s s' H.
    apply generate_man_writes_replaced in H
      as (v & s0 & manpage & s1 & table & s2 & _ & _ & _ & Hfiles).
    exists table, manpage. rewrite Hfiles. now left.
Qed.

Lemma replacements_are_text_substitution_witness :
  replace (lit "aab in /opt/conda") (lit "xyz") (lit "root prefix") = lit "aab in /opt/conda" /\
  (exists pieces,
     leftmost_pieces (lit "/opt/conda") pieces /\
     lit "/opt/conda/envs:/opt/conda" = join (lit "/opt/conda") pieces /\
     replace (lit "/opt/conda/envs:/opt/conda") (lit "/opt/conda") (lit "root prefix")
     = join (lit "root prefix") pieces) /\
  exists table manpage,
    In (man_file (demo_env 0 0 demo_manpage) (lit "build"),
        Text (apply_replacements table manpage))
       (files (snd (generate_man (demo_env 0 0 demo_manpage) (lit "build") init))).
Proof.
  destruct replacements_are_text_substitution
    as (_ & _ & Habsent & _ & Hpieces & _ & Hwritten).
  split; [apply Habsent; vm_compute; reflexivity|].
  split; [apply Hpieces; discriminate|].
  apply (Hwritten _ _ init). vm_compute. reflexivity.
Defined.

(** C8 as stated fails when keys meet: with the table of the usual
    installation, the list of environment directories occurs in the page and
    is not replaced by its value, the root prefix in it having been replaced
    first; and a key that does not occur in the page can still change it,
    when an earlier value brings it in. *)
Lemma earlier_key_hides_later_key :
  let table := [ (lit "/opt/conda", lit "root prefix");
                 (lit "/opt/conda/envs:/home/docs/.conda/envs", lit "envs dirs");
                 (lit "/home/docs/.condarc", lit "\fI\,user .condarc path\/\fP");
                 (lit "/opt/conda/.condarc", lit "\fI\,system .condarc path\/\fP") ] in
  let page := lit ".TH CONDA 1 /opt/conda/envs:/home/docs/.conda/envs in /opt/conda" in
  fst (man_replacements (demo_env 0 0 demo_manpage) init) = Ok table /\
  contains (lit "/opt/conda/envs:/home/docs/.conda/envs") page = true /\
  apply_replacements table page
  = lit ".TH CONDA 1 root prefix/envs:/home/docs/.conda/envs in root prefix" /\
  contains (lit "envs dirs") (apply_replacements table page) = false /\
  contains (lit "b") (lit "a") = false /\
  apply_replacements [(lit "a", lit "b"); (lit "b", lit "c")] (lit "a") = lit "c" /\
  apply_replacements [(lit "a", lit "b")] (lit "a") = lit "b".
Proof. vm_compute. repeat split; reflexivity. Qed.

(** ** C3: the subcommands of the external commands *)

Lemma lstrip_spaces (w rest : str) (c : char) :
  Forall (fun d => isspace d = true) w -> isspace c = false ->
  lstrip (w ++ c :: rest) = c :: rest.
Proof.
  intros Hw Hc. induction Hw as [|d w Hd _ IH]; cbn [app lstrip].
  - now rewrite Hc.
  - now rewrite Hd.
Qed.

Lemma lstrip_keeps_last (x : str) (c : char) :
  isspace c = false -> exists y, lstrip (x ++ [c]) = y ++ [c].
Proof.
  intro Hc. induction x as [|d x IH]; cbn [app lstrip].
  - rewrite Hc. now exists [].
  - destruct (isspace d); [exact IH|]. now exists (d :: x).
Qed.

(** A line that begins with a character that is not white space keeps it
    under [strip]. *)
Lemma strip_keeps_first (w rest : str) (c : char) :
  Forall (fun d => isspace d = true) w -> isspace c = false ->
  exists t, strip (w ++ c :: rest) = c :: t.
Proof.
  intros Hw Hc. unfold strip, rstrip. rewrite lstrip_spaces by assumption.
  destruct (rev rest) as [|r rr] eqn:Er.
  - apply (f_equal (@rev char)) in Er. rewrite rev_involutive in Er. subst rest.
    cbn. rewrite Hc. now exists [].
  - assert (Hrev : rev (c :: rest) = (r :: rr) ++ [c]) by (cbn [rev]; now rewrite Er).
    rewrite Hrev. destruct (@lstrip_keeps_last (r :: rr) c Hc) as (y & ->).
    rewrite rev_app_distr. cbn. now eexists.
Qed.

Lemma until_char_absent (c : char) (s : str) :
  ~ In c s -> until_char c s = s.
Proof.
  induction s as [|d s IH]; intro H; [reflexivity|]. cbn [until_char].
  destruct (N.eqb_spec d c) as [->|_].
  - exfalso. apply H. now left.
  - f_equal. apply IH. intro Hin. apply H. now right.
Qed.

Lemma before_last_absent (c : char) (s : str) :
  ~ In c s -> before_last c s = None.
Proof.
  induction s as [|d s IH]; intro H; [reflexivity|]. cbn [before_last].
  rewrite IH by (intro Hin; apply H; now right).
  destruct (N.eqb_spec d c) as [->|_]; [|reflexivity].
  exfalso. apply H. now left.
Qed.

Lemma before_last_found (c : char) (a b : str) :
  ~ In c b -> before_last c (a ++ c :: b) = Some a.
Proof.
  intro H. induction a as [|d a IH]; cbn [app before_last].
  - rewrite before_last_absent by assumption. now rewrite N.eqb_refl.
  - now rewrite IH.
Qed.

Lemma split_char_from_item (sep : char) (cur item rest : str) :
  ~ In sep item ->
  split_char_from sep cur (item ++ rest) = split_char_from sep (cur ++ item) rest.
Proof.
  revert cur. induction item as [|d item IH]; intros cur H; cbn [app].
  - now rewrite app_nil_r.
  - cbn [split_char_from]. destruct (N.eqb_spec d sep) as [->|_].
    + exfalso. apply H. now left.
    + rewrite IH by (intro Hin; apply H; now right).
      now rewrite <- app_assoc.
Qed.

Lemma split_char_join (sep : char) (items : list str) :
  items <> [] -> (forall i, In i items -> ~ In sep i) ->
  split_char sep (join [sep] items) = items.
Proof.
  unfold split_char. intros Hne Hitems.
  induction items as [|i items IH]; [contradiction|].
  destruct items as [|j items].
  - cbn [join]. rewrite <- (app_nil_r i) at 1.
    rewrite split_char_from_item by (apply Hitems; now left). reflexivity.
  - rewrite join_cons by discriminate.
    rewrite split_char_from_item by (apply Hitems; now left).
    cbn [app split_char_from]. rewrite N.eqb_refl. f_equal.
    apply IH; [discriminate|]. intros k Hk. apply Hitems. now right.
Qed.

Lemma splitlines_from_unbroken (n : nat) :
  forall s cur,
    length s <= n -> unbroken cur ->
    forall l, In l (splitlines_from cur s) -> unbroken l.
Proof.
  induction n as [|n IH]; intros s cur Hlen Hcur l Hl.
  - destruct s; [|cbn in Hlen; lia]. cbn in Hl.
    destruct cur; [contradiction|]. destruct Hl as [<-|[]]. exact Hcur.
  - destruct s as [|c s].
    { cbn in Hl. destruct cur; [contradiction|]. destruct Hl as [<-|[]]. exact Hcur. }
    cbn [length] in Hlen. cbn [splitlines_from] in Hl.
    destruct (islinebreak c) eqn:Hc.
    + destruct Hl as [<-|Hl]; [exact Hcur|].
      assert (Hnil : unbroken []) by constructor.
      destruct (c =? CR)%N; [|apply (IH s []); [lia|exact Hnil|exact Hl]].
      destruct s as [|d s]; [apply (IH [] []); [cbn; lia|exact Hnil|exact Hl]|].
      cbn [length] in Hlen.
      destruct (d =? LF)%N.
      * apply (IH s []); [lia|exact Hnil|exact Hl].
      * apply (IH (d :: s) []); [cbn [length]; lia|exact Hnil|exact Hl].
    + apply (IH s (cur ++ [c])); [lia| |exact Hl].
      apply Forall_app. split; [exact Hcur|]. now constructor.
Qed.

Lemma splitlines_unbroken (s l : str) : In l (splitlines s) -> unbroken l.
Proof.
  apply (@splitlines_from_unbroken (length s) s []); [lia|constructor].
Qed.

Lemma spaces_no_brace (w : str) : spaces w -> ~ In RBRACE w.
Proof.
  intros Hw Hin. unfold spaces in Hw. rewrite Forall_forall in Hw.
  specialize (Hw _ Hin). discriminate.
Qed.

Lemma unbroken_no_line_feed (l : str) : unbroken l -> ~ In LF l.
Proof.
  intros Hl Hin. unfold unbroken in Hl. rewrite Forall_forall in Hl.
  specialize (Hl _ Hin). discriminate.
Qed.

Lemma subcommands_re_match_brace_line (w1 w2 : str) (items : list str) :
  spaces w1 -> spaces w2 -> unbroken (brace_line w1 items w2) ->
  subcommands_re_match (brace_line w1 items w2) = Some (join [COMMA] items).
Proof.
  intros H1 H2 Hu. unfold subcommands_re_match, brace_line.
  cbn [app]. rewrite lstrip_spaces by (assumption || reflexivity).
  rewrite N.eqb_refl.
  rewrite until_char_absent.
  - apply before_last_found. now apply spaces_no_brace.
  - intro Hin. apply (unbroken_no_line_feed Hu). unfold brace_line.
    apply in_or_app. right. now right.
Qed.

Lemma strip_brace_line (w1 w2 : str) (items : list str) :
  spaces w1 -> strip (brace_line w1 items w2) <> lit "positional arguments:".
Proof.
  intros H1 E. unfold brace_line in E. cbn [app] in E.
  destruct (@strip_keeps_first w1 (join [COMMA] items ++ RBRACE :: w2) LBRACE H1 eq_refl)
    as (t & Ht).
  rewrite Ht in E. discriminate.
Qed.

Lemma scan_subcommands_before (command : str) (pre rest : list str) :
  (forall l, In l pre -> strip l <> lit "positional arguments:") ->
  scan_subcommands command (pre ++ rest) false = scan_subcommands command rest false.
Proof.
  induction pre as [|l pre IH]; intro H; cbn [app]; [reflexivity|].
  cbn [scan_subcommands].
  assert (E : str_eqb (strip l) (lit "positional arguments:") = false)
    by (apply str_eqb_neq, H; now left).
  rewrite E. apply IH. intros l' Hl'. apply H. now right.
Qed.

(** What the inner loop finds in a help text whose header line is followed
    by a line of the pattern. *)
Lemma scan_subcommands_found (command hline w1 w2 : str) (pre rest : list str)
    (items : list str) :
  (forall l, In l pre -> strip l <> lit "positional arguments:") ->
  strip hline = lit "positional arguments:" ->
  spaces w1 -> spaces w2 -> unbroken (brace_line w1 items w2) ->
  items <> [] -> (forall i, In i items -> ~ In COMMA i) ->
  scan_subcommands command (pre ++ hline :: brace_line w1 items w2 :: rest) false
  = List.map (fun i => command ++ lit " " ++ i) items.
Proof.
  intros Hpre Hhd H1 H2 Hu Hne Hitems.
  rewrite scan_subcommands_before by assumption.
  cbn [scan_subcommands]. rewrite Hhd, str_eqb_refl.
  assert (E : str_eqb (strip (brace_line w1 items w2)) (lit "positional arguments:") = false)
    by now apply str_eqb_neq, strip_brace_line.
  rewrite E, subcommands_re_match_brace_line by assumption.
  now rewrite split_char_join.
Qed.

(** *** The dictionary of help texts *)

Lemma dict_get_set {V : Type} (k k' : str) (v : V) (d : list (str * V)) :
  dict_get k (dict_set k' v d) = if str_eqb k' k then Some v else dict_get k d.
Proof.
  induction d as [|[k0 v0] d IH]; cbn [dict_set dict_get].
  - cbn. reflexivity.
  - destruct (str_eqb k0 k') eqn:E0.
    + apply str_eqb_eq in E0. subst k0. cbn [dict_get].
      destruct (str_eqb k' k); reflexivity.
    + cbn [dict_get]. destruct (str_eqb k0 k) eqn:E1; [|exact IH].
      apply str_eqb_eq in E1. subst k0.
      destruct (str_eqb k' k) eqn:E2; [|reflexivity].
      apply str_eqb_eq in E2. subst k'. now rewrite str_eqb_refl in E0.
Qed.

Lemma dict_get_split {V : Type} (k : str) (v : V) (d : list (str * V)) :
  dict_get k d = Some v -> exists d1 d2, d = d1 ++ (k, v) :: d2.
Proof.
  induction d as [|[k0 v0] d IH]; cbn [dict_get]; [discriminate|].
  destruct (str_eqb k0 k) eqn:E.
  - intro H. injection H as ->. apply str_eqb_eq in E. subst k0. now exists [], d.
  - intro H. destruct (IH H) as (d1 & d2 & ->). now exists ((k0, v0) :: d1), d2.
Qed.

Lemma extend_all {A : Type} (f : A -> list str) (d : list A) (commands : list str) :
  fold_left (fun commands ch => commands ++ f ch) d commands
  = commands ++ flat_map f d.
Proof.
  revert commands. induction d as [|a d IH]; intro commands; cbn [fold_left flat_map].
  - now rewrite app_nil_r.
  - now rewrite IH, <- app_assoc.
Qed.

Section Help.

Variable e : env.

Lemma get_help_run (command : str) (command_help : list (str * str)) (s : state) :
  helps e command ->
  exists h s',
    get_help e command command_help s = (Ok (dict_set command h command_help), s') /\
    forall help, helps_with e command help -> h = help.
Proof.
  intro H. destruct (H (log s)) as (out & err & Hr & Hdec).
  destruct (decode_utf8 out) as [h|] eqn:Hd; [|contradiction].
  unfold get_help, conda_command_help.
  assert (Hq : str_check_output e (command_help_argv command) s
               = (Ok h, add_event (EvSpawn (command_help_argv command) ErrInherit
                                     (Exited out err 0)) s)).
  { rewrite str_check_output_unfold, Hr. cbn. now rewrite Hd. }
  erewrite bind_ok by exact Hq. eexists h, _. split; [reflexivity|].
  intros help Hw. destruct (Hw (log s)) as (out' & err' & Hr' & Hdec').
  rewrite Hr in Hr'. injection Hr' as <- _. congruence.
Qed.

Lemma get_help_all (tasks : list str) :
  (forall c, In c tasks -> helps e c) ->
  forall command_help s,
  exists d s',
    for_each (get_help e) tasks command_help s = (Ok d, s') /\
    forall command help,
      helps_with e command help ->
      In command tasks \/ dict_get command command_help = Some help ->
      dict_get command d = Some help.
Proof.
  induction tasks as [|c tasks IH]; intros Hall command_help s.
  - exists command_help, s. split; [reflexivity|].
    intros command help _ [[]|H]. exact H.
  - destruct (@get_help_run c command_help s (Hall c (or_introl eq_refl)))
      as (h & s1 & Hrun & Hh).
    destruct (IH (fun c' Hc' => Hall c' (or_intror Hc')) (dict_set c h command_help) s1)
      as (d & s' & Hrest & Hd).
    exists d, s'. split.
    + cbn [for_each]. erewrite bind_ok by exact Hrun. exact Hrest.
    + intros command help Hw Hin. apply Hd; [exact Hw|].
      destruct (in_dec (list_eq_dec N.eq_dec) command tasks) as [Ht|Hnt]; [now left|].
      right. rewrite dict_get_set.
      destruct (str_eqb c command) eqn:E.
      * apply str_eqb_eq in E. subst c. f_equal. now apply Hh.
      * destruct Hin as [[->|Ht]|Hg]; [|contradiction|exact Hg].
        now rewrite str_eqb_refl in E.
Qed.

End Help.

(** C3.  When the help of an external command has, right after its first
    [positional arguments:] header line, a line of the pattern with the items
    [a], [b], [c] between the braces, [external_commands] returns the base
    commands followed by its additions, among which [command a], [command b],
    [command c] stand together and in that order. *)
Theorem external_commands_expands_subcommands (e : env) (s s1 : state)
    (top : str) (base : list str) (command help hline w1 w2 : str)
    (pre rest : list str) (items : list str) :
  fair e ->
  conda_help e (announced "Getting list of external commands" s) = (Ok top, s1) ->
  scan_commands (lit "other commands:") (splitlines top) false [] = Ok base ->
  (forall c, In c base -> helps e c) ->
  In command base ->
  helps_with e command help ->
  splitlines help = pre ++ hline :: brace_line w1 items w2 :: rest ->
  (forall l, In l pre -> strip l <> lit "positional arguments:") ->
  strip hline = lit "positional arguments:" ->
  spaces w1 -> spaces w2 ->
  items <> [] -> (forall i, In i items -> ~ In COMMA i) ->
  exists s' before after,
    external_commands e s
    = (Ok (base ++ before ++ List.map (fun i => command ++ lit " " ++ i) items ++ after),
       s').
Proof.
  intros Hfair Hhelp Hscan Hall Hin Hw Hlines Hpre Hhd H1 H2 Hne Hitems.
  assert (Htasks : forall c, In c (schedule e base) -> helps e c).
  { intros c Hc. apply Hall. eapply Permutation_in; [apply Hfair|exact Hc]. }
  assert (Hsched : In command (schedule e base)).
  { eapply Permutation_in; [apply Permutation_sym, Hfair|exact Hin]. }
  destruct (@get_help_all e (schedule e base) Htasks []
              (announced "Getting list of external subcommands" s1))
    as (d & s' & Hrun & Hd).
  assert (Hget : dict_get command d = Some help) by (apply Hd; [exact Hw|now left]).
  apply dict_get_split in Hget as (d1 & d2 & ->).
  assert (Hu : unbroken (brace_line w1 items w2)).
  { apply (@splitlines_unbroken help). rewrite Hlines.
    apply in_or_app. right. right. now left. }
  set (f := fun ch : str * str => scan_subcommands (fst ch) (splitlines (snd ch)) false).
  exists s', (flat_map f d1), (flat_map f d2).
  unfold external_commands.
  erewrite bind_ok by reflexivity.
  erewrite bind_ok by exact Hhelp.
  erewrite bind_ok by (unfold lift; rewrite Hscan; reflexivity).
  erewrite bind_ok by reflexivity.
  erewrite bind_ok.
  2:{ unfold thread_pool. destruct base; [contradiction|reflexivity]. }
  unfold executor_map. erewrite bind_ok by exact Hrun.
  unfold ret. f_equal. f_equal.
  rewrite (extend_all f), flat_map_app. cbn [flat_map]. f_equal. f_equal. f_equal.
  unfold f. cbn [fst snd]. rewrite Hlines.
  now apply scan_subcommands_found.
Qed.

Lemma external_commands_expands_subcommands_witness :
  exists s' before after,
    external_commands (demo_env 0 0 demo_manpage) init
    = (Ok ([lit "build"; lit "skeleton"] ++ before
           ++ List.map (fun i => lit "skeleton" ++ lit " " ++ i)
                [lit "cpan"; lit "cran"; lit "pypi"]
           ++ after), s').
Proof.
  apply (@external_commands_expands_subcommands (demo_env 0 0 demo_manpage) init
           (snd (conda_help (demo_env 0 0 demo_manpage)
                   (announced "Getting list of external commands" init)))
           demo_help [lit "build"; lit "skeleton"] (lit "skeleton") demo_skeleton_help
           (lit "positional arguments:") (lit "  ") []
           [lit "usage: conda-skeleton [-h] {cpan,cran,pypi} ..."; []]
           [lit "    cpan             Create recipe skeleton for packages hosted on CPAN."]
           [lit "cpan"; lit "cran"; lit "pypi"]).
  - apply demo_env_fair.
  - vm_compute. reflexivity.
  - vm_compute. reflexivity.
  - intros c [<-|[<-|[]]] history; eexists _, _; (split; [vm_compute; reflexivity|]);
      vm_compute; discriminate.
  - right. now left.
  - intro history. exists (ascii_bytes demo_skeleton_help), [].
    split; vm_compute; reflexivity.
  - vm_compute. reflexivity.
  - intros l [<-|[<-|[]]]; vm_compute; discriminate.
  - vm_compute. reflexivity.
  - repeat constructor.
  - constructor.
  - discriminate.
  - intros i [<-|[<-|[<-|[]]]] Hin; vm_compute in Hin; intuition discriminate.
Defined.

(** * Further properties of the script *)

(** ** Strict queries (lines 53-54) *)

(** X1.  [str_check_output] adds the process to the history and nothing
    else; it returns exactly when the process ends with exit code zero and an
    output that is UTF-8, and then the decoded output; a non-zero exit code
    raises [CalledProcessError] (where [run_command] would go on), an output
    that is not UTF-8 [UnicodeDecodeError], a program that cannot be started
    [OSError]. *)
Theorem str_check_output_is_strict (e : env) (argv : list str) (s : state) :
  let o := respond e (log s) argv ErrInherit in
  let r := str_check_output e argv s in
  snd r = add_event (EvSpawn argv ErrInherit o) s /\
  (forall t,
     fst r = Ok t <-> exists out err, o = Exited out err 0 /\ decode_utf8 out = Some t) /\
  (forall out err code,
     o = Exited out err code -> code <> 0%Z -> fst r = Raise CalledProcessError) /\
  (forall out err,
     o = Exited out err 0 -> decode_utf8 out = None -> fst r = Raise UnicodeDecodeError) /\
  (o = CannotStart -> fst r = Raise OSError).
Proof.
  cbn zeta. split; [apply str_check_output_state|].
  rewrite str_check_output_unfold.
  destruct (respond e (log s) argv ErrInherit) as [|out err code].
  - split; [|split; [|split]]; try discriminate; try reflexivity.
    intro t. split; [discriminate|]. intros (out & err & H & _). discriminate.
  - destruct (Z.eqb_spec code 0) as [->|Hcode].
    + destruct (decode_utf8 out) as [t0|] eqn:Hd; cbn [fst].
      * split; [|split; [|split]]; try discriminate.
        -- intro t. split.
           ++ intro H. injection H as <-. now exists out, err.
           ++ intros (out' & err' & H & Hd'). injection H as <- _. congruence.
        -- intros out' err' code' H Hne. injection H as _ _ <-. contradiction.
        -- intros out' err' H Hd'. injection H as <- _. congruence.
      * split; [|split; [|split]]; try discriminate; try reflexivity.
        -- intro t. split; [discriminate|].
           intros (out' & err' & H & Hd'). injection H as <- _. congruence.
        -- intros out' err' code' H Hne. injection H as _ _ <-. contradiction.
    + cbn [fst]. split; [|split; [|split]]; try discriminate; try reflexivity.
      * intro t. split; [discriminate|].
        intros (out' & err' & H & _). injection H as _ _ ->. contradiction.
      * intros out' err' H. injection H as _ _ ->. contradiction.
Qed.

(** ** Discovery on unusual help texts (lines 68-130) *)

Lemma scan_commands_no_header (header : str) (lines : list str) :
  (forall l, In l lines -> strip l <> header) ->
  scan_commands header lines false [] = Ok [].
Proof.
  intro H. rewrite <- (app_nil_r lines). now rewrite scan_before_header.
Qed.

(** X2.  On a help text none of whose lines strips to [command],
    [conda_commands] returns the empty list. *)
Theorem conda_commands_without_header (e : env) (s s1 : state) (help : str) :
  conda_help e (announced "Getting list of core commands" s) = (Ok help, s1) ->
  (forall l, In l (splitlines help) -> strip l <> lit "command") ->
  conda_commands e s = (Ok [], s1).
Proof.
  intros Hh Hno. rewrite conda_commands_unfold, Hh.
  now rewrite scan_commands_no_header.
Qed.

Lemma conda_commands_without_header_witness :
  conda_commands noisy_env init
  = (Ok [], snd (conda_help noisy_env (announced "Getting list of core commands" init))).
Proof.
  apply (@conda_commands_without_header noisy_env init _ (lit "conda 4.3.0")).
  - vm_compute. reflexivity.
  - intros l Hl. vm_compute in Hl. destruct Hl as [<-|[]]. vm_compute. discriminate.
Defined.

(** X3.  On a help text none of whose lines strips to [other commands:],
    [external_commands] does not return the empty list: the pool of no
    workers is refused, and the call ends in [ValueError] after its two
    lines are printed, no help of a command having been asked for. *)
Theorem external_commands_without_commands (e : env) (s s1 : state) (help : str) :
  conda_help e (announced "Getting list of external commands" s) = (Ok help, s1) ->
  (forall l, In l (splitlines help) -> strip l <> lit "other commands:") ->
  external_commands e s
  = (Raise ValueError, announced "Getting list of external subcommands" s1).
Proof.
  intros Hh Hno. unfold external_commands.
  erewrite bind_ok by reflexivity.
  erewrite bind_ok by exact Hh.
  erewrite bind_ok by (unfold lift; rewrite scan_commands_no_header by exact Hno; reflexivity).
  erewrite bind_ok by reflexivity.
  reflexivity.
Qed.

Lemma external_commands_without_commands_witness :
  external_commands noisy_env init
  = (Raise ValueError,
     announced "Getting list of external subcommands"
       (snd (conda_help noisy_env (announced "Getting list of external commands" init)))).
Proof.
  apply (@external_commands_without_commands noisy_env init _ (lit "conda 4.3.0")).
  - vm_compute. reflexivity.
  - intros l Hl. vm_compute in Hl. destruct Hl as [<-|[]]. vm_compute. discriminate.
Defined.

(** X4.  The commands [conda_commands] returns are words, not empty and
    without white space; so the help of each is asked for with the command as
    one argument. *)
Theorem conda_commands_returns_words (e : env) (s s' : state) (commands : list str) :
  conda_commands e s = (Ok commands, s') ->
  Forall word commands /\
  forall c, In c commands -> command_help_argv c = [lit "conda"; c; lit "--help"].
Proof.
  rewrite conda_commands_unfold.
  destruct (conda_help e _) as [[help|x|msg] s1]; try discriminate.
  intro H. injection H as H _.
  assert (Hw : Forall word commands)
    by exact (scan_commands_words _ _ _ (Forall_nil word) H).
  split; [exact Hw|].
  intros c Hc. rewrite Forall_forall in Hw.
  unfold command_help_argv. now rewrite (split_ws_word (Hw c Hc)).
Qed.

Lemma conda_commands_returns_words_witness :
  Forall word [lit "clean"; lit "config"; lit "install"] /\
  forall c, In c [lit "clean"; lit "config"; lit "install"] ->
            command_help_argv c = [lit "conda"; c; lit "--help"].
Proof.
  apply (@conda_commands_returns_words (demo_env 0 0 demo_manpage) init
           (snd (conda_commands (demo_env 0 0 demo_manpage) init))).
  vm_compute. reflexivity.
Defined.

Lemma split_ws_from_first_word (w : str) :
  Forall (fun c => isspace c = false) w ->
  forall cur c rest,
    cur ++ w <> [] -> isspace c = true ->
    split_ws_from cur (w ++ c :: rest) = (cur ++ w) :: split_ws_from [] rest.
Proof.
  induction 1 as [|d w Hd _ IH]; intros cur c rest Hne Hc; cbn [app split_ws_from].
  - rewrite app_nil_r in *. rewrite Hc. destruct cur; [contradiction|reflexivity].
  - rewrite Hd. rewrite IH; [now rewrite <- app_assoc| |exact Hc].
    rewrite <- app_assoc. cbn [app]. now destruct cur.
Qed.

Lemma split_ws_join (ws : list str) :
  Forall word ws -> split_ws (join [SPACE] ws) = ws.
Proof.
  unfold split_ws. induction 1 as [|w ws Hw Hws IH]; [reflexivity|].
  destruct ws as [|w' ws].
  - cbn [join]. destruct Hw as [Hne Hw]. now apply (split_ws_from_word Hw []).
  - rewrite join_cons by discriminate. destruct Hw as [Hne Hw]. cbn [app].
    rewrite (split_ws_from_first_word Hw []); [|exact Hne|reflexivity].
    cbn [app]. now rewrite IH.
Qed.

(** X5.  For a command made of words separated by single spaces, such as
    [inspect linkages], [conda_command_help] asks [conda] with one argument
    for every word, followed by [--help]: splitting undoes the joining. *)
Theorem command_help_argv_of_words (ws : list str) :
  Forall word ws ->
  command_help_argv (join [SPACE] ws) = lit "conda" :: ws ++ [lit "--help"].
Proof.
  intro H. unfold command_help_argv. now rewrite split_ws_join.
Qed.

Lemma command_help_argv_of_words_witness :
  command_help_argv (lit "inspect linkages")
  = [lit "conda"; lit "inspect"; lit "linkages"; lit "--help"].
Proof.
  apply (@command_help_argv_of_words [lit "inspect"; lit "linkages"]).
  repeat constructor; try discriminate.
Defined.

Lemma dict_set_keys {V : Type} (k : str) (v : V) (d : list (str * V)) (k0 : str) :
  In k0 (List.map fst (dict_set k v d)) -> k0 = k \/ In k0 (List.map fst d).
Proof.
  induction d as [|[k1 v1] d IH]; cbn [dict_set List.map fst In].
  - intros [<-|[]]. now left.
  - destruct (str_eqb k1 k); cbn [List.map fst In].
    + intros [<-|H]; right; [now left|now right].
    + intros [<-|H]; [right; now left|].
      destruct (IH H) as [->|H']; [now left|right; now right].
Qed.

Lemma get_help_keys (e : env) (tasks : list str) :
  forall command_help s d s',
    for_each (get_help e) tasks command_help s = (Ok d, s') ->
    forall k, In k (List.map fst d) -> In k tasks \/ In k (List.map fst command_help).
Proof.
  induction tasks as [|c tasks IH]; intros command_help s d s' H k Hk.
  - cbn in H. injection H as <- _. now right.
  - cbn [for_each] in H. apply bind_ok_inv in H as (d1 & s1 & Hget & H).
    unfold get_help in Hget.
    apply bind_ok_inv in Hget as (h & s0 & _ & Hget).
    apply bind_ok_inv in Hget as ([] & s0' & _ & Hget).
    injection Hget as <- _.
    destruct (IH _ _ _ _ H k Hk) as [Ht|Hd]; [left; now right|].
    apply dict_set_keys in Hd as [->|Hd]; [left; now left|now right].
Qed.

Lemma scan_subcommands_entries (command : str) (lines : list str) :
  forall start x,
    In x (scan_subcommands command lines start) ->
    exists i, x = command ++ lit " " ++ i.
Proof.
  induction lines as [|line lines IH]; intros start x Hx; [contradiction|].
  cbn [scan_subcommands] in Hx.
  destruct (str_eqb (strip line) (lit "positional arguments:")); [now apply (IH true)|].
  destruct start; [|now apply (IH false)].
  destruct (subcommands_re_match line); [|contradiction].
  apply in_map_iff in Hx as (i & <- & _). now exists i.
Qed.

(** X6.  When [external_commands] returns, its result is the commands of
    the [other commands:] section, all of them and in their order, followed by
    the additions, and every addition is a command among those the pool has
    been given, a space and an item. *)
Theorem external_commands_keeps_base (e : env) (s s' : state) (result : list str) :
  external_commands e s = (Ok result, s') ->
  exists help s1 base added,
    conda_help e (announced "Getting list of external commands" s) = (Ok help, s1) /\
    scan_commands (lit "other commands:") (splitlines help) false [] = Ok base /\
    base <> [] /\
    result = base ++ added /\
    forall x, In x added ->
              exists c i, In c (schedule e base) /\ x = c ++ lit " " ++ i.
Proof.
  unfold external_commands. intro H.
  apply bind_ok_inv in H as ([] & s0 & Hsay & H). injection Hsay as <-.
  apply bind_ok_inv in H as (help & s1 & Hhelp & H).
  apply bind_ok_inv in H as (base & s2 & Hscan & H).
  unfold lift in Hscan. injection Hscan as Hscan <-.
  apply bind_ok_inv in H as ([] & s3 & _ & H).
  apply bind_ok_inv in H as ([] & s4 & Hpool & H).
  apply bind_ok_inv in H as (d & s5 & Hmap & H).
  injection H as <- _.
  exists help, s1, base.
  set (f := fun ch : str * str => scan_subcommands (fst ch) (splitlines (snd ch)) false).
  exists (flat_map f d).
  split; [exact Hhelp|]. split; [exact Hscan|].
  split; [intros ->; discriminate|].
  split; [apply (extend_all f)|].
  intros x Hx. apply in_flat_map in Hx as ([c h] & Hin & Hx).
  unfold f in Hx. cbn [fst snd] in Hx.
  apply scan_subcommands_entries in Hx as (i & ->).
  exists c, i. split; [|reflexivity].
  unfold executor_map in Hmap.
  destruct (get_help_keys _ _ _ _ Hmap c) as [Ht|[]]; [|exact Ht].
  apply in_map_iff. now exists (c, h).
Qed.

Lemma external_commands_keeps_base_witness :
  exists help s1 base added,
    conda_help (demo_env 0 0 demo_manpage)
      (announced "Getting list of external commands" init) = (Ok help, s1) /\
    scan_commands (lit "other commands:") (splitlines help) false [] = Ok base /\
    base <> [] /\
    [lit "build"; lit "skeleton"; lit "skeleton cpan"; lit "skeleton cran";
     lit "skeleton pypi"] = base ++ added /\
    forall x, In x added ->
              exists c i, In c (schedule (demo_env 0 0 demo_manpage) base) /\
                          x = c ++ lit " " ++ i.
Proof.
  apply (@external_commands_keeps_base (demo_env 0 0 demo_manpage) init
           (snd (external_commands (demo_env 0 0 demo_manpage) init))).
  vm_compute. reflexivity.
Defined.

(** ** The names of the files *)

Lemma replace_from_space (s : str) :
  replace_from [SPACE] [45%N] 0 s = List.map hyphen s.
Proof.
  induction s as [|c s IH]; [reflexivity|].
  cbn [replace_from startswith List.map length Nat.sub andb]. unfold hyphen at 1.
  rewrite N.eqb_sym, Bool.andb_true_r.
  destruct (c =? SPACE)%N; cbn [app]; now rewrite IH.
Qed.

Lemma command_file_map (command : str) : command_file command = List.map hyphen command.
Proof. apply replace_from_space. Qed.

Lemma hyphen_not_space (c : char) : hyphen c <> SPACE.
Proof.
  unfold hyphen. destruct (c =? SPACE)%N eqn:H; [discriminate|].
  now apply N.eqb_neq.
Qed.

(** X7.  The name [generate_man], [generate_html] and [write_rst] put in
    their file names is the command with every space turned into a hyphen,
    character by character: it holds no space, is as long as the command, is
    the command itself when that holds no space, and naming it again changes
    nothing. *)
Theorem command_file_hyphenates (command : str) :
  command_file command = List.map hyphen command /\
  ~ In SPACE (command_file command) /\
  length (command_file command) = length command /\
  (~ In SPACE command -> command_file command = command) /\
  command_file (command_file command) = command_file command.
Proof.
  assert (Hfix : forall s : str, ~ In SPACE s -> List.map hyphen s = s).
  { induction s as [|c s IH]; [reflexivity|]. intro Hn. cbn [List.map].
    rewrite IH by (intro; apply Hn; now right).
    unfold hyphen. destruct (c =? SPACE)%N eqn:Hc; [|reflexivity].
    apply N.eqb_eq in Hc. exfalso. apply Hn. now left. }
  assert (Hno : ~ In SPACE (List.map hyphen command)).
  { intro Hin. apply in_map_iff in Hin as (c & Hc & _). now apply hyphen_not_space in Hc. }
  rewrite !command_file_map.
  split; [reflexivity|]. split; [exact Hno|]. split; [apply length_map|].
  split; [apply Hfix|]. now apply Hfix.
Qed.

Lemma path_join_name (a name : str) :
  startswith [SLASH] name = false ->
  path_join a name
  = (if is_empty a || endswith_slash a then a else a ++ [SLASH]) ++ name.
Proof.
  intro H. unfold path_join. rewrite H.
  destruct (is_empty a || endswith_slash a); [reflexivity|].
  now rewrite <- app_assoc.
Qed.

Lemma conda_name_relative (rest : str) : startswith [SLASH] (lit "conda-" ++ rest) = false.
Proof. reflexivity. Qed.

Lemma conda_file_inj (a x y suffix : str) :
  path_join a (lit "conda-" ++ x ++ suffix) = path_join a (lit "conda-" ++ y ++ suffix)
  <-> x = y.
Proof.
  split; [|now intros ->].
  rewrite !path_join_name by apply conda_name_relative.
  intro H. apply app_inv_head in H. apply app_inv_head in H.
  now apply app_inv_tail in H.
Qed.

(** X8.  Two commands get the same manual page file exactly when they are
    the same up to spaces and hyphens, and so for the HTML files and for the
    fragments of one directory; a manual page file is never an HTML file. *)
Theorem output_files_by_command_file (e : env) (c1 c2 : str) :
  (man_file e c1 = man_file e c2 <-> List.map hyphen c1 = List.map hyphen c2) /\
  (html_file e c1 = html_file e c2 <-> List.map hyphen c1 = List.map hyphen c2) /\
  (forall rp, rst_file rp c1 = rst_file rp c2 <-> List.map hyphen c1 = List.map hyphen c2) /\
  man_file e c1 <> html_file e c2.
Proof.
  rewrite <- !command_file_map. unfold man_file, html_file, rst_file.
  split; [apply conda_file_inj|]. split; [apply conda_file_inj|].
  split; [intro rp; apply conda_file_inj|].
  rewrite !path_join_name by apply conda_name_relative.
  intro H. apply app_inv_head in H. apply app_inv_head in H.
  apply (f_equal (fun l => last l 0%N)) in H.
  change (lit ".1") with ([46%N] ++ [49%N]) in H.
  change (lit ".html") with (lit ".htm" ++ [108%N]) in H.
  rewrite !app_assoc, !last_last in H. discriminate.
Qed.

(** ** What a failed generation leaves behind *)

Lemma loop_event_no_writes (command v : str) (l : list event) :
  Forall (loop_event command v) l -> writes l = [].
Proof.
  induction 1 as [|ev l Hev _ IH]; [reflexivity|].
  destruct Hev as [(o & ->)|Hq]; [exact IH|].
  destruct ev; try contradiction. exact IH.
Qed.

Lemma generate_man_failed (e : env) (command : str) (s s' : state) (r : result unit) :
  generate_man e command s = (r, s') ->
  succeeded r = false ->
  exists new,
    log s' = log s ++ new /\ writes new = [] /\ mkdirs new = [].
Proof.
  intros Hrun Hr.
  destruct (generate_man_trace e command s)
    as (printed & Hv & Hq & rest & Hlog & _ & _ & Hrest).
  cbn zeta in Hv, Hlog, Hrest. rewrite Hrun in Hlog, Hrest.
  cbn [fst snd] in Hlog, Hrest. rewrite Hr in Hrest.
  rewrite Hv, <- app_assoc in Hlog. cbn [app] in Hlog.
  eexists. split; [exact Hlog|].
  assert (Hmk : forall l, writes l = [] -> Forall (fun ev => is_spawn ev = true \/ quiet ev) l ->
                          mkdirs l = []).
  { induction l as [|ev l IH]; [reflexivity|]. intros Hw Hall.
    inversion Hall as [|? ? Hev Hl]; subst.
    destruct ev; cbn in Hw |- *; try discriminate; try (now apply IH).
    destruct Hev as [Hev|Hev]; [discriminate|contradiction]. }
  assert (Hquiet : forall l, Forall quiet l ->
                             Forall (fun ev => is_spawn ev = true \/ quiet ev) l).
  { intros l Hl. eapply Forall_impl; [|exact Hl]. intros ev Hev. now right. }
  destruct (run_command e version_argv true s) as [[v|x|msg] s0].
  - destruct Hrest as (loop & tail & -> & _ & _ & _ & Hall & Htail & _).
    assert (Hw : writes (printed ++ loop ++ tail) = []).
    { rewrite !writes_app, (quiet_no_writes Hq), (loop_event_no_writes Hall).
      destruct Htail as [->|(o & ->)]; reflexivity. }
    split; [exact Hw|].
    apply Hmk; [exact Hw|]. constructor; [now left|].
    apply Forall_app. split; [now apply Hquiet|].
    apply Forall_app. split.
    + eapply Forall_impl; [|exact Hall]. intros ev [(o & ->)|Hev]; [now left|now right].
    + destruct Htail as [->|(o & ->)]; [constructor|].
      constructor; [now left|constructor].
  - destruct Hrest as (-> & _). rewrite app_nil_r.
    assert (Hw : writes printed = []) by now apply quiet_no_writes.
    split; [exact Hw|].
    apply Hmk; [exact Hw|]. constructor; [now left|now apply Hquiet].
  - destruct Hrest as (-> & _). rewrite app_nil_r.
    assert (Hw : writes printed = []) by now apply quiet_no_writes.
    split; [exact Hw|].
    apply Hmk; [exact Hw|]. constructor; [now left|now apply Hquiet].
Qed.

(** X9.  A call of [generate_man] that ends in a stage before the manual
    page is opened, by an exception of the version query, of an attempt of
    the converter or of the table, or by [sys.exit] after the loop, does not
    return and has written no file and made no directory: the manual page of
    the command is as it was. *)
Theorem generate_man_stops_before_writing (e : env) (command : str) (s : state) :
  stops_before_page e command s ->
  succeeded (fst (generate_man e command s)) = false /\
  exists new,
    log (snd (generate_man e command s)) = log s ++ new /\
    writes new = [] /\
    mkdirs new = [] /\
    files (snd (generate_man e command s)) = files s /\
    dirs (snd (generate_man e command s)) = dirs s /\
    cache (snd (generate_man e command s)) = cache s.
Proof.
  intro H.
  assert (Hr : succeeded (fst (generate_man e command s)) = false).
  { unfold stops_before_page in H.
    pose proof (generate_man_stages e command s) as Hst.
    destruct (run_command e version_argv true s) as [[v|x|msg] s0];
      [|now rewrite Hst|now rewrite Hst].
    destruct (man_loop e command v 5 [] s0) as [[manpage|x|msg] s1];
      [|now rewrite Hst|now rewrite Hst].
    destruct (is_empty manpage); [now rewrite Hst|].
    destruct H as [H|H]; [discriminate|].
    destruct (man_replacements e s1) as [[table|x|msg] s2];
      [discriminate|now rewrite Hst|now rewrite Hst]. }
  split; [exact Hr|].
  destruct (generate_man e command s) as [r s'] eqn:Hrun. cbn [fst snd] in Hr |- *.
  destruct (@generate_man_failed e command s s' r Hrun Hr) as (new & Hl & Hw & Hm).
  exists new. split; [exact Hl|]. split; [exact Hw|]. split; [exact Hm|].
  destruct (generate_man_trace e command s)
    as (_ & _ & _ & rest & _ & Hc & Hd & Hrest).
  cbn zeta in Hc, Hd, Hrest. rewrite Hrun in Hc, Hd, Hrest.
  cbn [fst snd] in Hc, Hd, Hrest. rewrite Hr in Hrest.
  split; [|split; [exact Hd|exact Hc]].
  destruct (run_command e version_argv true s) as [[v|x|msg] s0].
  - now destruct Hrest as (loop & tail & _ & _ & _ & _ & _ & _ & Hf).
  - now destruct Hrest as (_ & _ & Hf).
  - now destruct Hrest as (_ & _ & Hf).
Qed.

Lemma generate_man_stops_before_writing_witness :
  succeeded (fst (generate_man (demo_env 0 5 demo_manpage) (lit "build") init)) = false /\
  exists new,
    log (snd (generate_man (demo_env 0 5 demo_manpage) (lit "build") init))
    = log init ++ new /\
    writes new = [] /\
    mkdirs new = [] /\
    files (snd (generate_man (demo_env 0 5 demo_manpage) (lit "build") init)) = files init /\
    dirs (snd (generate_man (demo_env 0 5 demo_manpage) (lit "build") init)) = dirs init /\
    cache (snd (generate_man (demo_env 0 5 demo_manpage) (lit "build") init)) = cache init.
Proof.
  apply (@generate_man_stops_before_writing (demo_env 0 5 demo_manpage) (lit "build") init).
  unfold stops_before_page. vm_compute. left. reflexivity.
Defined.

Lemma generate_html_unfold (e : env) (command : str) (s : state) :
  let man := [lit "man"; abspath e (man_file e command)] in
  let o1 := respond e (log s) man ErrInherit in
  let s1 := add_event (EvSpawn man ErrInherit o1) s in
  let o2 := respond e (log s1) (man2html_argv (command_file command)) ErrInherit in
  let s2 := add_event (EvSpawn (man2html_argv (command_file command)) ErrInherit o2) s1 in
  generate_html e command s
  = match o1, o2 with
    | CannotStart, _ => (Raise OSError, s1)
    | Exited _ _ _, CannotStart => (Raise OSError, s2)
    | Exited _ _ _, Exited out _ code =>
        if (code =? 0)%Z
        then (Ok tt,
              add_event (EvPrint Stdout (MsgText (lit "Generated html for conda " ++ command)))
                (add_file (html_file e command) (Binary out)
                   (add_event (EvWrite (html_file e command) (Binary out)) s2)))
        else (Raise CalledProcessError, s2)
    end.
Proof.
  cbv zeta. unfold generate_html. unfold bind at 1. unfold spawn at 1.
  destruct (respond e (log s) [lit "man"; abspath e (man_file e command)] ErrInherit)
    as [|out1 err1 code1]; [reflexivity|].
  unfold bind at 1. rewrite check_output_unfold. cbv zeta.
  match goal with
  | |- context [respond e ?l (man2html_argv ?cf) ErrInherit] =>
      destruct (respond e l (man2html_argv cf) ErrInherit) as [|out err code]
  end; [reflexivity|].
  destruct (code =? 0)%Z; reflexivity.
Qed.

(** X10.  [generate_html] needs both programs: when [man] cannot be
    started it raises [OSError], and so when [man2html] cannot; when
    [man2html] ends with a code other than 0 it raises [CalledProcessError];
    in these cases the two starts are all that has happened and no file is
    written.  A call that returns has started [man], whose exit code it has
    not looked at, has seen [man2html] end with code 0, and has written the
    bytes of [man2html], as they came, into the HTML file of the command and
    nowhere else. *)
Theorem generate_html_needs_both_programs (e : env) (command : str) (s : state) :
  let man := [lit "man"; abspath e (man_file e command)] in
  let o1 := respond e (log s) man ErrInherit in
  let s1 := add_event (EvSpawn man ErrInherit o1) s in
  let o2 := respond e (log s1) (man2html_argv (command_file command)) ErrInherit in
  let s2 := add_event (EvSpawn (man2html_argv (command_file command)) ErrInherit o2) s1 in
  (o1 = CannotStart -> generate_html e command s = (Raise OSError, s1)) /\
  (o1 <> CannotStart -> o2 = CannotStart ->
   generate_html e command s = (Raise OSError, s2)) /\
  (forall out err code,
     o1 <> CannotStart -> o2 = Exited out err code -> code <> 0%Z ->
     generate_html e command s = (Raise CalledProcessError, s2)) /\
  (forall s',
     generate_html e command s = (Ok tt, s') ->
     o1 <> CannotStart /\
     exists out err new,
       o2 = Exited out err 0%Z /\
       files s' = (html_file e command, Binary out) :: files s /\
       log s' = log s ++ new /\
       writes new = [html_file e command] /\
       mkdirs new = []).
Proof.
  cbv zeta. rewrite generate_html_unfold. cbv zeta.
  set (man := [lit "man"; abspath e (man_file e command)]).
  set (o1 := respond e (log s) man ErrInherit).
  set (s1 := add_event (EvSpawn man ErrInherit o1) s).
  set (m2h := man2html_argv (command_file command)).
  set (o2 := respond e (log s1) m2h ErrInherit).
  assert (Hlog1 : log s1 = log s ++ [EvSpawn man ErrInherit o1]) by reflexivity.
  destruct o1 as [|out1 err1 code1] eqn:Ho1.
  { split; [reflexivity|]. split; [now intros []|]. split; [now intros ? ? ? []|].
    discriminate. }
  split; [discriminate|].
  destruct o2 as [|out err code] eqn:Ho2.
  { split; [reflexivity|]. split; discriminate. }
  destruct (Z.eqb_spec code 0) as [->|Hcode].
  - split; [discriminate|]. split.
    { intros ? ? ? _ Heq Hne. injection Heq as _ _ <-. now destruct Hne. }
    intros s' Hrun. injection Hrun as <-. split; [discriminate|].
    exists out, err. eexists. split; [reflexivity|]. split; [reflexivity|].
    split; [cbn [log add_event add_file]; rewrite Hlog1, <- !app_assoc; reflexivity|].
    split; reflexivity.
  - split; [discriminate|]. split; [reflexivity|]. discriminate.
Qed.

(** ** The fragments *)

Lemma read_text_state (path : str) (s : state) :
  snd (read_text path s) = s.
Proof.
  unfold read_text.
  destruct (find _ (files s)) as [[p [t|b]]|]; try reflexivity.
  destruct (decode_utf8 b); reflexivity.
Qed.

Lemma find_absent (path : str) (fs : list (str * content)) :
  (forall pc, In pc fs -> fst pc <> path) ->
  find (fun pc => str_eqb (fst pc) path) fs = None.
Proof.
  induction fs as [|pc fs IH]; [reflexivity|]. intro H. cbn [find].
  destruct (str_eqb (fst pc) path) eqn:Heq.
  - apply str_eqb_eq in Heq. exfalso. apply (H pc); [now left|exact Heq].
  - apply IH. intros pc' Hin. apply H. now right.
Qed.

(** X11.  [write_rst] for a command whose HTML file is not there raises
    [FileNotFoundError] before anything else: no directory is made, nothing
    is written, nothing is printed, whatever [sep] is. *)
Theorem write_rst_needs_html (e : env) (command : str) (sep : option str) (s : state) :
  (forall pc, In pc (files s) -> fst pc <> html_file e command) ->
  write_rst e command sep s = (Raise FileNotFoundError, s).
Proof.
  intro H. unfold write_rst. apply bind_raise.
  unfold read_text. now rewrite find_absent.
Qed.

Lemma write_rst_needs_html_witness :
  write_rst (demo_env 0 0 demo_manpage) (lit "build") (Some (lit "build")) init
  = (Raise FileNotFoundError, init).
Proof.
  apply (@write_rst_needs_html (demo_env 0 0 demo_manpage) (lit "build")
           (Some (lit "build")) init).
  intros pc [].
Defined.




Lemma splitlines_from_line (l : str) :
  unbroken l ->
  forall cur rest,
    splitlines_from cur (l ++ LF :: rest) = (cur ++ l) :: splitlines_from [] rest.
Proof.
  induction 1 as [|c l Hc _ IH]; intros cur rest.
  - now rewrite app_nil_r.
  - cbn [app splitlines_from]. rewrite Hc, IH, <- app_assoc. reflexivity.
Qed.

Lemma splitlines_terminated (lines : list str) :
  Forall unbroken lines ->
  splitlines (flat_map (fun l => l ++ [LF]) lines) = lines.
Proof.
  unfold splitlines. induction 1 as [|l lines Hl _ IH]; [reflexivity|].
  cbn [flat_map]. rewrite <- app_assoc. cbn [app].
  rewrite (splitlines_from_line Hl). now rewrite IH.
Qed.

Lemma unbroken_lit_app (a b : str) : unbroken a -> unbroken b -> unbroken (a ++ b).
Proof. intros Ha Hb. apply Forall_app. now split. Qed.

Ltac unbroken_text :=
  lazymatch goal with
  | |- unbroken (_ ++ _) => apply unbroken_lit_app; unbroken_text
  | |- unbroken _ => first [assumption | repeat constructor]
  end.

(** X13.  The fragment [write_rst] writes, read as lines: for a command
    without line boundary, the eight lines of the header with the command in
    the second and the fourth, then every line of the HTML text, each after
    three spaces and in the order of the text.  No line of the HTML text is
    lost or joined with another, and the whole ends with a line feed. *)
Theorem rst_fragment_lines (command html : str) :
  unbroken command ->
  splitlines (RST_HEADER command ++ rst_body html)
  = [ []; lit ".. _" ++ command ++ lit "_ref:"; []; lit "conda " ++ command;
      lit "======================="; []; lit ".. raw:: html"; [] ]
    ++ List.map (fun l => lit "   " ++ l) (splitlines html).
Proof.
  intro Hc.
  set (header := [ []; lit ".. _" ++ command ++ lit "_ref:"; []; lit "conda " ++ command;
                   lit "======================="; []; lit ".. raw:: html"; [] ]).
  set (body := List.map (fun l => lit "   " ++ l) (splitlines html)).
  assert (Htext : RST_HEADER command ++ rst_body html
                  = flat_map (fun l => l ++ [LF]) (header ++ body)).
  { rewrite flat_map_app. f_equal.
    - unfold RST_HEADER, header. cbn [flat_map]. rewrite <- !app_assoc. reflexivity.
    - unfold rst_body, body. rewrite !flat_map_concat_map, map_map. reflexivity. }
  rewrite Htext. apply splitlines_terminated.
  apply Forall_app. split.
  - unfold header.
    repeat match goal with |- Forall unbroken _ => constructor end; unbroken_text.
  - unfold body. apply Forall_forall. intros l Hl.
    apply in_map_iff in Hl as (l0 & <- & Hl0). apply splitlines_unbroken in Hl0.
    unbroken_text.
Qed.

Lemma rst_fragment_lines_witness :
  splitlines (RST_HEADER (lit "skeleton pypi")
              ++ rst_body ([60%N; 80%N; 82%N; 69%N; 62%N; CR; LF; 99%N; LF; LF; 100%N]))
  = [ []; lit ".. _" ++ lit "skeleton pypi" ++ lit "_ref:"; [];
      lit "conda " ++ lit "skeleton pypi";
      lit "======================="; []; lit ".. raw:: html"; [] ]
    ++ List.map (fun l => lit "   " ++ l)
         (splitlines [60%N; 80%N; 82%N; 69%N; 62%N; CR; LF; 99%N; LF; LF; 100%N]).
Proof.
  apply (@rst_fragment_lines (lit "skeleton pypi")).
  repeat constructor.
Defined.

(** ** Failures of the help query *)

(** X14.  [conda_help] keeps no failure: when the list is empty and the
    query of the help text fails, the list is empty afterwards, and the next
    call starts [conda --help] again. *)
Theorem conda_help_failure_not_cached (e : env) (s s1 : state) (r : result str) :
  cache s = [] ->
  conda_help e s = (r, s1) ->
  succeeded r = false ->
  cache s1 = [] /\
  log s1 = log s ++ [EvSpawn help_argv ErrInherit (respond e (log s) help_argv ErrInherit)] /\
  log (snd (conda_help e s1))
  = log s1 ++ [EvSpawn help_argv ErrInherit (respond e (log s1) help_argv ErrInherit)].
Proof.
  intros Hc Hrun Hr.
  pose proof (conda_help_first e s Hc) as H1. cbv zeta in H1. rewrite Hrun in H1.
  assert (Hs1 : s1 = add_event
                       (EvSpawn help_argv ErrInherit (respond e (log s) help_argv ErrInherit)) s).
  { destruct r; [discriminate|exact H1|exact H1]. }
  assert (Hc1 : cache s1 = []) by now rewrite Hs1.
  split; [exact Hc1|]. split; [now rewrite Hs1|].
  pose proof (conda_help_first e s1 Hc1) as H2. cbv zeta in H2.
  destruct (conda_help e s1) as [[h|x|msg] s2]; cbn [snd]; now rewrite H2.
Qed.

Lemma conda_help_failure_not_cached_witness :
  cache (snd (conda_help garbled_env init)) = [] /\
  log (snd (conda_help garbled_env init))
  = log init
    ++ [EvSpawn help_argv ErrInherit (respond garbled_env (log init) help_argv ErrInherit)] /\
  log (snd (conda_help garbled_env (snd (conda_help garbled_env init))))
  = log (snd (conda_help garbled_env init))
    ++ [EvSpawn help_argv ErrInherit
          (respond garbled_env (log (snd (conda_help garbled_env init))) help_argv ErrInherit)].
Proof.
  apply (@conda_help_failure_not_cached garbled_env init
           (snd (conda_help garbled_env init)) (Raise UnicodeDecodeError)).
  - reflexivity.
  - vm_compute. reflexivity.
  - reflexivity.
Defined.

(** ** The table of replacements *)

Lemma dict_set_keys_in {V : Type} (k : str) (v : V) (d : list (str * V)) (k0 : str) :
  In k0 (List.map fst (dict_set k v d)) <-> k0 = k \/ In k0 (List.map fst d).
Proof.
  split; [apply dict_set_keys|].
  induction d as [|[k1 v1] d IH]; cbn [dict_set List.map fst In].
  - intros [->|[]]. now left.
  - destruct (str_eqb k1 k) eqn:E; cbn [List.map fst In].
    + apply str_eqb_eq in E. subst k1. intros [->|[<-|H]]; [now left|now left|now right].
    + intros [->|[<-|H]]; [right; apply IH; now left|now left|right; apply IH; now right].
Qed.

Lemma dict_set_nodup {V : Type} (k : str) (v : V) (d : list (str * V)) :
  NoDup (List.map fst d) -> NoDup (List.map fst (dict_set k v d)).
Proof.
  induction d as [|[k1 v1] d IH]; cbn [dict_set List.map fst]; intro H.
  - constructor; [intros []|constructor].
  - inversion H as [|? ? Hnotin Hd]; subst.
    destruct (str_eqb k1 k) eqn:E; cbn [List.map fst]; [now constructor|].
    constructor; [|now apply IH].
    intro Hin. apply dict_set_keys in Hin as [->|Hin]; [|contradiction].
    now rewrite str_eqb_refl in E.
Qed.

Lemma dict_set_head {V : Type} (k k0 : str) (v v0 : V) (d : list (str * V)) :
  exists v' d', dict_set k v ((k0, v0) :: d) = (k0, v') :: d'.
Proof. cbn [dict_set]. destruct (str_eqb k0 k); eauto. Qed.

Lemma dict_get_app {V : Type} (k : str) (d1 d2 : list (str * V)) :
  dict_get k (d1 ++ d2)
  = match dict_get k d1 with Some v => Some v | None => dict_get k d2 end.
Proof.
  induction d1 as [|[k1 v1] d1 IH]; [reflexivity|]. cbn [app dict_get].
  destruct (str_eqb k1 k); [reflexivity|exact IH].
Qed.

Lemma dict_get_in {V : Type} (k : str) (v : V) (d : list (str * V)) :
  NoDup (List.map fst d) -> In (k, v) d -> dict_get k d = Some v.
Proof.
  induction d as [|[k1 v1] d IH]; [contradiction|]. cbn [List.map fst dict_get In].
  intros Hn [Heq|Hin].
  - injection Heq as -> ->. now rewrite str_eqb_refl.
  - inversion Hn as [|? ? Hnotin Hd]; subst.
    destruct (str_eqb k1 k) eqn:E; [|now apply IH].
    apply str_eqb_eq in E. subst k1. exfalso. apply Hnotin.
    apply in_map_iff. now exists (k, v).
Qed.

Section OrderedDict.

Context {V : Type}.

Let set_pair := fun (d : list (str * V)) (kv : str * V) => dict_set (fst kv) (snd kv) d.

Lemma fold_set_keys (pairs : list (str * V)) :
  forall d k,
    In k (List.map fst (fold_left set_pair pairs d))
    <-> In k (List.map fst pairs) \/ In k (List.map fst d).
Proof.
  induction pairs as [|[k1 v1] pairs IH]; intros d k; cbn [fold_left List.map fst In].
  - tauto.
  - rewrite IH. unfold set_pair at 1. cbn [fst snd]. rewrite dict_set_keys_in.
    split; [intros [H|[->|H]]|intros [[<-|H]|H]]; auto.
Qed.

Lemma fold_set_nodup (pairs : list (str * V)) :
  forall d, NoDup (List.map fst d) -> NoDup (List.map fst (fold_left set_pair pairs d)).
Proof.
  induction pairs as [|[k1 v1] pairs IH]; intros d H; [exact H|].
  cbn [fold_left]. apply IH. now apply dict_set_nodup.
Qed.

Lemma fold_set_get (pairs : list (str * V)) :
  forall d k,
    dict_get k (fold_left set_pair pairs d)
    = match dict_get k (rev pairs) with Some v => Some v | None => dict_get k d end.
Proof.
  induction pairs as [|[k1 v1] pairs IH]; intros d k; [reflexivity|].
  cbn [fold_left rev]. rewrite IH, dict_get_app.
  destruct (dict_get k (rev pairs)); [reflexivity|].
  unfold set_pair. cbn [fst snd dict_get]. rewrite dict_get_set.
  destruct (str_eqb k1 k); reflexivity.
Qed.

Lemma fold_set_head (pairs : list (str * V)) :
  forall k0 v0 d,
    exists v' d', fold_left set_pair pairs ((k0, v0) :: d) = (k0, v') :: d'.
Proof.
  induction pairs as [|[k1 v1] pairs IH]; intros k0 v0 d; [now exists v0, d|].
  cbn [fold_left]. unfold set_pair at 2. cbn [fst snd].
  destruct (dict_set_head k1 k0 v1 v0 d) as (v' & d' & ->). apply IH.
Qed.

End OrderedDict.

Lemma getitem_ok (info : json) (key : str) (s s' : state) (v : json) :
  getitem info key s = (Ok v, s') ->
  s' = s /\ exists members, info = JObj members /\ dict_get key members = Some v.
Proof.
  unfold getitem. destruct info; try discriminate.
  destruct (dict_get key members) as [v'|] eqn:Hget; [|discriminate].
  intro H. injection H as <- <-. split; [reflexivity|]. now exists members.
Qed.

Lemma as_key_ok (k : json) (s s' : state) (t : str) :
  as_key k s = (Ok t, s') -> s' = s /\ k = JStr t.
Proof. destruct k; try discriminate. intro H. now injection H as <- <-. Qed.

Lemma join_iterable_ok (sep : str) (x : json) (s s' : state) (t : str) :
  join_iterable sep x s = (Ok t, s') -> s' = s.
Proof.
  intro H. pose proof (stateless_join_iterable sep x s) as Hs.
  rewrite H in Hs. exact Hs.
Qed.

(** X15.  When the runtime information is an object whose entries
    [default_prefix], [user_rc_path], [sys_rc_path] and [root_prefix] are
    strings and whose [envs_dirs] can be joined, [man_replacements] returns
    a table, the query being all that has happened: its keys are the five
    texts, each once; the first key is the default prefix; and where two of
    the five texts are the same, the replacement of the later one is the one
    that is kept.  So when the root prefix is the default prefix, the table
    never writes [default prefix]. *)
Theorem man_replacements_table (e : env) (s s1 : state) (out : str)
    (members : list (str * json)) (envs_dirs : json)
    (default_prefix envs user_rc_path sys_rc_path root_prefix : str) :
  str_check_output e info_argv s = (Ok out, s1) ->
  json_loads e out = Some (JObj members) ->
  dict_get (lit "default_prefix") members = Some (JStr default_prefix) ->
  dict_get (lit "envs_dirs") members = Some envs_dirs ->
  join_iterable (pathsep e) envs_dirs s1 = (Ok envs, s1) ->
  dict_get (lit "user_rc_path") members = Some (JStr user_rc_path) ->
  dict_get (lit "sys_rc_path") members = Some (JStr sys_rc_path) ->
  dict_get (lit "root_prefix") members = Some (JStr root_prefix) ->
  exists table,
    man_replacements e s = (Ok table, s1) /\
    NoDup (List.map fst table) /\
    (forall k, In k (List.map fst table)
               <-> In k [default_prefix; envs; user_rc_path; sys_rc_path; root_prefix]) /\
    (exists v rest, table = (default_prefix, v) :: rest) /\
    (forall k, dict_get k table
               = dict_get k [ (root_prefix, lit "root prefix");
                              (sys_rc_path, lit "\fI\,system .condarc path\/\fP");
                              (user_rc_path, lit "\fI\,user .condarc path\/\fP");
                              (envs, lit "envs dirs");
                              (default_prefix, lit "default prefix") ]) /\
    (root_prefix = default_prefix -> ~ In (lit "default prefix") (List.map snd table)).
Proof.
  intros Hout Hj Hdp Hed Henvs Hup Hsp Hrp.
  set (pairs := [ (default_prefix, lit "default prefix"); (envs, lit "envs dirs");
                  (user_rc_path, lit "\fI\,user .condarc path\/\fP");
                  (sys_rc_path, lit "\fI\,system .condarc path\/\fP");
                  (root_prefix, lit "root prefix") ]).
  exists (ordered_dict pairs). split.
  { unfold man_replacements. erewrite bind_ok by exact Hout. rewrite Hj.
    erewrite bind_ok by reflexivity.
    erewrite bind_ok by (unfold getitem; rewrite Hdp; reflexivity).
    erewrite bind_ok by (unfold getitem; rewrite Hed; reflexivity).
    erewrite bind_ok by exact Henvs.
    erewrite bind_ok by (unfold getitem; rewrite Hup; reflexivity).
    erewrite bind_ok by (unfold getitem; rewrite Hsp; reflexivity).
    erewrite bind_ok by (unfold getitem; rewrite Hrp; reflexivity).
    reflexivity. }
  assert (Hnd : NoDup (List.map fst (ordered_dict pairs))).
  { apply fold_set_nodup. constructor. }
  assert (Hget : forall k, dict_get k (ordered_dict pairs) = dict_get k (rev pairs)).
  { intro k. unfold ordered_dict. rewrite fold_set_get.
    now destruct (dict_get k (rev pairs)). }
  split; [exact Hnd|]. split.
  { intro k. unfold ordered_dict. rewrite fold_set_keys. cbn [List.map fst pairs In]. tauto. }
  split.
  { exact (fold_set_head (List.tl pairs) default_prefix (lit "default prefix") []). }
  split; [exact Hget|].
  intros Heq Hin. apply in_map_iff in Hin as ([k v] & Hv & Hin). cbn [snd] in Hv. subst v.
  apply (@dict_get_in _ _ _ _ Hnd) in Hin. rewrite Hget in Hin.
  cbn [pairs rev app dict_get] in Hin. rewrite Heq in Hin.
  destruct (str_eqb default_prefix k); [discriminate|].
  destruct (str_eqb sys_rc_path k); [discriminate|].
  destruct (str_eqb user_rc_path k); [discriminate|].
  destruct (str_eqb envs k); discriminate.
Qed.

Lemma man_replacements_table_witness :
  exists table,
    man_replacements (demo_env 0 0 demo_manpage) init
    = (Ok table, snd (man_replacements (demo_env 0 0 demo_manpage) init)) /\
    NoDup (List.map fst table) /\
    (forall k, In k (List.map fst table)
               <-> In k [ lit "/opt/conda"; lit "/opt/conda/envs:/home/docs/.conda/envs";
                          lit "/home/docs/.condarc"; lit "/opt/conda/.condarc";
                          lit "/opt/conda" ]) /\
    (exists v rest, table = (lit "/opt/conda", v) :: rest) /\
    (forall k, dict_get k table
               = dict_get k [ (lit "/opt/conda", lit "root prefix");
                              (lit "/opt/conda/.condarc",
                               lit "\fI\,system .condarc path\/\fP");
                              (lit "/home/docs/.condarc",
                               lit "\fI\,user .condarc path\/\fP");
                              (lit "/opt/conda/envs:/home/docs/.conda/envs", lit "envs dirs");
                              (lit "/opt/conda", lit "default prefix") ]) /\
    (lit "/opt/conda" = lit "/opt/conda" ->
     ~ In (lit "default prefix") (List.map snd table)).
Proof.
  apply (@man_replacements_table (demo_env 0 0 demo_manpage) init
           (snd (man_replacements (demo_env 0 0 demo_manpage) init))
           demo_info_text
           [ (lit "default_prefix", JStr (lit "/opt/conda"));
             (lit "envs_dirs",
              JArr [JStr (lit "/opt/conda/envs"); JStr (lit "/home/docs/.conda/envs")]);
             (lit "user_rc_path", JStr (lit "/home/docs/.condarc"));
             (lit "sys_rc_path", JStr (lit "/opt/conda/.condarc"));
             (lit "root_prefix", JStr (lit "/opt/conda")) ]
           (JArr [JStr (lit "/opt/conda/envs"); JStr (lit "/home/docs/.conda/envs")]));
    vm_compute; reflexivity.
Defined.

Lemma join_iterable_cases (sep : str) (x : json) (s : state) :
  (exists t, join_iterable sep x s = (Ok t, s)) \/
  join_iterable sep x s = (Raise TypeError, s).
Proof.
  destruct x; cbn; try (now right); try (left; eexists; reflexivity).
  destruct (all_str items); [left; eexists; reflexivity|now right].
Qed.

(** X16.  How [man_replacements] fails once [conda info --json] has given
    its text: [JSONDecodeError] when the text is not JSON; [TypeError] when
    it is JSON but not an object; and when it is an object without one of the
    five entries the call never returns: it raises [KeyError], at once when
    the entry is [default_prefix] or [envs_dirs], or [TypeError] when
    [envs_dirs] cannot be joined.  In each case the query is all that has
    happened. *)
Theorem man_replacements_errors (e : env) (s s1 : state) (out : str) :
  str_check_output e info_argv s = (Ok out, s1) ->
  match json_loads e out with
  | None => man_replacements e s = (Raise JSONDecodeError, s1)
  | Some (JObj members) =>
      ((exists key,
          In key [ lit "default_prefix"; lit "envs_dirs"; lit "user_rc_path";
                   lit "sys_rc_path"; lit "root_prefix" ] /\
          dict_get key members = None) ->
       man_replacements e s = (Raise KeyError, s1) \/
       man_replacements e s = (Raise TypeError, s1)) /\
      (dict_get (lit "default_prefix") members = None \/
       dict_get (lit "envs_dirs") members = None ->
       man_replacements e s = (Raise KeyError, s1))
  | Some _ => man_replacements e s = (Raise TypeError, s1)
  end.
Proof.
  intro Hout. remember (man_replacements e s) as r eqn:Hr.
  unfold man_replacements in Hr. erewrite bind_ok in Hr by exact Hout.
  destruct (json_loads e out) as [[| | | | |members]|]; try exact Hr.
  unfold bind at 1 in Hr. unfold ret at 1 in Hr.
  assert (Hstep : forall key (k : json -> M (list (str * str))),
             (v <- getitem (JObj members) key ;; k v) s1
             = match dict_get key members with
               | Some v => k v s1
               | None => (Raise KeyError, s1)
               end).
  { intros key k. unfold bind, getitem.
    destruct (dict_get key members); reflexivity. }
  rewrite Hstep in Hr.
  destruct (dict_get (lit "default_prefix") members) as [dp|] eqn:H1.
  2:{ split; [now left|now intros _]. }
  rewrite Hstep in Hr.
  destruct (dict_get (lit "envs_dirs") members) as [ed|] eqn:H2.
  2:{ split; [now left|now intros _]. }
  split; [|intros [|]; discriminate].
  intros (key & Hin & Hnone).
  destruct (join_iterable_cases (pathsep e) ed s1) as [(envs & Hj)|Hj].
  2:{ right. now erewrite bind_raise in Hr by exact Hj. }
  erewrite bind_ok in Hr by exact Hj. left.
  rewrite Hstep in Hr.
  destruct (dict_get (lit "user_rc_path") members) as [up|] eqn:H3; [|exact Hr].
  rewrite Hstep in Hr.
  destruct (dict_get (lit "sys_rc_path") members) as [sp|] eqn:H4; [|exact Hr].
  rewrite Hstep in Hr.
  destruct (dict_get (lit "root_prefix") members) as [rp|] eqn:H5; [|exact Hr].
  exfalso. cbn [In] in Hin.
  destruct Hin as [<-|[<-|[<-|[<-|[<-|[]]]]]]; congruence.
Qed.

Lemma man_replacements_errors_witness :
  man_replacements (info_env (Some old_info)) init
  = (Raise KeyError,
     add_event (EvSpawn info_argv ErrInherit (Exited (blit "{}") [] 0)) init) \/
  man_replacements (info_env (Some old_info)) init
  = (Raise TypeError,
     add_event (EvSpawn info_argv ErrInherit (Exited (blit "{}") [] 0)) init).
Proof.
  refine (proj1 (@man_replacements_errors (info_env (Some old_info)) init
                   (add_event (EvSpawn info_argv ErrInherit (Exited (blit "{}") [] 0)) init)
                   (lit "{}") _) _).
  - vm_compute. reflexivity.
  - exists (lit "user_rc_path"). split; [right; right; now left|reflexivity].
Defined.

(** ** A run that stops in the generation *)

Lemma generate_html_writes (e : env) (command : str) (s : state) :
  exists new,
    log (snd (generate_html e command s)) = log s ++ new /\
    forall p, In p (writes new) -> p = html_file e command.
Proof.
  rewrite generate_html_unfold. cbv zeta.
  destruct (respond e (log s) _ ErrInherit) as [|out1 err1 code1].
  { eexists [_]. split; [reflexivity|]. intros p []. }
  destruct (respond e _ (man2html_argv _) ErrInherit) as [|out err code].
  { eexists [_; _]. cbn [snd log add_event]. rewrite <- app_assoc.
    split; [reflexivity|]. intros p []. }
  destruct (code =? 0)%Z.
  - eexists [_; _; _; _]. cbn [snd log add_event add_file]. rewrite <- !app_assoc.
    split; [reflexivity|]. intros p [<-|[]]. reflexivity.
  - eexists [_; _]. cbn [snd log add_event]. rewrite <- app_assoc.
    split; [reflexivity|]. intros p [].
Qed.

Lemma gen_command_writes (e : env) (command : str) (s : state) :
  exists new,
    log (snd (gen_command e command tt s)) = log s ++ new /\
    forall p, In p (writes new) -> p = man_file e command \/ p = html_file e command.
Proof.
  unfold gen_command.
  destruct (generate_man e command s) as [[[]|x|msg] s1] eqn:Hman.
  - erewrite bind_ok by exact Hman.
    apply generate_man_ok in Hman as (n1 & Hl1 & _ & Hw1).
    destruct (generate_html_writes e command s1) as (n2 & Hl2 & Hw2).
    exists (n1 ++ n2). split; [now rewrite Hl2, Hl1, <- app_assoc|].
    intros p Hp. rewrite writes_app, Hw1 in Hp.
    destruct Hp as [<-|Hp]; [now left|right; now apply Hw2].
  - erewrite bind_raise by exact Hman.
    apply generate_man_failed in Hman as (new & Hl & Hw & _); [|reflexivity].
    exists new. split; [exact Hl|]. rewrite Hw. intros p [].
  - erewrite bind_exit by exact Hman.
    apply generate_man_failed in Hman as (new & Hl & Hw & _); [|reflexivity].
    exists new. split; [exact Hl|]. rewrite Hw. intros p [].
Qed.

Lemma gen_commands_writes (e : env) (tasks : list str) :
  forall s,
    exists new,
      log (snd (for_each (gen_command e) tasks tt s)) = log s ++ new /\
      forall p, In p (writes new) ->
                exists command,
                  In command tasks /\ (p = man_file e command \/ p = html_file e command).
Proof.
  induction tasks as [|command tasks IH]; intro s.
  - exists []. split; [now rewrite app_nil_r|]. intros p [].
  - cbn [for_each].
    destruct (gen_command_writes e command s) as (n1 & Hl1 & Hw1).
    destruct (gen_command e command tt s) as [[[]|x|msg] s1] eqn:Hgen; cbn [snd] in Hl1.
    + erewrite bind_ok by exact Hgen.
      destruct (IH s1) as (n2 & Hl2 & Hw2).
      exists (n1 ++ n2). split; [now rewrite Hl2, Hl1, <- app_assoc|].
      intros p Hp. rewrite writes_app in Hp. apply in_app_or in Hp as [Hp|Hp].
      * exists command. split; [now left|now apply Hw1].
      * destruct (Hw2 p Hp) as (c & Hc & Hpc). exists c. split; [now right|exact Hpc].
    + erewrite bind_raise by exact Hgen. exists n1. split; [exact Hl1|].
      intros p Hp. exists command. split; [now left|now apply Hw1].
    + erewrite bind_exit by exact Hgen. exists n1. split; [exact Hl1|].
      intros p Hp. exists command. split; [now left|now apply Hw1].
Qed.

Lemma never_converts_attempt (e : env) (command v : str) (s : state) :
  never_converts e command ->
  match run_command e (help2man_argv command v) false s with
  | (Ok manpage, _) => manpage = []
  | _ => True
  end.
Proof.
  intro H. rewrite run_command_unfold. cbv zeta.
  destruct (respond e (log s) (help2man_argv command v) ErrPipe) as [|out err code] eqn:Hr;
    [exact I|].
  apply H in Hr. subst out. cbn [decode_utf8].
  now destruct (decode_utf8 err).
Qed.

Lemma never_converts_loop (e : env) (command v : str) (retries : nat) :
  never_converts e command ->
  forall s,
    match man_loop e command v retries [] s with
    | (Ok manpage, _) => manpage = []
    | _ => True
    end.
Proof.
  intro H. induction retries as [|n IH]; intro s; [reflexivity|].
  cbn [man_loop is_empty].
  pose proof (@never_converts_attempt e command v s H) as Ha.
  destruct (run_command e (help2man_argv command v) false s) as [[manpage|x|msg] s1] eqn:Hrun.
  - subst manpage. erewrite bind_ok by exact Hrun. apply IH.
  - now erewrite bind_raise by exact Hrun.
  - now erewrite bind_exit by exact Hrun.
Qed.

Lemma never_converts_no_page (e : env) (command : str) (s : state) :
  never_converts e command ->
  succeeded (fst (generate_man e command s)) = false.
Proof.
  intro H. pose proof (generate_man_stages e command s) as Hst.
  destruct (run_command e version_argv true s) as [[v|x|msg] s0];
    [|now rewrite Hst|now rewrite Hst].
  pose proof (@never_converts_loop e command v 5 H s0) as Hl.
  destruct (man_loop e command v 5 [] s0) as [[manpage|x|msg] s1];
    [|now rewrite Hst|now rewrite Hst].
  subst manpage. cbn [is_empty] in Hst. now rewrite Hst.
Qed.

Lemma gen_commands_fail (e : env) (command : str) (tasks : list str) :
  never_converts e command -> In command tasks ->
  forall s, succeeded (fst (for_each (gen_command e) tasks tt s)) = false.
Proof.
  intros H. induction tasks as [|c tasks IH]; intros Hin s; [contradiction|].
  cbn [for_each].
  destruct (gen_command e c tt s) as [[[]|x|msg] s1] eqn:Hgen.
  - erewrite bind_ok by exact Hgen. destruct Hin as [->|Hin]; [|now apply IH].
    exfalso. unfold gen_command in Hgen.
    pose proof (@never_converts_no_page e command s H) as Hno.
    destruct (generate_man e command s) as [[[]|x|msg] s0] eqn:Hman; try discriminate.
    + now erewrite bind_raise in Hgen by exact Hman.
    + now erewrite bind_exit in Hgen by exact Hman.
  - now erewrite bind_raise by exact Hgen.
  - now erewrite bind_exit by exact Hgen.
Qed.

(** X17.  A command for which the converter never prints anything stops
    the run: when it is among the commands of the run, [main] does not
    return, whatever the other commands are and whichever task is the one
    whose failure ends the run; [write_rst] is never called, so no fragment
    is written, and the files written are manual pages and HTML files of
    commands of the run. *)
Theorem main_fails_without_a_page (e : env) (argv : list str) (command : str)
    (s : state) :
  fair e ->
  In command (resolve argv) ->
  never_converts e command ->
  succeeded (fst (main e argv s)) = false /\
  exists new,
    log (snd (main e argv s)) = log s ++ new /\
    forall p, In p (writes new) ->
              exists c, In c (resolve argv) /\ (p = man_file e c \/ p = html_file e c).
Proof.
  intros Hfair Hin Hnever.
  assert (Hsched : In command (schedule e (resolve argv))).
  { eapply Permutation_in; [apply Permutation_sym, Hfair|exact Hin]. }
  pose proof (@gen_commands_fail e command _ Hnever Hsched s) as Hfail.
  destruct (gen_commands_writes e (schedule e (resolve argv)) s) as (new & Hl & Hw).
  assert (Hmain : main e argv s = for_each (gen_command e) (schedule e (resolve argv)) tt s).
  { unfold main. unfold bind at 1. cbn [thread_pool ret]. unfold executor_map.
    destruct (for_each (gen_command e) (schedule e (resolve argv)) tt s)
      as [[[]|x|msg] s1] eqn:Hrun; [discriminate| |].
    - now apply bind_raise.
    - now apply bind_exit. }
  rewrite Hmain. split; [exact Hfail|].
  exists new. split; [exact Hl|].
  intros p Hp. destruct (Hw p Hp) as (c & Hc & Hpc). exists c. split; [|exact Hpc].
  eapply Permutation_in; [apply Hfair|exact Hc].
Qed.

Lemma main_fails_without_a_page_witness :
  succeeded (fst (main (no_page_env (lit "render"))
                    [lit "build"; lit "render"; lit "index"] init)) = false /\
  exists new,
    log (snd (main (no_page_env (lit "render"))
                [lit "build"; lit "render"; lit "index"] init))
    = log init ++ new /\
    forall p, In p (writes new) ->
              exists c,
                In c (resolve [lit "build"; lit "render"; lit "index"]) /\
                (p = man_file (no_page_env (lit "render")) c \/
                 p = html_file (no_page_env (lit "render")) c).
Proof.
  apply (@main_fails_without_a_page (no_page_env (lit "render"))
           [lit "build"; lit "render"; lit "index"] (lit "render") init).
  - intro xs. apply Permutation_refl.
  - right. now left.
  - intros history v out err code Hr. cbn [respond no_page_env] in Hr.
    change (head_is (lit "help2man") (help2man_argv (lit "render") v)) with true in Hr.
    change (nth 2 (help2man_argv (lit "render") v) []) with (lit "conda " ++ lit "render") in Hr.
    rewrite str_eqb_refl in Hr. cbn [andb] in Hr. now injection Hr as <- _ _.
Defined.

(** ** The pattern of the subcommands *)

Lemma lstrip_split (s : str) : exists w, spaces w /\ s = w ++ lstrip s.
Proof.
  induction s as [|c s (w & Hw & IH)]; [exists []; split; [constructor|reflexivity]|].
  cbn [lstrip]. destruct (isspace c) eqn:Hc.
  - exists (c :: w). split; [now constructor|]. cbn [app]. now rewrite <- IH.
  - exists []. split; [constructor|reflexivity].
Qed.

Lemma before_last_none (c : char) (s : str) : before_last c s = None -> ~ In c s.
Proof.
  induction s as [|d s IH]; [intros _ []|]. cbn [before_last].
  destruct (before_last c s); [discriminate|].
  destruct (N.eqb_spec d c) as [->|Hd]; [discriminate|].
  intros _ [Heq|Hin]; [contradiction|]. now apply IH.
Qed.

Lemma before_last_some (c : char) (s : str) :
  forall p, before_last c s = Some p -> exists r, s = p ++ c :: r /\ ~ In c r.
Proof.
  induction s as [|d s IH]; [discriminate|]. intro p. cbn [before_last].
  destruct (before_last c s) as [p'|] eqn:Hb.
  - intro H. injection H as <-. destruct (IH p' eq_refl) as (r & -> & Hr).
    now exists r.
  - destruct (N.eqb_spec d c) as [->|Hd]; [|discriminate].
    intro H. injection H as <-. exists s. split; [reflexivity|].
    now apply before_last_none.
Qed.

Lemma until_char_split (c : char) (s : str) :
  exists t, s = until_char c s ++ t /\ ~ In c (until_char c s) /\
            (t = [] \/ exists t', t = c :: t').
Proof.
  induction s as [|d s (t & Hs & Hn & Ht)].
  - exists []. split; [reflexivity|]. split; [intros []|now left].
  - cbn [until_char]. destruct (N.eqb_spec d c) as [->|Hd].
    + exists (c :: s). split; [reflexivity|]. split; [intros []|right; now exists s].
    + exists t. split; [cbn [app]; now rewrite <- Hs|]. split; [|exact Ht].
      intros [Heq|Hin]; [contradiction|now apply Hn].
Qed.

Lemma until_char_app (c : char) (a b : str) :
  ~ In c a -> until_char c (a ++ b) = a ++ until_char c b.
Proof.
  induction a as [|d a IH]; intro H; [reflexivity|]. cbn [app until_char].
  destruct (N.eqb_spec d c) as [->|_]; [exfalso; apply H; now left|].
  f_equal. apply IH. intro Hin. apply H. now right.
Qed.

(** X18.  What the pattern of [external_commands] takes from a line: the
    line has to begin, after white space, with an opening brace and to hold a
    closing brace before its first line feed; the group is all there is
    between the opening brace and the last such closing brace, further braces
    included, and what follows is not looked at. *)
Theorem subcommands_re_match_group (line body : str) :
  subcommands_re_match line = Some body <->
  exists w rest,
    spaces w /\
    line = w ++ LBRACE :: body ++ RBRACE :: rest /\
    ~ In LF body /\
    ~ In RBRACE (until_char LF rest).
Proof.
  unfold subcommands_re_match. split.
  - destruct (lstrip_split line) as (w & Hw & Hline).
    destruct (lstrip line) as [|c body'] eqn:Hl; [discriminate|].
    destruct (N.eqb_spec c LBRACE) as [->|_]; [|discriminate].
    intro H. apply before_last_some in H as (r & Hu & Hr).
    destruct (until_char_split LF body') as (t & Hb & Hn & Ht).
    rewrite Hu in Hb, Hn.
    exists w, (r ++ t). split; [exact Hw|]. split.
    { rewrite Hline, Hb, <- app_assoc. reflexivity. }
    split.
    { intro Hin. apply Hn. apply in_or_app. now left. }
    assert (Hnr : ~ In LF r).
    { intro Hin. apply Hn. apply in_or_app. right. now right. }
    rewrite until_char_app by exact Hnr.
    destruct Ht as [->|(t' & ->)]; cbn [until_char]; [|rewrite N.eqb_refl];
      now rewrite app_nil_r.
  - intros (w & rest & Hw & -> & Hb & Hr).
    rewrite lstrip_spaces by (exact Hw || reflexivity).
    rewrite N.eqb_refl, until_char_app by exact Hb.
    cbn [until_char]. change (RBRACE =? LF)%N with false. cbv iota.
    now apply before_last_found.
Qed.

Lemma scan_subcommands_after (command hline : str) (pre rest : list str) :
  (forall l, In l pre -> strip l <> lit "positional arguments:") ->
  strip hline = lit "positional arguments:" ->
  scan_subcommands command (pre ++ hline :: rest) false
  = scan_subcommands command rest true.
Proof.
  intros Hpre Hhd. rewrite scan_subcommands_before by assumption.
  cbn [scan_subcommands]. now rewrite Hhd, str_eqb_refl.
Qed.

(** X19.  The inner loop of [external_commands] looks at one line only:
    the first line after the header [positional arguments:] that is not that
    header again.  When the line has the pattern, its group cut at the commas
    gives the subcommands; when it has not, the command gets none, whatever
    the lines after it are. *)
Theorem scan_subcommands_reads_one_line (command hline line : str)
    (pre rest : list str) :
  (forall l, In l pre -> strip l <> lit "positional arguments:") ->
  strip hline = lit "positional arguments:" ->
  strip line <> lit "positional arguments:" ->
  scan_subcommands command (pre ++ hline :: line :: rest) false
  = match subcommands_re_match line with
    | Some group => List.map (fun i => command ++ lit " " ++ i) (split_char COMMA group)
    | None => []
    end.
Proof.
  intros Hpre Hhd Hline. rewrite scan_subcommands_after by assumption.
  cbn [scan_subcommands].
  now replace (str_eqb (strip line) (lit "positional arguments:")) with false
    by (symmetry; now apply str_eqb_neq).
Qed.

Lemma scan_subcommands_reads_one_line_witness :
  scan_subcommands (lit "skeleton")
    ([lit "usage: conda-skeleton [-h] {cpan,cran,pypi} ..."]
     ++ lit "positional arguments:" :: [] :: [lit "  {cpan,cran,pypi}"]) false
  = match subcommands_re_match [] with
    | Some group =>
        List.map (fun i => lit "skeleton" ++ lit " " ++ i) (split_char COMMA group)
    | None => []
    end.
Proof.
  apply (@scan_subcommands_reads_one_line (lit "skeleton") (lit "positional arguments:") []
           [lit "usage: conda-skeleton [-h] {cpan,cran,pypi} ..."]
           [lit "  {cpan,cran,pypi}"]).
  - intros l [<-|[]]. vm_compute. discriminate.
  - reflexivity.
  - vm_compute. discriminate.
Defined.

(** ** The directories *)



(** ** What [main] leaves alone *)

Lemma loop_event_not_help_query (command v : str) (l : list event) :
  Forall (loop_event command v) l -> help_queries l = 0.
Proof.
  induction 1 as [|ev l Hev _ IH]; [reflexivity|].
  destruct Hev as [(o & ->)|Hq]; [exact IH|].
  destruct ev; try contradiction. exact IH.
Qed.

Lemma quiet_help_queries (l : list event) : Forall quiet l -> help_queries l = 0.
Proof. intro H. unfold help_queries. now rewrite (quiet_not_help_query H). Qed.

Lemma generate_man_no_help_query (e : env) (command : str) (s : state) :
  exists new,
    log (snd (generate_man e command s)) = log s ++ new /\ help_queries new = 0.
Proof.
  destruct (generate_man_trace e command s)
    as (printed & Hv & Hq & rest & Hlog & _ & _ & Hrest).
  cbn zeta in Hv, Hlog, Hrest.
  rewrite Hv, <- app_assoc in Hlog. cbn [app] in Hlog.
  eexists. split; [exact Hlog|].
  change (help_queries (EvSpawn version_argv ErrMerged
                          (respond e (log s) version_argv ErrMerged) :: printed ++ rest))
    with (help_queries (printed ++ rest)).
  rewrite help_queries_app, (quiet_help_queries Hq).
  destruct (run_command e version_argv true s) as [[v|x|msg] s0].
  - destruct Hrest as (loop & tail & -> & _ & _ & _ & Hall & Htail & _).
    rewrite help_queries_app, (loop_event_not_help_query Hall).
    unfold man_tail in Htail.
    destruct (succeeded (fst (generate_man e command s))).
    + destruct Htail as (o & page & ->). reflexivity.
    + destruct Htail as [->|(o & ->)]; reflexivity.
  - now destruct Hrest as (-> & _).
  - now destruct Hrest as (-> & _).
Qed.

Lemma generate_html_no_help_query (e : env) (command : str) (s : state) :
  exists new,
    log (snd (generate_html e command s)) = log s ++ new /\ help_queries new = 0.
Proof.
  rewrite generate_html_unfold. cbv zeta.
  destruct (respond e (log s) _ ErrInherit) as [|out1 err1 code1].
  { eexists [_]. split; reflexivity. }
  destruct (respond e _ (man2html_argv _) ErrInherit) as [|out err code].
  { eexists [_; _]. cbn [snd log add_event]. rewrite <- app_assoc. split; reflexivity. }
  destruct (code =? 0)%Z.
  - eexists [_; _; _; _]. cbn [snd log add_event add_file]. rewrite <- !app_assoc.
    split; reflexivity.
  - eexists [_; _]. cbn [snd log add_event]. rewrite <- app_assoc. split; reflexivity.
Qed.

Lemma write_rst_no_process (e : env) (command : str) (sep : option str) (s : state) :
  exists new,
    log (snd (write_rst e command sep s)) = log s ++ new /\ filter is_spawn new = [].
Proof.
  unfold write_rst.
  destruct (read_text (html_file e command) s) as [[html|x|msg] s0] eqn:Hread;
    pose proof (read_text_state (html_file e command) s) as Hs;
    rewrite Hread in Hs; cbn [snd] in Hs; subst s0.
  - erewrite bind_ok by exact Hread.
    unfold bind, isdir, makedirs, write_file, say, print, emit, ret.
    match goal with |- context [existsb ?f (dirs s)] => destruct (existsb f (dirs s)) end.
    + eexists [_; _]. cbn [snd log add_event add_file add_dir]. rewrite <- !app_assoc.
      split; reflexivity.
    + eexists [_; _; _]. cbn [snd log add_event add_file add_dir]. rewrite <- !app_assoc.
      split; reflexivity.
  - erewrite bind_raise by exact Hread. exists []. now rewrite app_nil_r.
  - erewrite bind_exit by exact Hread. exists []. now rewrite app_nil_r.
Qed.

Lemma no_process_no_help_query (l : list event) :
  filter is_spawn l = [] -> help_queries l = 0.
Proof.
  induction l as [|ev l IH]; [reflexivity|].
  destruct ev; cbn [filter is_spawn]; try discriminate; exact IH.
Qed.

Lemma for_each_no_help_query {A : Type} (body : A -> unit -> M unit) (xs : list A) :
  (forall x s, exists new,
      log (snd (body x tt s)) = log s ++ new /\ help_queries new = 0) ->
  forall s, exists new,
    log (snd (for_each body xs tt s)) = log s ++ new /\ help_queries new = 0.
Proof.
  intro Hbody. induction xs as [|x xs IH]; intro s.
  - exists []. now rewrite app_nil_r.
  - cbn [for_each]. destruct (Hbody x s) as (n1 & Hl1 & Hq1).
    destruct (body x tt s) as [[[]|e0|msg] s1] eqn:Hb; cbn [snd] in Hl1.
    + erewrite bind_ok by exact Hb. destruct (IH s1) as (n2 & Hl2 & Hq2).
      exists (n1 ++ n2). split; [now rewrite Hl2, Hl1, <- app_assoc|].
      rewrite help_queries_app. lia.
    + erewrite bind_raise by exact Hb. now exists n1.
    + erewrite bind_exit by exact Hb. now exists n1.
Qed.

(** X21.  [main] makes no use of the help text: however the run ends, it
    has not started [conda --help], and the list of [conda_help] is as it
    was.  The commands it works on come from the command line or from the
    list written in [main], never from [conda_commands] or
    [external_commands]. *)
Theorem main_never_asks_for_help (e : env) (argv : list str) (s : state) :
  cache (snd (main e argv s)) = cache s /\
  exists new,
    log (snd (main e argv s)) = log s ++ new /\ help_queries new = 0.
Proof.
  split; [apply keeps_main|].
  unfold main. unfold bind at 1. cbn [thread_pool ret]. unfold executor_map.
  assert (Hgen : forall s0, exists new,
             log (snd (for_each (gen_command e) (schedule e (resolve argv)) tt s0))
             = log s0 ++ new /\ help_queries new = 0).
  { apply for_each_no_help_query. intros c s0. unfold gen_command.
    destruct (generate_man_no_help_query e c s0) as (n1 & Hl1 & Hq1).
    destruct (generate_man e c s0) as [[[]|x|msg] s1] eqn:Hman; cbn [snd] in Hl1.
    - erewrite bind_ok by exact Hman.
      destruct (generate_html_no_help_query e c s1) as (n2 & Hl2 & Hq2).
      exists (n1 ++ n2). split; [now rewrite Hl2, Hl1, <- app_assoc|].
      rewrite help_queries_app. lia.
    - erewrite bind_raise by exact Hman. now exists n1.
    - erewrite bind_exit by exact Hman. now exists n1. }
  destruct (Hgen s) as (n1 & Hl1 & Hq1).
  destruct (for_each (gen_command e) (schedule e (resolve argv)) tt s)
    as [[[]|x|msg] s1] eqn:Hrun; cbn [snd] in Hl1.
  - erewrite bind_ok by exact Hrun.
    destruct (@for_each_no_help_query str (fun command _ => write_rst e command None)
                (filter (fun c => existsb (str_eqb c) (resolve argv)) build_commands))
      with (s := s1) as (n2 & Hl2 & Hq2).
    { intros c s0. destruct (write_rst_no_process e c None s0) as (n & Hl & Hn).
      exists n. split; [exact Hl|now apply no_process_no_help_query]. }
    exists (n1 ++ n2). split; [now rewrite Hl2, Hl1, <- app_assoc|].
    rewrite help_queries_app. lia.
  - erewrite bind_raise by exact Hrun. now exists n1.
  - erewrite bind_exit by exact Hrun. now exists n1.
Qed.

(** ** When [run_command] raises *)


(** ** Reading the HTML file in text mode *)

Lemma splitlines_from_universal (n : nat) :
  forall s cur,
    length s <= n ->
    splitlines_from cur (universal_newlines s) = splitlines_from cur s.
Proof.
  induction n as [|n IH]; intros s cur Hlen.
  { destruct s; [reflexivity|cbn in Hlen; lia]. }
  destruct s as [|c s]; [reflexivity|]. cbn [length] in Hlen.
  cbn [universal_newlines splitlines_from].
  destruct (N.eqb_spec c CR) as [->|Hc].
  - change (islinebreak CR) with true. cbv iota.
    cbn [splitlines_from]. change (islinebreak LF) with true.
    change (LF =? CR)%N with false. cbv iota. f_equal.
    destruct s as [|d s]; [reflexivity|]. cbn [length] in Hlen.
    destruct (d =? LF)%N.
    + apply IH. lia.
    + apply IH. cbn [length]. lia.
  - cbn [splitlines_from]. apply N.eqb_neq in Hc. rewrite Hc.
    destruct (islinebreak c); [f_equal|]; apply IH; lia.
Qed.

(** X23.  The translation of line ends that reading in text mode does
    changes no line: the lines of the translated text are the lines of the
    text, so the fragment [write_rst] writes is the one of the HTML text as
    [man2html] gave it, whatever its line ends. *)
Theorem text_mode_keeps_lines (html : str) :
  splitlines (universal_newlines html) = splitlines html /\
  rst_body (universal_newlines html) = rst_body html.
Proof.
  assert (H : splitlines (universal_newlines html) = splitlines html)
    by (apply (@splitlines_from_universal (length html)); lia).
  split; [exact H|]. unfold rst_body. now rewrite H.
Qed.
